(** * ratbag-command: the subcommand dispatcher of libratbag's command-line tool

    A shallow embedding of [tools/ratbag-command.c]: the command tree, the
    usage formatter, the lazy context resolution ([fill_options]), the
    recursive dispatcher ([run_subcommand]) with every handler, the button
    action encoder and [main].

    libratbag, libevdev and libc are not part of the embedded file.  Their
    observable behaviour is a parameter of the development (record
    [collaborator]); every call that takes or drops a reference, changes
    the device or prints something is recorded in a trace of [event]s. *)

From Stdlib Require Import ZArith Ascii String List Lia.
From stdpp Require Import base decidable countable strings list gmultiset.

Local Open Scope string_scope.
Local Open Scope list_scope.
Local Open Scope Z_scope.

(** ** C data *)

(** [int]: a 32-bit two's complement integer, wrap-around written out. *)
Definition to_int (z : Z) : Z := (z + 2 ^ 31) mod 2 ^ 32 - 2 ^ 31.

(** [unsigned int]. *)
Definition to_uint (z : Z) : Z := z mod 2 ^ 32.

Definition strlen (s : string) : Z := Z.of_nat (String.length s).

Definition streq (a b : string) : bool := String.eqb a b.

(** [enum errors] *)
Definition SUCCESS : Z := 0.
Definition ERR_UNSUPPORTED : Z := 1.
Definition ERR_USAGE : Z := 2.
Definition ERR_DEVICE : Z := 3.

(** [enum cmd_flags] *)
Definition FLAG_VERBOSE : Z := Z.shiftl 1 0.
Definition FLAG_VERBOSE_RAW : Z := Z.shiftl 1 1.
Definition FLAG_NEED_DEVICE : Z := Z.shiftl 1 10.
Definition FLAG_NEED_PROFILE : Z := Z.shiftl 1 11.
Definition FLAG_NEED_RESOLUTION : Z := Z.shiftl 1 12.

(** A C condition [flags & mask]. *)
Definition has_flag (flags mask : Z) : bool := negb (Z.land flags mask =? 0).

(** ** libc: character classes, [atoi], [strtod] *)

Definition is_space (c : ascii) : bool :=
  let n := nat_of_ascii c in
  (n =? 32)%nat || ((9 <=? n)%nat && (n <=? 13)%nat).

Definition is_digit (c : ascii) : bool :=
  let n := nat_of_ascii c in (48 <=? n)%nat && (n <=? 57)%nat.

Definition is_xdigit (c : ascii) : bool :=
  let n := nat_of_ascii c in
  is_digit c || ((65 <=? n)%nat && (n <=? 70)%nat)
             || ((97 <=? n)%nat && (n <=? 102)%nat).

Definition is_alpha (c : ascii) : bool :=
  let n := nat_of_ascii c in
  ((65 <=? n)%nat && (n <=? 90)%nat) || ((97 <=? n)%nat && (n <=? 122)%nat).

Definition to_lower (c : ascii) : ascii :=
  let n := nat_of_ascii c in
  if ((65 <=? n)%nat && (n <=? 90)%nat)%bool then ascii_of_nat (n + 32) else c.

Fixpoint skip_while (p : ascii -> bool) (cs : list ascii) : list ascii :=
  match cs with
  | c :: rest => if p c then skip_while p rest else cs
  | [] => []
  end.

Fixpoint take_while (p : ascii -> bool) (cs : list ascii) : list ascii :=
  match cs with
  | c :: rest => if p c then c :: take_while p rest else []
  | [] => []
  end.

Definition skip_sign (cs : list ascii) : list ascii :=
  match cs with
  | c :: rest => if (Ascii.eqb c "+" || Ascii.eqb c "-")%bool then rest else cs
  | [] => []
  end.

Fixpoint digits_value (acc : Z) (cs : list ascii) : Z :=
  match cs with
  | c :: rest =>
      if is_digit c
      then digits_value (10 * acc + (Z.of_nat (nat_of_ascii c) - 48)) rest
      else acc
  | [] => acc
  end.

(** [atoi] as glibc has it, [(int) strtol (nptr, NULL, 10)]: white space,
    an optional sign, the longest run of digits; the [long] saturates and
    the cast to [int] wraps. *)
Definition atoi (s : string) : Z :=
  let cs := skip_while is_space (list_ascii_of_string s) in
  let negative := match cs with c :: _ => Ascii.eqb c "-" | [] => false end in
  let v := digits_value 0 (skip_sign cs) in
  let v := if negative then - v else v in
  to_int (Z.max (- 2 ^ 63) (Z.min (2 ^ 63 - 1) v)).

(** The subject sequences of [strtod] (ISO C 7.22.1.3, "C" locale), after
    white space and sign.  [strtod_full] below is the test the dispatcher
    makes on a token: [command != endp && *endp == '\0'], the conversion
    took place and consumed the whole token. *)

Definition exponent_opt (marker : ascii) (cs : list ascii) : bool :=
  match cs with
  | [] => true
  | c :: rest =>
      Ascii.eqb (to_lower c) marker &&
      (let ds := skip_sign rest in
       match ds with
       | [] => false
       | _ :: _ => match skip_while is_digit ds with [] => true | _ => false end
       end)
  end.

Definition mantissa_then (digit : ascii -> bool) (marker : ascii)
    (cs : list ascii) : bool :=
  let int_part := take_while digit cs in
  let after_int := skip_while digit cs in
  match after_int with
  | "."%char :: frac =>
      let frac_part := take_while digit frac in
      negb (Nat.eqb (List.length int_part + List.length frac_part) 0)
      && exponent_opt marker (skip_while digit frac)
  | _ =>
      negb (Nat.eqb (List.length int_part) 0) && exponent_opt marker after_int
  end.

Definition is_decimal_float (cs : list ascii) : bool :=
  mantissa_then is_digit "e" cs.

Definition is_hex_float (cs : list ascii) : bool :=
  match cs with
  | "0"%char :: x :: rest =>
      Ascii.eqb (to_lower x) "x" && mantissa_then is_xdigit "p" rest
  | _ => false
  end.

Definition lower_string (cs : list ascii) : string :=
  string_of_list_ascii (map to_lower cs).

Definition is_inf (cs : list ascii) : bool :=
  String.eqb (lower_string cs) "inf" || String.eqb (lower_string cs) "infinity".

Definition is_nan (cs : list ascii) : bool :=
  match cs with
  | n1 :: a :: n2 :: rest =>
      String.eqb (lower_string [n1; a; n2]) "nan" &&
      match rest with
      | [] => true
      | "("%char :: seq =>
          match skip_while (fun c => is_digit c || is_alpha c || Ascii.eqb c "_") seq with
          | [")"%char] => true
          | _ => false
          end
      | _ => false
      end
  | _ => false
  end.

Definition strtod_full (s : string) : bool :=
  let cs := skip_sign (skip_while is_space (list_ascii_of_string s)) in
  is_decimal_float cs || is_hex_float cs || is_inf cs || is_nan cs.

(** A decimal integer literal: an optional sign and digits, nothing else. *)
Definition is_integer_literal (s : string) : bool :=
  let cs := skip_sign (list_ascii_of_string s) in
  negb (Nat.eqb (List.length cs) 0) && forallb is_digit cs.


(** ** libratbag objects

    libratbag is not among the embedded sources.  A device is described by
    what the tool can read from it: capabilities, an indexed list of
    profiles, per profile an indexed list of resolutions and the buttons.
    The getters hand out counted references; an index outside the list
    yields NULL, which is how the tool itself tests for a bad index. *)

Inductive ratbag_button_action_type :=
| RATBAG_BUTTON_ACTION_TYPE_NONE
| RATBAG_BUTTON_ACTION_TYPE_BUTTON
| RATBAG_BUTTON_ACTION_TYPE_SPECIAL
| RATBAG_BUTTON_ACTION_TYPE_KEY
| RATBAG_BUTTON_ACTION_TYPE_MACRO
| RATBAG_BUTTON_ACTION_TYPE_UNKNOWN.

Inductive ratbag_device_capability :=
| RATBAG_DEVICE_CAP_SWITCHABLE_RESOLUTION
| RATBAG_DEVICE_CAP_SWITCHABLE_PROFILE
| RATBAG_DEVICE_CAP_BUTTON_KEY
| RATBAG_DEVICE_CAP_BUTTON_MACROS.

Record button_state := {
  button_type_str : string;          (* button_type_to_str (ratbag_button_get_type (b)) *)
  button_action_str : string;        (* button_action_to_str (b) *)
  button_key : Z;                    (* ratbag_button_get_key (b, ...) *)
  button_action_type : ratbag_button_action_type;
}.

Record resolution_state := {
  resolution_active : bool;
  resolution_default : bool;
  resolution_dpi : Z;
  resolution_dpi_x : Z;
  resolution_dpi_y : Z;
  resolution_rate : Z;
  resolution_separate_xy : bool;     (* RATBAG_RESOLUTION_CAP_SEPARATE_XY_RESOLUTION *)
}.

Record profile_state := {
  profile_active : bool;
  profile_default : bool;
  profile_resolutions : list resolution_state;
  profile_button : nat -> button_state;
}.

Record device_state := {
  device_name : string;
  device_capabilities : ratbag_device_capability -> bool;
  device_num_buttons : nat;
  device_profiles : list profile_state;
}.

(** The pointers the tool holds: an object together with where it sits. *)
Record ratbag_device := { device_path : string; device_of : device_state }.
Record ratbag_profile :=
  { profile_device : ratbag_device; profile_index : nat; profile_of : profile_state }.
Record ratbag_resolution :=
  { resolution_profile : ratbag_profile; resolution_index : nat;
    resolution_of : resolution_state }.
Record ratbag_button :=
  { button_profile : ratbag_profile; button_index : nat; button_of : button_state }.

(** What a reference refers to, as it appears in the trace. *)
Inductive handle :=
| HContext
| HDevice (path : string)
| HProfile (path : string) (profile : nat)
| HResolution (path : string) (profile resolution : nat)
| HButton (path : string) (profile button : nat).

Definition device_handle (d : ratbag_device) : handle := HDevice (device_path d).
Definition profile_handle (p : ratbag_profile) : handle :=
  HProfile (device_path (profile_device p)) (profile_index p).
Definition resolution_handle (r : ratbag_resolution) : handle :=
  HResolution (device_path (profile_device (resolution_profile r)))
              (profile_index (resolution_profile r)) (resolution_index r).
Definition button_handle (b : ratbag_button) : handle :=
  HButton (device_path (profile_device (button_profile b)))
          (profile_index (button_profile b)) (button_index b).

(** [enum ratbag_macro_event_type]; zero-initialised storage reads as
    [RATBAG_MACRO_EVENT_NONE]. *)
Inductive ratbag_macro_event_type :=
| RATBAG_MACRO_EVENT_NONE
| RATBAG_MACRO_EVENT_KEY_PRESSED
| RATBAG_MACRO_EVENT_KEY_RELEASED.

(** Calls into libratbag that change the device or the library. *)
Inductive mutation :=
| set_button (b : handle) (btn : Z)
| set_key (b : handle) (key : Z) (nmodifiers : Z)
| set_special (b : handle) (special : Z)
| set_macro (b : handle) (name : option string)
| set_macro_event (b : handle) (i : Z) (type : ratbag_macro_event_type) (data : Z)
| write_macro (b : handle)
| button_disable (b : handle)
| profile_set_active (p : handle)
| resolution_set_dpi (r : handle) (dpi : Z)
| log_set_priority (raw : bool).

Inductive printf_arg := ArgInt (z : Z) | ArgStr (s : string).

(** One observable step.  [Stdout]/[Stderr] keep the format string as it is
    written in the source (escapes unexpanded) and the arguments. *)
Inductive event :=
| Acquire (h : handle)
| Release (h : handle)
| Call (m : mutation)
| Stdout (fmt : string) (args : list printf_arg)
| Stderr (fmt : string) (args : list printf_arg).

(** Everything the tool asks of libratbag, libevdev, libc and the file
    system that [ratbag-command.c] does not define itself. *)
Record collaborator := {
  open_device : string -> option device_state;   (* ratbag_cmd_open_device, by path *)
  libevdev_event_code_from_name : string -> Z;   (* (EV_KEY, name), an int *)
  str_to_special_action : string -> Z;
  strtod_int : string -> Z;                      (* (int) strtod (token, &endp) *)
  rc_of : mutation -> Z;                         (* return value of a mutating call *)
  scandir_dev_input : option (list string);      (* event* entries; None: scandir < 0 *)
  create_context : bool;                         (* ratbag_create_context succeeded *)
  strerror : Z -> string;
  program_invocation_short_name : string;
}.

Definition RATBAG_BUTTON_ACTION_SPECIAL_INVALID : Z := -1.

(** [linux/input.h] *)
Definition KEY_R : Z := 19.
Definition KEY_O : Z := 24.
Definition KEY_A : Z := 30.
Definition KEY_F : Z := 33.
Definition KEY_B : Z := 48.
Definition KEY_VOLUMEDOWN : Z := 114.
Definition KEY_VOLUMEUP : Z := 115.

(** ** The tool's own data *)

Record ratbag_cmd_options := {
  opt_flags : Z;
  device : option ratbag_device;
  profile : option ratbag_profile;
  resolution : option ratbag_resolution;
  button : Z;
}.

Definition with_flags (f : Z) (o : ratbag_cmd_options) :=
  {| opt_flags := f; device := device o; profile := profile o;
     resolution := resolution o; button := button o |}.
Definition with_device (d : option ratbag_device) (o : ratbag_cmd_options) :=
  {| opt_flags := opt_flags o; device := d; profile := profile o;
     resolution := resolution o; button := button o |}.
Definition with_profile (p : option ratbag_profile) (o : ratbag_cmd_options) :=
  {| opt_flags := opt_flags o; device := device o; profile := p;
     resolution := resolution o; button := button o |}.
Definition with_resolution (r : option ratbag_resolution) (o : ratbag_cmd_options) :=
  {| opt_flags := opt_flags o; device := device o; profile := profile o;
     resolution := r; button := button o |}.
Definition with_button (b : Z) (o : ratbag_cmd_options) :=
  {| opt_flags := opt_flags o; device := device o; profile := profile o;
     resolution := resolution o; button := b |}.

(** The function a node's [cmd] pointer refers to. *)
Inductive handler :=
| fn_ratbag_cmd_info
| fn_ratbag_cmd_switch_etekcity
| fn_ratbag_cmd_change_button
| fn_ratbag_cmd_list_supported_devices
| fn_ratbag_cmd_resolution_active_set
| fn_ratbag_cmd_resolution_active_get
| fn_ratbag_cmd_resolution_active
| fn_ratbag_cmd_resolution_dpi_get
| fn_ratbag_cmd_resolution_dpi_set
| fn_ratbag_cmd_resolution_dpi
| fn_ratbag_cmd_resolution
| fn_ratbag_cmd_button
| fn_ratbag_cmd_profile_active_set
| fn_ratbag_cmd_profile_active_get
| fn_ratbag_cmd_profile_active
| fn_ratbag_cmd_profile.

(** [struct ratbag_cmd]; the NULL-terminated [subcommands] array is the
    list of its entries before the NULL. *)
#[local] Unset Elimination Schemes.
Inductive ratbag_cmd := Cmd {
  name : string;
  cmd : option handler;
  args : option string;
  help : option string;
  flags : Z;
  subcommands : list ratbag_cmd;
}.
#[local] Set Elimination Schemes.

(** Induction over the command tree. *)
Fixpoint ratbag_cmd_tree_ind (P : ratbag_cmd -> Prop)
    (step : forall n f a h fl subs, Forall P subs -> P (Cmd n f a h fl subs))
    (c : ratbag_cmd) : P c :=
  match c with
  | Cmd n f a h fl subs =>
      step n f a h fl subs
        ((fix all (l : list ratbag_cmd) : Forall P l :=
            match l with
            | [] => @Forall_nil ratbag_cmd P
            | x :: rest =>
                @Forall_cons ratbag_cmd P x rest
                  (ratbag_cmd_tree_ind P step x) (all rest)
            end) subs)
  end.

(** ** Running C: a trace, the options behind the pointer, undefined behaviour *)

Inductive result (A : Type) : Type :=
| Ok (a : A)
| Undefined.   (* a NULL pointer handed to code that dereferences it *)
Arguments Ok {A} a.
Arguments Undefined {A}.

Definition M (A : Type) : Type :=
  ratbag_cmd_options -> list event * result (A * ratbag_cmd_options).

Definition ret {A} (a : A) : M A := fun o => ([], Ok (a, o)).

Definition bind {A B} (m : M A) (k : A -> M B) : M B :=
  fun o =>
    match m o with
    | (t, Ok (a, o')) => let '(t', r) := k a o' in (t ++ t', r)
    | (t, Undefined) => (t, Undefined)
    end.

Definition undefined {A} : M A := fun _ => ([], Undefined).
Definition emit (e : event) : M unit := fun o => ([e], Ok (tt, o)).
Definition emit_all (t : list event) : M unit := fun o => (t, Ok (tt, o)).
Definition options : M ratbag_cmd_options := fun o => ([], Ok (o, o)).
Definition update (f : ratbag_cmd_options -> ratbag_cmd_options) : M unit :=
  fun o => ([], Ok (tt, f o)).

Declare Scope c_scope.
Delimit Scope c_scope with C.
Notation "x <- c1 ;; c2" := (bind c1 (fun x => c2))
  (at level 100, c1 at next level, right associativity) : c_scope.
Notation "c1 ;; c2" := (bind c1 (fun _ => c2))
  (at level 100, right associativity) : c_scope.
Local Open Scope c_scope.

(** [p->field] on a pointer that may be NULL. *)
Definition deref {A} (p : option A) : M A :=
  match p with Some a => ret a | None => undefined end.

Definition printf (fmt : string) (a : list printf_arg) : M unit := emit (Stdout fmt a).
Definition error (fmt : string) (a : list printf_arg) : M unit := emit (Stderr fmt a).

(** [argv[i]]: NULL at and beyond the end of the vector. *)
Definition arg_at (argv : list string) (i : Z) : option string :=
  if i <? 0 then None else argv !! Z.to_nat i.

Definition is_null {A} (p : option A) : bool :=
  match p with Some _ => false | None => true end.

Definition str_or_null (s : option string) : printf_arg :=
  ArgStr (match s with Some s => s | None => "(null)" end).

(** The tokens a callee can see: the first [argc] entries of [argv]. *)
Definition visible (argc : Z) (argv : list string) : list string :=
  take (Z.to_nat argc) argv.

(** ** The command tree *)

Definition cmd_info := {|
  name := "info"; cmd := Some fn_ratbag_cmd_info; args := None;
  help := Some "Show information about the device's capabilities";
  flags := FLAG_NEED_DEVICE; subcommands := [] |}.

Definition cmd_switch_etekcity := {|
  name := "switch-etekcity"; cmd := Some fn_ratbag_cmd_switch_etekcity; args := None;
  help := Some "Switch the Etekcity mouse active profile";
  flags := Z.lor FLAG_NEED_DEVICE FLAG_NEED_PROFILE; subcommands := [] |}.

Definition cmd_change_button := {|
  name := "change-button"; cmd := Some fn_ratbag_cmd_change_button;
  args := Some "X <button|key|special|macro> <number|KEY_FOO|special|macro name:KEY_FOO,KEY_BAR,...>";
  help := Some "Remap button X to the given action in the active profile";
  flags := Z.lor FLAG_NEED_DEVICE FLAG_NEED_PROFILE; subcommands := [] |}.

Definition cmd_list := {|
  name := "list"; cmd := Some fn_ratbag_cmd_list_supported_devices; args := None;
  help := Some "List the available devices";
  flags := 0; subcommands := [] |}.

Definition cmd_resolution_active_set := {|
  name := "set"; cmd := Some fn_ratbag_cmd_resolution_active_set; args := Some "M";
  help := Some "Set the active resolution number";
  flags := Z.lor FLAG_NEED_DEVICE FLAG_NEED_PROFILE; subcommands := [] |}.

Definition cmd_resolution_active_get := {|
  name := "get"; cmd := Some fn_ratbag_cmd_resolution_active_get; args := None;
  help := Some "Get the active resolution number";
  flags := Z.lor FLAG_NEED_DEVICE FLAG_NEED_PROFILE; subcommands := [] |}.

Definition cmd_resolution_active := {|
  name := "active"; cmd := Some fn_ratbag_cmd_resolution_active; args := None;
  help := None;
  flags := Z.lor FLAG_NEED_DEVICE FLAG_NEED_PROFILE;
  subcommands := [cmd_resolution_active_get; cmd_resolution_active_set] |}.

Definition cmd_resolution_dpi_get := {|
  name := "get"; cmd := Some fn_ratbag_cmd_resolution_dpi_get; args := None;
  help := Some "Get the resolution in dpi";
  flags := Z.lor (Z.lor FLAG_NEED_DEVICE FLAG_NEED_PROFILE) FLAG_NEED_RESOLUTION;
  subcommands := [] |}.

Definition cmd_resolution_dpi_set := {|
  name := "set"; cmd := Some fn_ratbag_cmd_resolution_dpi_set; args := Some "<dpi>";
  help := Some "Set the resolution in dpi";
  flags := Z.lor (Z.lor FLAG_NEED_DEVICE FLAG_NEED_PROFILE) FLAG_NEED_RESOLUTION;
  subcommands := [] |}.

Definition cmd_resolution_dpi := {|
  name := "dpi"; cmd := Some fn_ratbag_cmd_resolution_dpi; args := None;
  help := None;
  flags := Z.lor (Z.lor FLAG_NEED_DEVICE FLAG_NEED_PROFILE) FLAG_NEED_RESOLUTION;
  subcommands := [cmd_resolution_dpi_get; cmd_resolution_dpi_set] |}.

Definition cmd_resolution := {|
  name := "resolution"; cmd := Some fn_ratbag_cmd_resolution; args := Some "N";
  help := None;
  flags := Z.lor FLAG_NEED_DEVICE FLAG_NEED_PROFILE;
  subcommands := [cmd_resolution_active; cmd_resolution_dpi] |}.

Definition cmd_button := {|
  name := "button"; cmd := Some fn_ratbag_cmd_button; args := Some "[...]";
  help := Some "Modify a button";
  flags := Z.lor FLAG_NEED_DEVICE FLAG_NEED_PROFILE;
  subcommands := [] |}.

Definition cmd_profile_active_set := {|
  name := "set"; cmd := Some fn_ratbag_cmd_profile_active_set; args := Some "N";
  help := Some "Set the active profile number";
  flags := FLAG_NEED_DEVICE; subcommands := [] |}.

Definition cmd_profile_active_get := {|
  name := "get"; cmd := Some fn_ratbag_cmd_profile_active_get; args := None;
  help := Some "Get the active profile number";
  flags := FLAG_NEED_DEVICE; subcommands := [] |}.

Definition cmd_profile_active := {|
  name := "active"; cmd := Some fn_ratbag_cmd_profile_active; args := None;
  help := None;
  flags := FLAG_NEED_DEVICE;
  subcommands := [cmd_profile_active_get; cmd_profile_active_set] |}.

Definition cmd_profile := {|
  name := "profile"; cmd := Some fn_ratbag_cmd_profile; args := Some "<idx>";
  help := None;
  flags := FLAG_NEED_DEVICE;
  subcommands := [cmd_profile_active; cmd_resolution; cmd_button] |}.

Definition top_level_commands := {|
  name := "ratbag-command"; cmd := None; args := None; help := None;
  flags := 0;
  subcommands := [cmd_info; cmd_list; cmd_change_button; cmd_switch_etekcity;
                  cmd_button; cmd_resolution; cmd_profile; cmd_resolution_dpi] |}.

Definition ratbag_commands : ratbag_cmd := top_level_commands.

(** ** Usage *)

Definition usage_dots : string := ".........................................".

(** The prefix [sprintf] builds for the children of [cmd]. *)
Definition usage_prefix (cmd : ratbag_cmd) (prefix_in : string) : string :=
  prefix_in +:+ name cmd
    +:+ (match args cmd with Some _ => " " | None => "" end)
    +:+ (match args cmd with Some a => a | None => "" end) +:+ " ".

(** [count] as it reaches [printf]: the precision of ["%.*s"]. *)
Definition usage_count (sub : ratbag_cmd) (prefix : string) : Z :=
  let count := to_int (40 - strlen (name sub)) in
  let count :=
    match args sub with
    | Some a => to_int (count - (1 + strlen a))
    | None => count
    end in
  let count := if count <? 4 then 4 else count in
  to_int (count - strlen prefix).

(** What ["%.*s"] writes of [s]: at most [precision] characters, all of
    [s] when the precision is negative (ISO C 7.21.6.1). *)
Definition printf_precision (precision : Z) (s : string) : string :=
  if precision <? 0 then s else String.substring 0 (Z.to_nat precision) s.

Definition usage_line (sub : ratbag_cmd) (prefix : string) : list event :=
  match help sub with
  | Some h =>
      [Stdout "    %s%s%s%s %.*s %s\n"
         [ArgStr prefix; ArgStr (name sub);
          ArgStr (match args sub with Some _ => " " | None => "" end);
          ArgStr (match args sub with Some a => a | None => "" end);
          ArgInt (usage_count sub prefix); ArgStr usage_dots; ArgStr h]]
  | None => []
  end.

Fixpoint usage_subcommand (cmd : ratbag_cmd) (prefix_in : string) : list event :=
  let prefix := usage_prefix cmd prefix_in in
  (fix each (subs : list ratbag_cmd) : list event :=
     match subs with
     | [] => []
     | sub :: rest => usage_line sub prefix ++ usage_subcommand sub prefix ++ each rest
     end) (subcommands cmd).

(** A printed usage row read back: the prefix, the node's name and the
    number of dots that reach the terminal. *)
Definition usage_row (e : event) : option (string * string * Z) :=
  match e with
  | Stdout _ [ArgStr prefix; ArgStr n; _; _; ArgInt count; ArgStr dots; _] =>
      Some (prefix, n, strlen (printf_precision count dots))
  | _ => None
  end.

Definition usage_rows (cmd : ratbag_cmd) (prefix_in : string)
    : list (string * string * Z) :=
  omap usage_row (usage_subcommand cmd prefix_in).

Section Tool.

Context (W : collaborator).

Definition usage : list event :=
  [Stdout "Usage: %s [options] [command] /sys/class/input/eventX\n/path/to/device ..... Open the given device only\n\nCommands:\n"
     [ArgStr (program_invocation_short_name W)]]
  ++ usage_subcommand ratbag_commands ""
  ++ [Stdout "\nOptions:\n    --verbose[=raw] ....... Print debugging output, with protocol output if requested.\n    --help .......... Print this help.\n" []].

(** ** libratbag, as the tool calls it *)

(** Modelled from the spec: the device-abstraction library, whose own
    functions the tool only calls - open a device by path, enumerate
    profiles, resolutions and buttons with stable indices, query and set
    the active and default flags, query capabilities, get and set dpi,
    report rate and button actions, write macro events, and release
    references.  A getter by index hands out a new reference, or NULL from
    the item count on (the tool tests for NULL after such calls); every
    other function reads through the pointer it is given, so that NULL
    there is undefined behaviour; what the hardware answers to a change is
    the collaborator's [rc_of]. *)

Definition ratbag_cmd_open_device (path : option string) : M (option ratbag_device) :=
  path <- deref path;;
  match open_device W path with
  | Some st =>
      let d := {| device_path := path; device_of := st |} in
      emit (Acquire (device_handle d));; ret (Some d)
  | None => ret None
  end.

Definition ratbag_device_unref (d : option ratbag_device) : M unit :=
  match d with Some d => emit (Release (device_handle d)) | None => ret tt end.
Definition ratbag_profile_unref (p : option ratbag_profile) : M unit :=
  match p with Some p => emit (Release (profile_handle p)) | None => ret tt end.
Definition ratbag_resolution_unref (r : option ratbag_resolution) : M unit :=
  match r with Some r => emit (Release (resolution_handle r)) | None => ret tt end.
Definition ratbag_button_unref (b : option ratbag_button) : M unit :=
  match b with Some b => emit (Release (button_handle b)) | None => ret tt end.

Definition ratbag_device_get_name (d : option ratbag_device) : M string :=
  d <- deref d;; ret (device_name (device_of d)).
Definition ratbag_device_has_capability (d : option ratbag_device)
    (cap : ratbag_device_capability) : M bool :=
  d <- deref d;; ret (device_capabilities (device_of d) cap).
Definition ratbag_device_get_num_buttons (d : option ratbag_device) : M Z :=
  d <- deref d;; ret (Z.of_nat (device_num_buttons (device_of d))).
Definition ratbag_device_get_num_profiles (d : option ratbag_device) : M Z :=
  d <- deref d;; ret (Z.of_nat (List.length (device_profiles (device_of d)))).

(** Entry [index] of an indexed collection, NULL from the item count on;
    the index parameter is an [unsigned int]. *)
Definition at_index {A} (l : list A) (index : Z) : option A :=
  if to_uint index <? Z.of_nat (List.length l)
  then l !! Z.to_nat (to_uint index)
  else None.

Definition ratbag_device_get_profile_by_index (d : option ratbag_device) (index : Z)
    : M (option ratbag_profile) :=
  d <- deref d;;
  match at_index (device_profiles (device_of d)) index with
  | Some st =>
      let p := {| profile_device := d; profile_index := Z.to_nat (to_uint index);
                  profile_of := st |} in
      emit (Acquire (profile_handle p));; ret (Some p)
  | None => ret None
  end.

Definition ratbag_profile_is_active (p : option ratbag_profile) : M bool :=
  p <- deref p;; ret (profile_active (profile_of p)).
Definition ratbag_profile_is_default (p : option ratbag_profile) : M bool :=
  p <- deref p;; ret (profile_default (profile_of p)).
Definition ratbag_profile_get_num_resolutions (p : option ratbag_profile) : M Z :=
  p <- deref p;; ret (Z.of_nat (List.length (profile_resolutions (profile_of p)))).

Definition ratbag_profile_get_resolution (p : option ratbag_profile) (index : Z)
    : M (option ratbag_resolution) :=
  p <- deref p;;
  match at_index (profile_resolutions (profile_of p)) index with
  | Some st =>
      let r := {| resolution_profile := p; resolution_index := Z.to_nat (to_uint index);
                  resolution_of := st |} in
      emit (Acquire (resolution_handle r));; ret (Some r)
  | None => ret None
  end.

Definition ratbag_profile_get_button_by_index (p : option ratbag_profile) (index : Z)
    : M (option ratbag_button) :=
  p <- deref p;;
  if to_uint index <? Z.of_nat (device_num_buttons (device_of (profile_device p)))
  then
    let b := {| button_profile := p; button_index := Z.to_nat (to_uint index);
                button_of := profile_button (profile_of p) (Z.to_nat (to_uint index)) |} in
    emit (Acquire (button_handle b));; ret (Some b)
  else ret None.

Definition ratbag_profile_set_active (p : option ratbag_profile) : M Z :=
  p <- deref p;;
  emit (Call (profile_set_active (profile_handle p)));;
  ret (rc_of W (profile_set_active (profile_handle p))).

Definition ratbag_resolution_get (f : resolution_state -> Z)
    (r : option ratbag_resolution) : M Z :=
  r <- deref r;; ret (f (resolution_of r)).
Definition ratbag_resolution_test (f : resolution_state -> bool)
    (r : option ratbag_resolution) : M bool :=
  r <- deref r;; ret (f (resolution_of r)).
Definition ratbag_resolution_get_dpi := ratbag_resolution_get resolution_dpi.
Definition ratbag_resolution_get_dpi_x := ratbag_resolution_get resolution_dpi_x.
Definition ratbag_resolution_get_dpi_y := ratbag_resolution_get resolution_dpi_y.
Definition ratbag_resolution_get_report_rate := ratbag_resolution_get resolution_rate.
Definition ratbag_resolution_is_active := ratbag_resolution_test resolution_active.
Definition ratbag_resolution_is_default := ratbag_resolution_test resolution_default.
Definition ratbag_resolution_has_capability := ratbag_resolution_test resolution_separate_xy.

Definition ratbag_resolution_set_dpi (r : option ratbag_resolution) (dpi : Z) : M Z :=
  r <- deref r;;
  emit (Call (resolution_set_dpi (resolution_handle r) dpi));;
  ret (rc_of W (resolution_set_dpi (resolution_handle r) dpi)).

(** A mutating call on a button: recorded, answered by the collaborator. *)
Definition ratbag_button_call (b : option ratbag_button)
    (m : handle -> mutation) : M Z :=
  b <- deref b;;
  emit (Call (m (button_handle b)));; ret (rc_of W (m (button_handle b))).

Definition ratbag_button_get_key (b : option ratbag_button) : M Z :=
  b <- deref b;; ret (button_key (button_of b)).
Definition ratbag_button_get_action_type (b : option ratbag_button)
    : M ratbag_button_action_type :=
  b <- deref b;; ret (button_action_type (button_of b)).
Definition button_type_to_str (b : option ratbag_button) : M string :=
  b <- deref b;; ret (button_type_str (button_of b)).
Definition button_action_to_str (b : option ratbag_button) : M string :=
  b <- deref b;; ret (button_action_str (button_of b)).

(** ** Context resolution *)

Definition ratbag_cmd_device_from_arg (argc : Z) (argv : list string)
    : M (option ratbag_device * Z) :=
  if argc =? 0 then
    error "Missing device path.\n" [];;
    emit_all usage;;
    ret (None, argc)
  else
    let path := arg_at argv (argc - 1) in
    device <- ratbag_cmd_open_device path;;
    match device with
    | None =>
        error "Device '%s' is not supported\n" [str_or_null path];;
        ret (None, argc)
    | Some _ => ret (device, argc - 1)
    end.

(** The [for] loop of [ratbag_cmd_get_active_profile], entered with index [i]
    and [n] indices left below [ratbag_device_get_num_profiles]. *)
Fixpoint active_profile_from (device : option ratbag_device) (i : Z) (n : nat)
    : M (option ratbag_profile) :=
  match n with
  | O => ret None
  | S n' =>
      profile <- ratbag_device_get_profile_by_index device i;;
      active <- ratbag_profile_is_active profile;;
      if active : bool then ret profile
      else ratbag_profile_unref profile;; active_profile_from device (i + 1) n'
  end.

Definition ratbag_cmd_get_active_profile (device : option ratbag_device)
    : M (option ratbag_profile) :=
  num <- ratbag_device_get_num_profiles device;;
  found <- active_profile_from device 0 (Z.to_nat num);;
  match found with
  | Some _ => ret found
  | None => error "Failed to retrieve the active profile\n" [];; ret None
  end.

Fixpoint active_resolution_from (profile : option ratbag_profile) (i : Z) (n : nat)
    : M (option ratbag_resolution) :=
  match n with
  | O => ret None
  | S n' =>
      resolution <- ratbag_profile_get_resolution profile i;;
      active <- ratbag_resolution_is_active resolution;;
      if active : bool then ret resolution
      else ratbag_resolution_unref resolution;;
           active_resolution_from profile (i + 1) n'
  end.

Definition ratbag_cmd_get_active_resolution (profile : option ratbag_profile)
    : M (option ratbag_resolution) :=
  num <- ratbag_profile_get_num_resolutions profile;;
  found <- active_resolution_from profile 0 (Z.to_nat num);;
  match found with
  | Some _ => ret found
  | None => error "Failed to retrieve the active resolution\n" [];; ret None
  end.

Definition need_any : Z :=
  Z.lor (Z.lor FLAG_NEED_DEVICE FLAG_NEED_PROFILE) FLAG_NEED_RESOLUTION.

(** [fill_options] from its third [if] on; returns [(rc, *argc)]. *)
Definition fill_resolution (flags : Z) (argc : Z)
    (profile : option ratbag_profile) (resolution : option ratbag_resolution)
    : M (Z * Z) :=
  if has_flag flags FLAG_NEED_RESOLUTION && is_null resolution then
    resolution <- ratbag_cmd_get_active_resolution profile;;
    if is_null resolution then ret (ERR_DEVICE, argc)
    else update (with_resolution resolution);; ret (SUCCESS, argc)
  else ret (SUCCESS, argc).

(** [fill_options] from its second [if] on. *)
Definition fill_profile (flags : Z) (argc : Z) (device : option ratbag_device)
    (profile : option ratbag_profile) (resolution : option ratbag_resolution)
    : M (Z * Z) :=
  if has_flag flags (Z.lor FLAG_NEED_PROFILE FLAG_NEED_RESOLUTION) && is_null profile then
    profile <- ratbag_cmd_get_active_profile device;;
    if is_null profile then ret (ERR_DEVICE, argc)
    else update (with_profile profile);; fill_resolution flags argc profile resolution
  else fill_resolution flags argc profile resolution.

Definition fill_options (flags : Z) (argc : Z) (argv : list string) : M (Z * Z) :=
  o <- options;;
  let '(device, profile, resolution) := (device o, profile o, resolution o) in
  if has_flag flags need_any && is_null device then
    found <- ratbag_cmd_device_from_arg argc argv;;
    let '(device, argc) := found in
    if is_null device then ret (ERR_DEVICE, argc)
    else update (with_device device);; fill_profile flags argc device profile resolution
  else fill_profile flags argc device profile resolution.

(** ** The handlers

    A handler receives [argc], [argv] and, for the nodes that dispatch
    further, [run_subcommand] already applied to its own node. *)

Definition subcommand_runner : Type := option string -> Z -> list string -> M Z.

(** [for (i = 0; i < n; i++) body (i)], entered with index [i] and [n]
    indices left. *)
Fixpoint for_loop (i : Z) (n : nat) (body : Z -> M unit) : M unit :=
  match n with
  | O => ret tt
  | S n' => body i;; for_loop (i + 1) n' body
  end.

Definition when (b : bool) (m : M unit) : M unit := if b then m else ret tt.

Definition flag_str (b : bool) (s : string) : printf_arg := ArgStr (if b then s else "").

Definition info_resolution (profile : option ratbag_profile) (j : Z) : M unit :=
  res <- ratbag_profile_get_resolution profile j;;
  dpi <- ratbag_resolution_get_dpi res;;
  rate <- ratbag_resolution_get_report_rate res;;
  (if dpi =? 0 then printf "      %d: <disabled>\n" [ArgInt j]
   else
     separate <- ratbag_resolution_has_capability res;;
     if separate : bool then
       x <- ratbag_resolution_get_dpi_x res;;
       y <- ratbag_resolution_get_dpi_y res;;
       active <- ratbag_resolution_is_active res;;
       default <- ratbag_resolution_is_default res;;
       printf "      %d: %dx%ddpi @ %dHz%s%s\n"
         [ArgInt j; ArgInt x; ArgInt y; ArgInt rate;
          flag_str active " (active)"; flag_str default " (default)"]
     else
       active <- ratbag_resolution_is_active res;;
       default <- ratbag_resolution_is_default res;;
       printf "      %d: %ddpi @ %dHz%s%s\n"
         [ArgInt j; ArgInt dpi; ArgInt rate;
          flag_str active " (active)"; flag_str default " (default)"]);;
  ratbag_resolution_unref res.

Definition info_button (profile : option ratbag_profile) (b : Z) : M unit :=
  button <- ratbag_profile_get_button_by_index profile b;;
  type <- button_type_to_str button;;
  action <- button_action_to_str button;;
  printf "    Button: %d type %s is mapped to '%s'\n"
    [ArgInt b; ArgStr type; ArgStr action];;
  ratbag_button_unref button.

Definition info_profile (device : option ratbag_device) (num_buttons : Z) (i : Z)
    : M unit :=
  profile <- ratbag_device_get_profile_by_index device i;;
  if is_null profile then ret tt
  else
    active <- ratbag_profile_is_active profile;;
    default <- ratbag_profile_is_default profile;;
    printf "  Profile %d%s%s\n"
      [ArgInt i; flag_str active " (active)"; flag_str default " (default)"];;
    printf "    Resolutions:\n" [];;
    num_resolutions <- ratbag_profile_get_num_resolutions profile;;
    for_loop 0 (Z.to_nat num_resolutions) (info_resolution profile);;
    for_loop 0 (Z.to_nat num_buttons) (info_button profile);;
    ratbag_profile_unref profile.

Definition ratbag_cmd_info (argc : Z) (argv : list string) : M Z :=
  o <- options;;
  let device := device o in
  n <- ratbag_device_get_name device;;
  printf "Device '%s'\n" [ArgStr n];;
  printf "Capabilities:" [];;
  c <- ratbag_device_has_capability device RATBAG_DEVICE_CAP_SWITCHABLE_RESOLUTION;;
  when c (printf " res" []);;
  c <- ratbag_device_has_capability device RATBAG_DEVICE_CAP_SWITCHABLE_PROFILE;;
  when c (printf " profile" []);;
  c <- ratbag_device_has_capability device RATBAG_DEVICE_CAP_BUTTON_KEY;;
  when c (printf " btn-key" []);;
  c <- ratbag_device_has_capability device RATBAG_DEVICE_CAP_BUTTON_MACROS;;
  when c (printf " btn-macros" []);;
  printf "\n" [];;
  num_buttons <- ratbag_device_get_num_buttons device;;
  printf "Number of buttons: %d\n" [ArgInt num_buttons];;
  num_profiles <- ratbag_device_get_num_profiles device;;
  printf "Profiles supported: %d\n" [ArgInt num_profiles];;
  for_loop 0 (Z.to_nat num_profiles) (info_profile device num_buttons);;
  ret SUCCESS.

Definition ratbag_cmd_switch_etekcity (argc : Z) (argv : list string) : M Z :=
  o <- options;;
  let '(device, profile) := (device o, profile o) in
  cap <- ratbag_device_has_capability device RATBAG_DEVICE_CAP_SWITCHABLE_PROFILE;;
  if negb cap then
    n <- ratbag_device_get_name device;;
    error "Device '%s' has no switchable profiles\n" [ArgStr n];;
    ret ERR_UNSUPPORTED
  else
    button_6 <- ratbag_profile_get_button_by_index profile 6;;
    button_7 <- ratbag_profile_get_button_by_index profile 7;;
    k6 <- ratbag_button_get_key button_6;;
    volume <- (if k6 =? KEY_VOLUMEUP
               then k7 <- ratbag_button_get_key button_7;; ret (k7 =? KEY_VOLUMEDOWN)
               else ret false);;
    commit <-
      (if volume : bool then
         ratbag_button_call button_6 button_disable;;
         ratbag_button_call button_7 button_disable;;
         ret 1
       else
         t6 <- ratbag_button_get_action_type button_6;;
         unset <- (match t6 with
                   | RATBAG_BUTTON_ACTION_TYPE_NONE =>
                       t7 <- ratbag_button_get_action_type button_7;;
                       ret (match t7 with
                            | RATBAG_BUTTON_ACTION_TYPE_NONE => true
                            | _ => false
                            end)
                   | _ => ret false
                   end);;
         if unset : bool then
           ratbag_button_call button_6 (fun b => set_key b KEY_VOLUMEUP 0);;
           ratbag_button_call button_7 (fun b => set_key b KEY_VOLUMEDOWN 0);;
           ret 2
         else ret 0);;
    ratbag_button_unref button_6;;
    ratbag_button_unref button_7;;
    n <- ratbag_device_get_name device;;
    printf "Switched the current profile of '%s' to %sreport the volume keys\n"
      [ArgStr n; flag_str (commit =? 1) "not "];;
    ret SUCCESS.

(** [struct macro]: a name and 64 events. *)
Record macro := {
  macro_name : option string;
  events : list (ratbag_macro_event_type * Z);
}.

(** [struct macro macro = {0}] *)
Definition macro_zero : macro :=
  {| macro_name := None; events := replicate 64 (RATBAG_MACRO_EVENT_NONE, 0) |}.

Definition set_event (i : nat) (type : ratbag_macro_event_type) (data : Z)
    (m : macro) : macro :=
  {| macro_name := macro_name m; events := <[i := (type, data)]> (events m) |}.

Definition set_name (n : string) (m : macro) : macro :=
  {| macro_name := Some n; events := events m |}.

(** [s[0]]: the terminating NUL for the empty string. *)
Definition first_char (s : string) : ascii :=
  match s with String c _ => c | EmptyString => zero end.

Definition EINVAL : Z := 22.

Definition str_to_macro (action_arg : option string) (m : macro) : Z * macro :=
  match action_arg with
  | None => (- EINVAL, m)
  | Some action_arg =>
      if Ascii.eqb (first_char action_arg) "f" then
        (0, set_event 5 RATBAG_MACRO_EVENT_KEY_RELEASED KEY_O
           (set_event 4 RATBAG_MACRO_EVENT_KEY_PRESSED KEY_O
           (set_event 3 RATBAG_MACRO_EVENT_KEY_RELEASED KEY_O
           (set_event 2 RATBAG_MACRO_EVENT_KEY_PRESSED KEY_O
           (set_event 1 RATBAG_MACRO_EVENT_KEY_RELEASED KEY_F
           (set_event 0 RATBAG_MACRO_EVENT_KEY_PRESSED KEY_F
           (set_name "foo" m)))))))
      else if Ascii.eqb (first_char action_arg) "b" then
        (0, set_event 5 RATBAG_MACRO_EVENT_KEY_RELEASED KEY_R
           (set_event 4 RATBAG_MACRO_EVENT_KEY_PRESSED KEY_R
           (set_event 3 RATBAG_MACRO_EVENT_KEY_RELEASED KEY_A
           (set_event 2 RATBAG_MACRO_EVENT_KEY_PRESSED KEY_A
           (set_event 1 RATBAG_MACRO_EVENT_KEY_RELEASED KEY_B
           (set_event 0 RATBAG_MACRO_EVENT_KEY_PRESSED KEY_B
           (set_name "bar" m)))))))
      else (0, m)
  end.

(** The events of a macro as the transfer loop sees them: up to the first
    [RATBAG_MACRO_EVENT_NONE]. *)
Fixpoint macro_events (es : list (ratbag_macro_event_type * Z))
    : list (ratbag_macro_event_type * Z) :=
  match es with
  | (RATBAG_MACRO_EVENT_NONE, _) :: _ => []
  | e :: rest => e :: macro_events rest
  | [] => []
  end.

(** What the first half of [ratbag_cmd_change_button] leaves in
    [action_type], [btnkey], [special] and [macro]. *)
Inductive button_action :=
| ActionButton (btnkey : Z)
| ActionKey (btnkey : Z)
| ActionSpecial (special : Z)
| ActionMacro (m : macro).

(** The loop over [macro.events], entered at index [i]. *)
Fixpoint set_macro_events (button : option ratbag_button) (i : Z)
    (es : list (ratbag_macro_event_type * Z)) : M unit :=
  match es with
  | [] => ret tt
  | (RATBAG_MACRO_EVENT_NONE, _) :: _ => ret tt
  | (type, data) :: rest =>
      ratbag_button_call button (fun b => set_macro_event b i type data);;
      set_macro_events button (i + 1) rest
  end.

(** The [if]/[else if] chain on [action_str]: an early return or the
    action to apply. *)
Definition parse_button_action (action_str action_arg : option string)
    : M (Z + button_action) :=
  str <- deref action_str;;
  if streq str "button" then
    arg <- deref action_arg;;
    ret (inr (ActionButton (to_uint (atoi arg))))
  else if streq str "key" then
    arg <- deref action_arg;;
    let btnkey := to_uint (libevdev_event_code_from_name W arg) in
    if btnkey =? 0 then
      error "Failed to resolve key %s\n" [ArgStr arg];;
      ret (inl ERR_USAGE)
    else ret (inr (ActionKey btnkey))
  else if streq str "special" then
    arg <- deref action_arg;;
    let special := str_to_special_action W arg in
    if special =? RATBAG_BUTTON_ACTION_SPECIAL_INVALID then
      error "Invalid special command '%s'\n" [ArgStr arg];;
      ret (inl ERR_USAGE)
    else ret (inr (ActionSpecial special))
  else if streq str "macro" then
    let '(rc, m) := str_to_macro action_arg macro_zero in
    if negb (rc =? 0) then
      error "Invalid special command '%s'\n" [str_or_null action_arg];;
      ret (inl ERR_USAGE)
    else ret (inr (ActionMacro m))
  else ret (inl ERR_USAGE).

Definition apply_button_action (button : option ratbag_button)
    (action : button_action) : M Z :=
  match action with
  | ActionButton btnkey => ratbag_button_call button (fun b => set_button b btnkey)
  | ActionKey btnkey => ratbag_button_call button (fun b => set_key b btnkey 0)
  | ActionSpecial special => ratbag_button_call button (fun b => set_special b special)
  | ActionMacro m =>
      ratbag_button_call button (fun b => set_macro b (macro_name m));;
      set_macro_events button 0 (events m);;
      ratbag_button_call button write_macro
  end.

Definition ratbag_cmd_change_button (argc : Z) (argv : list string) : M Z :=
  if negb (argc =? 3) then ret ERR_USAGE
  else
    index_arg <- deref (arg_at argv 0);;
    let button_index := atoi index_arg in
    let action_str := arg_at argv 1 in
    let action_arg := arg_at argv 2 in
    parsed <- parse_button_action action_str action_arg;;
    match parsed with
    | inl rc => ret rc
    | inr action =>
        o <- options;;
        let '(device, profile) := (device o, profile o) in
        let out (button : option ratbag_button) (rc : Z) : M Z :=
          ratbag_button_unref button;; ret rc in
        cap <- ratbag_device_has_capability device RATBAG_DEVICE_CAP_BUTTON_KEY;;
        if negb cap then
          n <- ratbag_device_get_name device;;
          error "Device '%s' has no programmable buttons\n" [ArgStr n];;
          out None ERR_UNSUPPORTED
        else
          button <- ratbag_profile_get_button_by_index profile button_index;;
          if is_null button then
            error "Invalid button number %d\n" [ArgInt button_index];;
            out button ERR_UNSUPPORTED
          else
            rc <- apply_button_action button action;;
            if negb (rc =? 0) then
              error "Unable to perform button %d mapping %s %s\n"
                [ArgInt button_index; str_or_null action_str; str_or_null action_arg];;
              out button ERR_UNSUPPORTED
            else
              rc <- ratbag_profile_set_active profile;;
              if negb (rc =? 0) then
                error "Unable to apply the current profile: %s (%d)\n"
                  [ArgStr (strerror W (- rc)); ArgInt rc];;
                out button ERR_DEVICE
              else out button rc
    end.

(** The [while (++i < n)] loop over the entries of [/dev/input]. *)
Fixpoint list_devices (entries : list string) (supported : Z) : M Z :=
  match entries with
  | [] => ret supported
  | d_name :: rest =>
      let path := "/dev/input/" +:+ d_name in
      device <- ratbag_cmd_open_device (Some path);;
      if is_null device then list_devices rest supported
      else
        n <- ratbag_device_get_name device;;
        printf "%s:\t%s\n" [ArgStr path; ArgStr n];;
        ratbag_device_unref device;;
        list_devices rest (supported + 1)
  end.

Definition ratbag_cmd_list_supported_devices (argc : Z) (argv : list string) : M Z :=
  if negb (argc =? 0) then ret ERR_USAGE
  else
    match scandir_dev_input W with
    | None => ret SUCCESS
    | Some input_list =>
        supported <- list_devices input_list 0;;
        when (supported =? 0) (printf "No supported devices found\n" []);;
        ret SUCCESS
    end.

Definition ratbag_cmd_resolution_active_set (argc : Z) (argv : list string) : M Z :=
  printf "Not yet implemented\n" [];; ret SUCCESS.

Definition ratbag_cmd_resolution_active_get (argc : Z) (argv : list string) : M Z :=
  printf "Not yet implemented\n" [];; ret SUCCESS.

Definition ratbag_cmd_resolution_active (run_subcommand : subcommand_runner)
    (argc : Z) (argv : list string) : M Z :=
  if argc <? 1 then ret ERR_USAGE
  else run_subcommand (arg_at argv 0) argc argv.

Definition ratbag_cmd_resolution_dpi_get (argc : Z) (argv : list string) : M Z :=
  o <- options;;
  dpi <- ratbag_resolution_get_dpi (resolution o);;
  printf "%d\n" [ArgInt dpi];;
  ret SUCCESS.

Definition ratbag_cmd_resolution_dpi_set (argc : Z) (argv : list string) : M Z :=
  if negb (argc =? 1) then ret ERR_USAGE
  else
    dpi_arg <- deref (arg_at argv 0);;
    let dpi := atoi dpi_arg in
    o <- options;;
    let '(device, resolution) := (device o, resolution o) in
    cap <- ratbag_device_has_capability device RATBAG_DEVICE_CAP_SWITCHABLE_RESOLUTION;;
    if negb cap then
      n <- ratbag_device_get_name device;;
      error "Device '%s' has no switchable resolution\n" [ArgStr n];;
      ret ERR_UNSUPPORTED
    else
      rc <- ratbag_resolution_set_dpi resolution dpi;;
      if negb (rc =? 0) then
        error "Failed to change the dpi: %s (%d)\n"
          [ArgStr (strerror W (- rc)); ArgInt rc];;
        ret ERR_DEVICE
      else ret rc.

Definition ratbag_cmd_resolution_dpi (run_subcommand : subcommand_runner)
    (argc : Z) (argv : list string) : M Z :=
  if argc <? 1 then ret ERR_USAGE
  else run_subcommand (arg_at argv 0) argc argv.

Definition ratbag_cmd_resolution (run_subcommand : subcommand_runner)
    (argc : Z) (argv : list string) : M Z :=
  if argc <? 1 then ret ERR_USAGE
  else
    let command := arg_at argv 0 in
    o <- options;;
    let profile := profile o in
    token <- deref command;;
    let resolution_idx := strtod_int W token in
    if strtod_full token then
      resolution <- ratbag_profile_get_resolution profile resolution_idx;;
      if is_null resolution then
        error "Unable to retrieve resolution %d\n" [ArgInt resolution_idx];;
        ret ERR_UNSUPPORTED
      else
        let argc := argc - 1 in
        let argv := tail argv in
        let command := arg_at argv 0 in
        update (with_resolution resolution);;
        run_subcommand command argc argv
    else
      resolution <- ratbag_cmd_get_active_resolution profile;;
      if is_null resolution then ret ERR_DEVICE
      else
        update (with_resolution resolution);;
        run_subcommand command argc argv.

Definition ratbag_cmd_button (run_subcommand : subcommand_runner)
    (argc : Z) (argv : list string) : M Z :=
  if argc <? 2 then ret ERR_USAGE
  else
    let command := arg_at argv 1 in
    token <- deref command;;
    if strtod_full token then
      update (with_button (strtod_int W token));;
      run_subcommand command (argc - 1) (tail argv)
    else run_subcommand command argc argv.

Definition ratbag_cmd_profile_active_set (argc : Z) (argv : list string) : M Z :=
  if negb (argc =? 1) then ret ERR_USAGE
  else
    index_arg <- deref (arg_at argv 0);;
    let index := atoi index_arg in
    o <- options;;
    let device := device o in
    if is_null device then ret ERR_DEVICE
    else
      let out (profile : option ratbag_profile) (rc : Z) : M Z :=
        ratbag_profile_unref profile;;
        ratbag_profile_unref None;;
        ret rc in
      cap <- ratbag_device_has_capability device RATBAG_DEVICE_CAP_SWITCHABLE_PROFILE;;
      if negb cap then
        n <- ratbag_device_get_name device;;
        error "Device '%s' has no switchable profiles\n" [ArgStr n];;
        out None ERR_UNSUPPORTED
      else
        num_profiles <- ratbag_device_get_num_profiles device;;
        if index >? num_profiles then
          error "'%d' is not a valid profile\n" [ArgInt index];;
          out None ERR_UNSUPPORTED
        else
          profile <- ratbag_device_get_profile_by_index device index;;
          active <- ratbag_profile_is_active profile;;
          if active : bool then
            n <- ratbag_device_get_name device;;
            printf "'%s' is already in profile '%d'\n" [ArgStr n; ArgInt index];;
            out profile SUCCESS
          else
            rc <- ratbag_profile_set_active profile;;
            if rc =? 0 then
              n <- ratbag_device_get_name device;;
              printf "Switched '%s' to profile '%d'\n" [ArgStr n; ArgInt index];;
              out profile SUCCESS
            else out profile ERR_DEVICE.

(** The [for] loop of [ratbag_cmd_profile_active_get], entered at index [i]
    with [n] indices left; returns [profile], [active_profile_idx] and [rc]
    as the loop leaves them. *)
Fixpoint active_index_from (device : option ratbag_device) (i : Z) (n : nat)
    : M (option ratbag_profile * Z * Z) :=
  match n with
  | O => ret (None, 0, ERR_DEVICE)
  | S n' =>
      profile <- ratbag_device_get_profile_by_index device i;;
      active <- ratbag_profile_is_active profile;;
      if active : bool then ret (profile, i, SUCCESS)
      else ratbag_profile_unref profile;; active_index_from device (i + 1) n'
  end.

Definition ratbag_cmd_profile_active_get (argc : Z) (argv : list string) : M Z :=
  o <- options;;
  let device := device o in
  let out (profile : option ratbag_profile) (active_profile_idx rc : Z) : M Z :=
    when (rc =? SUCCESS) (printf "%d\n" [ArgInt active_profile_idx]);;
    ratbag_profile_unref profile;;
    ret rc in
  cap <- ratbag_device_has_capability device RATBAG_DEVICE_CAP_SWITCHABLE_PROFILE;;
  if negb cap then out None 0 SUCCESS
  else
    num_profiles <- ratbag_device_get_num_profiles device;;
    if num_profiles <=? 1 then out None 0 SUCCESS
    else
      found <- active_index_from device 0 (Z.to_nat num_profiles);;
      let '(profile, active_profile_idx, rc) := found in
      when (active_profile_idx >=? num_profiles)
        (error "Unable to find active profile, this is a bug.\n" []);;
      out profile active_profile_idx rc.

Definition ratbag_cmd_profile_active (run_subcommand : subcommand_runner)
    (argc : Z) (argv : list string) : M Z :=
  if argc <? 1 then ret ERR_USAGE
  else run_subcommand (arg_at argv 0) argc argv.

Definition ratbag_cmd_profile (run_subcommand : subcommand_runner)
    (argc : Z) (argv : list string) : M Z :=
  o <- options;;
  let device := device o in
  if argc <? 1 then ret ERR_USAGE
  else
    let command := arg_at argv 0 in
    token <- deref command;;
    let profile_idx := strtod_int W token in
    if strtod_full token then
      profile <- ratbag_device_get_profile_by_index device profile_idx;;
      if is_null profile then
        error "Unable to find profile %d\n" [ArgInt profile_idx];;
        ret ERR_UNSUPPORTED
      else
        let argc := argc - 1 in
        let argv := tail argv in
        let command := arg_at argv 0 in
        update (with_profile profile);;
        run_subcommand command argc argv
    else
      profile <- ratbag_cmd_get_active_profile device;;
      if is_null profile then ret ERR_DEVICE
      else
        update (with_profile profile);;
        run_subcommand command argc argv.

(** ** The dispatcher *)

(** [sub->cmd (sub, ratbag, options, argc, argv)] for the function [f]. *)
Definition call_handler (f : handler) (run_subcommand : subcommand_runner)
    (argc : Z) (argv : list string) : M Z :=
  match f with
  | fn_ratbag_cmd_info => ratbag_cmd_info argc argv
  | fn_ratbag_cmd_switch_etekcity => ratbag_cmd_switch_etekcity argc argv
  | fn_ratbag_cmd_change_button => ratbag_cmd_change_button argc argv
  | fn_ratbag_cmd_list_supported_devices => ratbag_cmd_list_supported_devices argc argv
  | fn_ratbag_cmd_resolution_active_set => ratbag_cmd_resolution_active_set argc argv
  | fn_ratbag_cmd_resolution_active_get => ratbag_cmd_resolution_active_get argc argv
  | fn_ratbag_cmd_resolution_active => ratbag_cmd_resolution_active run_subcommand argc argv
  | fn_ratbag_cmd_resolution_dpi_get => ratbag_cmd_resolution_dpi_get argc argv
  | fn_ratbag_cmd_resolution_dpi_set => ratbag_cmd_resolution_dpi_set argc argv
  | fn_ratbag_cmd_resolution_dpi => ratbag_cmd_resolution_dpi run_subcommand argc argv
  | fn_ratbag_cmd_resolution => ratbag_cmd_resolution run_subcommand argc argv
  | fn_ratbag_cmd_button => ratbag_cmd_button run_subcommand argc argv
  | fn_ratbag_cmd_profile_active_set => ratbag_cmd_profile_active_set argc argv
  | fn_ratbag_cmd_profile_active_get => ratbag_cmd_profile_active_get argc argv
  | fn_ratbag_cmd_profile_active => ratbag_cmd_profile_active run_subcommand argc argv
  | fn_ratbag_cmd_profile => ratbag_cmd_profile run_subcommand argc argv
  end.

(** [run_subcommand] once an entry matched: resolve what the entry needs,
    drop the matched token, call the entry's function. *)
Definition enter_subcommand (call : ratbag_cmd -> Z -> list string -> M Z)
    (sub : ratbag_cmd) (argc : Z) (argv : list string) : M Z :=
  filled <- fill_options (flags sub) argc argv;;
  let '(rc, argc) := filled in
  if negb (rc =? SUCCESS) then ret rc
  else call sub (argc - 1) (tail argv).

(** [run_subcommand] when the loop ends without a match. *)
Definition invalid_subcommand (command : option string) : M Z :=
  error "Invalid subcommand '%s'\n" [str_or_null command];;
  ret ERR_USAGE.

(** The body of [run_subcommand] on the entries [subs] of [cmd->subcommands],
    given how to call into a matched entry.  [sub] starts at entry 0 and the
    post-increment in [sub = cmd->subcommands[i++]] makes the second round
    look at entry 0 again; from there on the entries are visited in order. *)
Definition run_subcommand_on (call : ratbag_cmd -> Z -> list string -> M Z)
    (command : option string) (subs : list ratbag_cmd)
    (argc : Z) (argv : list string) : M Z :=
  match subs with
  | [] => invalid_subcommand command
  | first :: _ =>
      c <- deref command;;
      if streq c (name first) then enter_subcommand call first argc argv
      else
        (fix scan (rest : list ratbag_cmd) : M Z :=
           match rest with
           | [] => invalid_subcommand command
           | sub :: rest' =>
               if streq c (name sub) then enter_subcommand call sub argc argv
               else scan rest'
           end) subs
  end.

(** Calling the handler of a node. *)
Fixpoint call (cmd0 : ratbag_cmd) (argc : Z) (argv : list string) {struct cmd0} : M Z :=
  match cmd cmd0 with
  | None => undefined
  | Some f =>
      call_handler f
        (fun command argc argv =>
           run_subcommand_on call command (subcommands cmd0) argc argv)
        argc argv
  end.

Definition run_subcommand (command : option string) (cmd0 : ratbag_cmd)
    (argc : Z) (argv : list string) : M Z :=
  run_subcommand_on call command (subcommands cmd0) argc argv.

(** ** [main] *)

(** What [getopt_long (argc, argv, "+h", opts, ...)] reports, one option
    at a time, before the first token that is not an option. *)
Inductive cli_option :=
| OPT_VERBOSE (optarg : option string)
| OPT_HELP
| OPT_OTHER.

(** The option loop: [inl] for [goto out], [inr] when options are done. *)
Fixpoint parse_options (opts : list cli_option) : M (unit + unit) :=
  match opts with
  | [] => ret (inr tt)
  | OPT_HELP :: _ => emit_all usage;; ret (inl tt)
  | OPT_VERBOSE optarg :: rest =>
      o <- options;;
      (match optarg with
       | Some a =>
           if streq a "raw"
           then update (with_flags (Z.lor (opt_flags o) FLAG_VERBOSE_RAW))
           else update (with_flags (Z.lor (opt_flags o) FLAG_VERBOSE))
       | None => update (with_flags (Z.lor (opt_flags o) FLAG_VERBOSE))
       end);;
      parse_options rest
  | OPT_OTHER :: _ => ret (inl tt)
  end.

Definition options_zero : ratbag_cmd_options :=
  {| opt_flags := 0; device := None; profile := None; resolution := None; button := 0 |}.

(** [main], given the options [getopt_long] finds and the tokens from
    [argv[optind]] on. *)
Definition main_body (opts : list cli_option) (tokens : list string) : M Z :=
  let out (ratbag : bool) (rc : Z) : M Z :=
    o <- options;;
    ratbag_resolution_unref (resolution o);;
    ratbag_profile_unref (profile o);;
    ratbag_device_unref (device o);;
    when ratbag (emit (Release HContext));;
    when (rc =? ERR_USAGE) (emit_all usage);;
    ret rc in
  if negb (create_context W) then
    error "Failed to initialize ratbag\n" [];;
    out false ERR_DEVICE
  else
    emit (Acquire HContext);;
    update (with_flags 0);;
    update (with_button (-1));;
    parsed <- parse_options opts;;
    match parsed with
    | inl _ => out true SUCCESS
    | inr _ =>
        match tokens with
        | [] => out true ERR_USAGE
        | _ :: _ =>
            o <- options;;
            (if has_flag (opt_flags o) FLAG_VERBOSE_RAW
             then emit (Call (log_set_priority true))
             else when (has_flag (opt_flags o) FLAG_VERBOSE)
                       (emit (Call (log_set_priority false))));;
            let argc := Z.of_nat (List.length tokens) in
            let argv := tokens in
            let command := arg_at argv 0 in
            rc <- run_subcommand command ratbag_commands argc argv;;
            out true rc
        end
    end.

Definition main (opts : list cli_option) (tokens : list string)
    : list event * result (Z * ratbag_cmd_options) :=
  main_body opts tokens options_zero.

End Tool.

(** ** Reference accounting

    The references alive at some point form a multiset of handles.
    [replay] walks a trace from a given multiset: taking a reference adds
    the handle, dropping one removes it, and dropping a reference that is
    not alive (a double release) fails. *)

#[global] Instance handle_eq_dec : EqDecision handle.
Proof. solve_decision. Defined.

Definition handle_encode (h : handle) : nat * string * nat * nat :=
  match h with
  | HContext => (0%nat, "", 0%nat, 0%nat)
  | HDevice p => (1%nat, p, 0%nat, 0%nat)
  | HProfile p i => (2%nat, p, i, 0%nat)
  | HResolution p i j => (3%nat, p, i, j)
  | HButton p i j => (4%nat, p, i, j)
  end.

Definition handle_decode (x : nat * string * nat * nat) : handle :=
  match x with
  | (0%nat, _, _, _) => HContext
  | (1%nat, p, _, _) => HDevice p
  | (2%nat, p, i, _) => HProfile p i
  | (3%nat, p, i, j) => HResolution p i j
  | (_, p, i, j) => HButton p i j
  end.

#[global] Instance handle_countable : Countable handle.
Proof.
  apply (inj_countable' handle_encode handle_decode).
  intros []; reflexivity.
Defined.

Fixpoint replay (live : gmultiset handle) (t : list event)
    : option (gmultiset handle) :=
  match t with
  | [] => Some live
  | Acquire h :: t' => replay (live ⊎ {[+ h +]}) t'
  | Release h :: t' =>
      if decide (h ∈ live) then replay (live ∖ {[+ h +]}) t' else None
  | _ :: t' => replay live t'
  end.

Fixpoint acquired (h : handle) (t : list event) : nat :=
  match t with
  | [] => 0
  | Acquire h' :: t' => (if decide (h' = h) then 1 else 0) + acquired h t'
  | _ :: t' => acquired h t'
  end.

Fixpoint released (h : handle) (t : list event) : nat :=
  match t with
  | [] => 0
  | Release h' :: t' => (if decide (h' = h) then 1 else 0) + released h t'
  | _ :: t' => released h t'
  end.

(** The trace holds no call that changes the device. *)
Definition is_call (e : event) : bool :=
  match e with Call _ => true | _ => false end.
Definition no_calls (t : list event) : bool := forallb (fun e => negb (is_call e)) t.

(** The trace takes and drops no reference. *)
Definition quiet (t : list event) : bool :=
  forallb (fun e => match e with Acquire _ | Release _ => false | _ => true end) t.

Definition is_stdout (e : event) : bool :=
  match e with Stdout _ _ => true | _ => false end.
Definition no_stdout (t : list event) : bool := forallb (fun e => negb (is_stdout e)) t.

Definition no_acquire (t : list event) : bool :=
  forallb (fun e => match e with Acquire _ => false | _ => true end) t.

(** The references the context holds. *)
Definition one {A} (f : A -> handle) (p : option A) : gmultiset handle :=
  match p with Some a => {[+ f a +]} | None => ∅ end.

Definition held (o : ratbag_cmd_options) : gmultiset handle :=
  one device_handle (device o) ⊎ one profile_handle (profile o)
    ⊎ one resolution_handle (resolution o).

(** The dependency chain of the context. *)
Definition ctx_inv (o : ratbag_cmd_options) : Prop :=
  (resolution o <> None -> profile o <> None) /\
  (profile o <> None -> device o <> None).

(** A trace that leaves the live references as they were: whatever it
    takes it drops again, and it drops nothing else. *)
Definition neutral (t : list event) : Prop := forall X, replay X t = Some X.

(** [fill_options] stores what it resolves and leaves the rest. *)
Definition store_device (n : option ratbag_device) (o : ratbag_cmd_options) :=
  match n with Some _ => with_device n o | None => o end.
Definition store_profile (n : option ratbag_profile) (o : ratbag_cmd_options) :=
  match n with Some _ => with_profile n o | None => o end.
Definition store_resolution (n : option ratbag_resolution) (o : ratbag_cmd_options) :=
  match n with Some _ => with_resolution n o | None => o end.

(** The trace [t] drops every reference it takes, except those that make
    the difference between what the context [o] held and what [o'] holds. *)
Definition gains (t : list event) (o o' : ratbag_cmd_options) : Prop :=
  exists G, (forall X, replay X t = Some (X ⊎ G)) /\ held o' = held o ⊎ G.

(** What [fill_options] leaves alone: without the profile bits in [flags]
    it stores no profile, without the resolution bit no resolution. *)
Definition kept (flags : Z) (o o1 : ratbag_cmd_options) : Prop :=
  (has_flag flags (Z.lor FLAG_NEED_PROFILE FLAG_NEED_RESOLUTION) = false ->
   profile o1 = profile o)
  /\ (has_flag flags FLAG_NEED_RESOLUTION = false -> resolution o1 = resolution o).

(** The functions that never call [run_subcommand]. *)
Definition is_leaf (f : handler) : bool :=
  match f with
  | fn_ratbag_cmd_resolution_active | fn_ratbag_cmd_resolution_dpi
  | fn_ratbag_cmd_resolution | fn_ratbag_cmd_button
  | fn_ratbag_cmd_profile_active | fn_ratbag_cmd_profile => false
  | _ => true
  end.

(** ** Reasoning about runs

    [wp m o Q]: if [m], started with the options [o], returns, then [Q]
    holds of its trace, its result and the options it leaves; [twp m o Q]
    says in addition that it does return. *)

Definition wpx {A} (undef : Prop) (m : M A) (o : ratbag_cmd_options)
    (Q : list event -> A -> ratbag_cmd_options -> Prop) : Prop :=
  match m o with
  | (t, Ok (a, o')) => Q t a o'
  | (_, Undefined) => undef
  end.

(** Partial: nothing is said of a run into undefined behaviour. *)
Definition wp {A} : M A -> ratbag_cmd_options ->
    (list event -> A -> ratbag_cmd_options -> Prop) -> Prop := wpx True.

(** A computation that, when it returns, has left the context alone and
    kept no reference. *)
Definition pure {A} (m : M A) : Prop :=
  forall o, wp m o (fun t _ o' => o' = o /\ neutral t).

(** Total: the run returns, and [Q] holds. *)
Definition twp {A} : M A -> ratbag_cmd_options ->
    (list event -> A -> ratbag_cmd_options -> Prop) -> Prop := wpx False.

(** The run returns (no undefined behaviour on the way). *)
Definition returns {A} (r : list event * result (A * ratbag_cmd_options)) : bool :=
  match snd r with Ok _ => true | Undefined => false end.

Definition exit_code {A} (r : list event * result (Z * A)) : option Z :=
  match snd r with Ok (rc, _) => Some rc | Undefined => None end.

(** ** A sample device

    Two profiles (the first active), two resolutions each (the second
    active), eight buttons, every capability; it answers at
    [/dev/input/event5]. *)

Definition sample_resolution (active : bool) (dpi : Z) : resolution_state :=
  {| resolution_active := active; resolution_default := false;
     resolution_dpi := dpi; resolution_dpi_x := dpi; resolution_dpi_y := dpi;
     resolution_rate := 500; resolution_separate_xy := false |}.

Definition sample_button : button_state :=
  {| button_type_str := "left"; button_action_str := "button 1"; button_key := 0;
     button_action_type := RATBAG_BUTTON_ACTION_TYPE_BUTTON |}.

Definition sample_profile (active : bool) : profile_state :=
  {| profile_active := active; profile_default := false;
     profile_resolutions := [sample_resolution false 400; sample_resolution true 800];
     profile_button := fun _ => sample_button |}.

Definition sample_device : device_state :=
  {| device_name := "Sample Mouse"; device_capabilities := fun _ => true;
     device_num_buttons := 8;
     device_profiles := [sample_profile true; sample_profile false] |}.

Definition sample_world : collaborator :=
  {| open_device := fun path =>
       if String.eqb path "/dev/input/event5" then Some sample_device else None;
     libevdev_event_code_from_name := fun n =>
       if String.eqb n "KEY_A" then KEY_A
       else if String.eqb n "KEY_RESERVED" then 0 else -1;
     str_to_special_action := fun _ => RATBAG_BUTTON_ACTION_SPECIAL_INVALID;
     strtod_int := atoi;
     rc_of := fun _ => 0;
     scandir_dev_input := Some ["event5"; "event6"];
     create_context := true;
     strerror := fun _ => "error";
     program_invocation_short_name := "ratbag-command" |}.

Definition sample_path : string := "/dev/input/event5".

Definition sample_device_ptr : ratbag_device :=
  {| device_path := sample_path; device_of := sample_device |}.

Definition sample_profile_ptr : ratbag_profile :=
  {| profile_device := sample_device_ptr; profile_index := 0;
     profile_of := sample_profile true |}.

(** The context after [fill_options] resolved device and active profile. *)
Definition sample_options : ratbag_cmd_options :=
  {| opt_flags := 0; device := Some sample_device_ptr;
     profile := Some sample_profile_ptr; resolution := None; button := -1 |}.

(** A device without switchable profiles and with one profile only. *)
Definition plain_device : device_state :=
  {| device_name := "Plain Mouse"; device_capabilities := fun _ => false;
     device_num_buttons := 3;
     device_profiles := [sample_profile true] |}.

(** A device that reports two profiles, neither of them active. *)
Definition idle_device : device_state :=
  {| device_name := "Idle Mouse"; device_capabilities := fun _ => true;
     device_num_buttons := 3;
     device_profiles := [sample_profile false; sample_profile false] |}.

Definition options_with (st : device_state) : ratbag_cmd_options :=
  {| opt_flags := 0;
     device := Some {| device_path := sample_path; device_of := st |};
     profile := None; resolution := None; button := -1 |}.

(** A runner that accepts whatever it is given. *)
Definition accept_all : subcommand_runner := fun _ _ _ => ret SUCCESS.

(** More devices: one whose second profile is the active one, and one whose
    active profile has no active resolution. *)
Definition late_device : device_state :=
  {| device_name := "Late Mouse"; device_capabilities := fun _ => true;
     device_num_buttons := 8;
     device_profiles := [sample_profile false; sample_profile true] |}.

Definition flat_profile : profile_state :=
  {| profile_active := true; profile_default := false;
     profile_resolutions := [sample_resolution false 400; sample_resolution false 800];
     profile_button := fun _ => sample_button |}.

Definition flat_device : device_state :=
  {| device_name := "Flat Mouse"; device_capabilities := fun _ => true;
     device_num_buttons := 8; device_profiles := [flat_profile] |}.

(** The sample world with another device behind [/dev/input/event5], and
    one in which the library context cannot be created. *)
Definition world_of (st : device_state) : collaborator :=
  {| open_device := fun path =>
       if String.eqb path "/dev/input/event5" then Some st else None;
     libevdev_event_code_from_name := libevdev_event_code_from_name sample_world;
     str_to_special_action := str_to_special_action sample_world;
     strtod_int := atoi;
     rc_of := fun _ => 0;
     scandir_dev_input := Some ["event5"; "event6"];
     create_context := true;
     strerror := fun _ => "error";
     program_invocation_short_name := "ratbag-command" |}.

Definition broken_world : collaborator :=
  {| open_device := open_device sample_world;
     libevdev_event_code_from_name := libevdev_event_code_from_name sample_world;
     str_to_special_action := str_to_special_action sample_world;
     strtod_int := atoi;
     rc_of := fun _ => 0;
     scandir_dev_input := None;
     create_context := false;
     strerror := fun _ => "error";
     program_invocation_short_name := "ratbag-command" |}.

Definition sample_resolution_ptr : ratbag_resolution :=
  {| resolution_profile := sample_profile_ptr; resolution_index := 1;
     resolution_of := sample_resolution true 800 |}.

(** The context after [fill_options] resolved all three handles. *)
Definition full_options : ratbag_cmd_options :=
  {| opt_flags := 0; device := Some sample_device_ptr;
     profile := Some sample_profile_ptr;
     resolution := Some sample_resolution_ptr; button := -1 |}.

(** ** Reading a trace *)

Definition is_stderr (e : event) : bool :=
  match e with Stderr _ _ => true | _ => false end.
Definition no_stderr (t : list event) : bool :=
  forallb (fun e => negb (is_stderr e)) t.

(** The trace of a scan that looks at the items [i], ..., [i + k - 1] and
    drops each of them again. *)
Definition scanned (h : nat -> handle) (i k : nat) : list event :=
  flat_map (fun j => [Acquire (h j); Release (h j)]) (seq i k).

(** The first item flagged active, with its index. *)
Definition first_active_profile (l : list profile_state)
    : option (nat * profile_state) :=
  list_find (fun p => profile_active p = true) l.
Definition first_active_resolution (l : list resolution_state)
    : option (nat * resolution_state) :=
  list_find (fun r => resolution_active r = true) l.

(** The calls that hand a macro over to a button: the name, one call per
    event up to the first [RATBAG_MACRO_EVENT_NONE] with the event's index,
    and the commit. *)
Definition macro_calls (h : handle) (m : macro) : list event :=
  Call (set_macro h (macro_name m))
  :: imap (fun i e => Call (set_macro_event h (Z.of_nat i) (fst e) (snd e)))
       (macro_events (events m))
  ++ [Call (write_macro h)].

(** What [list] writes for one entry of [/dev/input]: a line for a device
    that opens (taken and released around it), nothing otherwise. *)
Definition listed (W : collaborator) (d_name : string) : list event :=
  let path := "/dev/input/" +:+ d_name in
  match open_device W path with
  | Some st =>
      [Acquire (HDevice path);
       Stdout "%s:\t%s\n" [ArgStr path; ArgStr (device_name st)];
       Release (HDevice path)]
  | None => []
  end.

Definition opens (W : collaborator) (d_name : string) : bool :=
  negb (is_null (open_device W ("/dev/input/" +:+ d_name))).

(** A trace that only reads: every reference taken is dropped again,
    no call changes the device, nothing goes to standard error. *)
Definition read_only (t : list event) : Prop :=
  neutral t /\ no_calls t = true /\ no_stderr t = true.

(** Options that only set the verbosity. *)
Definition is_verbose (opt : cli_option) : bool :=
  match opt with OPT_VERBOSE _ => true | _ => false end.
Definition is_raw (opt : cli_option) : bool :=
  match opt with OPT_VERBOSE (Some a) => streq a "raw" | _ => false end.

(** * Properties *)

(** ** Sanity of the libc models *)

Example strtod_full_samples :
  map strtod_full ["5"; "-12"; "1.5"; "1e3"; ".5"; "0x1F"; "inf"; "nan"; " 7"]
    = [true; true; true; true; true; true; true; true; true]
  /\ map strtod_full [""; " "; "active"; "info"; "1e"; "0x"; "5x"; "."; "-"; "nan("]
    = [false; false; false; false; false; false; false; false; false; false].
Proof. split; reflexivity. Qed.

Example atoi_samples :
  map atoi ["2"; "-1"; " 42abc"; "abc"; ""; "+7"; "4294967298"] = [2; -1; 42; 0; 0; 7; 2].
Proof. reflexivity. Qed.

(** No subcommand name of the tree is taken for a number. *)
Example subcommand_names_not_numeric :
  map strtod_full ["active"; "resolution"; "button"; "dpi"; "get"; "set"]
    = [false; false; false; false; false; false].
Proof. reflexivity. Qed.

(** ** The usage formatter *)

Lemma to_int_small z : - 2 ^ 31 <= z < 2 ^ 31 -> to_int z = z.
Proof.
  intros H. unfold to_int.
  rewrite Z.mod_small; lia.
Qed.

(** Before the prefix is taken off, the count has the floor of 4. *)
Lemma usage_count_floor sub prefix :
  strlen (name sub) < 2 ^ 30 ->
  match args sub with Some a => strlen a < 2 ^ 30 | None => True end ->
  strlen prefix < 2 ^ 30 ->
  exists column, 4 <= column /\ usage_count sub prefix = column - strlen prefix.
Proof.
  intros Hn Ha Hp. unfold usage_count.
  assert (0 <= strlen (name sub)) by (unfold strlen; lia).
  assert (0 <= strlen prefix) by (unfold strlen; lia).
  rewrite (to_int_small (40 - _)) by lia.
  destruct (args sub) as [a|].
  - assert (0 <= strlen a) by (unfold strlen; lia).
    rewrite (to_int_small (_ - (1 + _))) by lia.
    destruct (Z.ltb_spec (40 - strlen (name sub) - (1 + strlen a)) 4).
    + exists 4. split; [lia|]. apply to_int_small. lia.
    + eexists. split; [|apply to_int_small; lia]. lia.
  - destruct (Z.ltb_spec (40 - strlen (name sub)) 4).
    + exists 4. split; [lia|]. apply to_int_small. lia.
    + eexists. split; [|apply to_int_small; lia]. lia.
Qed.

(** Every row of the usage text with the number of dots it shows. *)
Example usage_rows_of_the_tree :
  usage_rows ratbag_commands "" =
    [("ratbag-command ", "info", 21); ("ratbag-command ", "list", 21);
     ("ratbag-command ", "change-button", 41);
     ("ratbag-command ", "switch-etekcity", 10);
     ("ratbag-command ", "button", 13);
     ("ratbag-command resolution N active ", "get", 2);
     ("ratbag-command resolution N active ", "set", 0);
     ("ratbag-command resolution N dpi ", "get", 5);
     ("ratbag-command resolution N dpi ", "set", 41);
     ("ratbag-command profile <idx> active ", "get", 1);
     ("ratbag-command profile <idx> active ", "set", 41);
     ("ratbag-command profile <idx> resolution N active ", "get", 41);
     ("ratbag-command profile <idx> resolution N active ", "set", 41);
     ("ratbag-command profile <idx> resolution N dpi ", "get", 41);
     ("ratbag-command profile <idx> resolution N dpi ", "set", 41);
     ("ratbag-command profile <idx> ", "button", 41);
     ("ratbag-command dpi ", "get", 18);
     ("ratbag-command dpi ", "set", 12)].
Proof. vm_compute. reflexivity. Qed.

(** C9, on the code: the usage text of the command tree has rows with fewer
    than 4 dots.  The floor of 4 is applied to [count] before the length of
    the accumulated prefix is subtracted, so the node [resolution N active
    get] is printed with 2 dots and [resolution N active set M] with none. *)
Theorem usage_dot_fill_below_floor :
  usage_count cmd_resolution_active_get "ratbag-command resolution N active " = 2
  /\ usage_count cmd_resolution_active_set "ratbag-command resolution N active " = 0
  /\ (exists e, In e (usage_subcommand ratbag_commands "")
        /\ usage_row e = Some ("ratbag-command resolution N active ", "get", 2))
  /\ (exists e, In e (usage_subcommand ratbag_commands "")
        /\ usage_row e = Some ("ratbag-command resolution N active ", "set", 0))
  /\ ~ Forall (fun row => 4 <= snd row) (usage_rows ratbag_commands "").
Proof.
  split; [reflexivity|]. split; [reflexivity|].
  split.
  { eexists. split; [vm_compute; do 5 right; left; reflexivity | reflexivity]. }
  split.
  { eexists. split; [vm_compute; do 6 right; left; reflexivity | reflexivity]. }
  rewrite usage_rows_of_the_tree. intros H.
  do 5 apply Forall_cons_1 in H as [_ H].
  apply Forall_cons_1 in H as [H _]. simpl in H. lia.
Qed.

(** ** Rules for [wp] and [twp] *)

Lemma wpx_ret {A} U (a : A) o Q : Q [] a o -> wpx U (ret a) o Q.
Proof. intros H. exact H. Qed.

Lemma wpx_bind {A B} U (m : M A) (k : A -> M B) o Q :
  wpx U m o (fun t a o' => wpx U (k a) o' (fun t' b o'' => Q (t ++ t') b o'')) ->
  wpx U (bind m k) o Q.
Proof.
  unfold wpx, bind. destruct (m o) as [t [[a o']|]]; [|trivial].
  destruct (k a o') as [t' [[b o'']|]]; trivial.
Qed.

Lemma wpx_mono {A} U (m : M A) o
    (Q Q' : list event -> A -> ratbag_cmd_options -> Prop) :
  wpx U m o Q -> (forall t a o', Q t a o' -> Q' t a o') -> wpx U m o Q'.
Proof.
  unfold wpx. destruct (m o) as [t [[a o']|]]; auto.
Qed.

Lemma wpx_emit U e o Q : Q [e] tt o -> wpx U (emit e) o Q.
Proof. intros H. exact H. Qed.

Lemma wpx_emit_all U t o Q : Q t tt o -> wpx U (emit_all t) o Q.
Proof. intros H. exact H. Qed.

Lemma wpx_options U o Q : Q [] o o -> wpx U options o Q.
Proof. intros H. exact H. Qed.

Lemma wpx_update U f o Q : Q [] tt (f o) -> wpx U (update f) o Q.
Proof. intros H. exact H. Qed.

Lemma wpx_deref {A} U (a : A) o Q : Q [] a o -> wpx U (deref (Some a)) o Q.
Proof. intros H. exact H. Qed.

Lemma wpx_undefined {A} (U : Prop) o (Q : list event -> A -> _ -> Prop) :
  U -> wpx U undefined o Q.
Proof. intros H. exact H. Qed.

Lemma wpx_deref_null {A} (U : Prop) o (Q : list event -> A -> _ -> Prop) :
  U -> wpx U (deref None) o Q.
Proof. intros H. exact H. Qed.

Lemma wpx_run {A} U (m : M A) o Q t a o' :
  m o = (t, Ok (a, o')) -> Q t a o' -> wpx U m o Q.
Proof. unfold wpx. intros ->. auto. Qed.

Lemma twp_run {A} (m : M A) o Q :
  twp m o Q -> exists t a o', m o = (t, Ok (a, o')) /\ Q t a o'.
Proof.
  unfold twp, wpx. destruct (m o) as [t [[a o']|]]; [|contradiction].
  intros H. exists t, a, o'. auto.
Qed.

Lemma wp_run {A} (m : M A) o Q t a o' :
  wp m o Q -> m o = (t, Ok (a, o')) -> Q t a o'.
Proof. unfold wp, wpx. intros H E. rewrite E in H. exact H. Qed.

Lemma twp_wpx {A} (U : Prop) (m : M A) o Q : twp m o Q -> wpx U m o Q.
Proof.
  unfold twp, wpx. destruct (m o) as [t [[a o']|]]; [auto | contradiction].
Qed.

Lemma twp_wp {A} (m : M A) o Q : twp m o Q -> wp m o Q.
Proof. apply twp_wpx. Qed.

Lemma replay_app X t1 t2 :
  replay X (t1 ++ t2) = match replay X t1 with Some X' => replay X' t2 | None => None end.
Proof.
  revert X. induction t1 as [|e t1 IH]; intros X; [reflexivity|].
  destruct e; simpl; auto.
  destruct (decide (h ∈ X)); auto.
Qed.

(** ** The button action encoder *)

Lemma str_to_macro_foo W arg :
  first_char arg = "f"%char ->
  exists m, str_to_macro (Some arg) macro_zero = (0, m)
    /\ macro_name m = Some "foo"
    /\ macro_events (events m) =
         [(RATBAG_MACRO_EVENT_KEY_PRESSED, KEY_F); (RATBAG_MACRO_EVENT_KEY_RELEASED, KEY_F);
          (RATBAG_MACRO_EVENT_KEY_PRESSED, KEY_O); (RATBAG_MACRO_EVENT_KEY_RELEASED, KEY_O);
          (RATBAG_MACRO_EVENT_KEY_PRESSED, KEY_O); (RATBAG_MACRO_EVENT_KEY_RELEASED, KEY_O)]
    /\ parse_button_action W (Some "macro") (Some arg) =
         ret (inr (ActionMacro m)).
Proof.
  intros H. unfold parse_button_action, str_to_macro. rewrite H.
  eexists. repeat split.
Qed.

Lemma str_to_macro_bar W arg :
  first_char arg = "b"%char ->
  exists m, str_to_macro (Some arg) macro_zero = (0, m)
    /\ macro_name m = Some "bar"
    /\ macro_events (events m) =
         [(RATBAG_MACRO_EVENT_KEY_PRESSED, KEY_B); (RATBAG_MACRO_EVENT_KEY_RELEASED, KEY_B);
          (RATBAG_MACRO_EVENT_KEY_PRESSED, KEY_A); (RATBAG_MACRO_EVENT_KEY_RELEASED, KEY_A);
          (RATBAG_MACRO_EVENT_KEY_PRESSED, KEY_R); (RATBAG_MACRO_EVENT_KEY_RELEASED, KEY_R)]
    /\ parse_button_action W (Some "macro") (Some arg) =
         ret (inr (ActionMacro m)).
Proof.
  intros H. unfold parse_button_action, str_to_macro. rewrite H.
  eexists. repeat split.
Qed.

(** Any other first character: [str_to_macro] still returns 0, the macro
    has no name and no event, and the caller's test for an error does not
    fire. *)
Lemma str_to_macro_other W arg :
  first_char arg <> "f"%char -> first_char arg <> "b"%char ->
  str_to_macro (Some arg) macro_zero = (0, macro_zero)
  /\ macro_events (events macro_zero) = []
  /\ parse_button_action W (Some "macro") (Some arg) =
       ret (inr (ActionMacro macro_zero)).
Proof.
  intros Hf Hb.
  assert (E : str_to_macro (Some arg) macro_zero = (0, macro_zero)).
  { unfold str_to_macro.
    destruct (Ascii.eqb_spec (first_char arg) "f"); [contradiction|].
    destruct (Ascii.eqb_spec (first_char arg) "b"); [contradiction|].
    reflexivity. }
  repeat split; [exact E|].
  unfold parse_button_action. simpl deref. cbn [bind ret streq String.eqb].
  rewrite E. reflexivity.
Qed.

(** ** Stepping through a function body *)

Create HintDb tool discriminated.
Create HintDb keeps_none discriminated.

#[global] Hint Unfold
  ratbag_cmd_open_device ratbag_device_unref ratbag_profile_unref
  ratbag_resolution_unref ratbag_button_unref ratbag_device_get_name
  ratbag_device_has_capability ratbag_device_get_num_buttons
  ratbag_device_get_num_profiles ratbag_device_get_profile_by_index
  ratbag_profile_is_active ratbag_profile_is_default
  ratbag_profile_get_num_resolutions ratbag_profile_get_resolution
  ratbag_profile_get_button_by_index ratbag_profile_set_active
  ratbag_resolution_get ratbag_resolution_test ratbag_resolution_get_dpi
  ratbag_resolution_get_dpi_x ratbag_resolution_get_dpi_y
  ratbag_resolution_get_report_rate ratbag_resolution_is_active
  ratbag_resolution_is_default ratbag_resolution_has_capability
  ratbag_resolution_set_dpi ratbag_button_call ratbag_button_get_key
  ratbag_button_get_action_type button_type_to_str button_action_to_str
  printf error when : tool.

Ltac has_var b := match b with context [?v] => is_var v end.

Ltac wstep :=
  cbv beta match zeta;
  cbn [is_null fst snd streq String.eqb Ascii.eqb Bool.eqb negb];
  lazymatch goal with
  | |- wpx _ (bind _ _) _ _ => apply wpx_bind
  | |- wpx _ (ret _) _ _ => apply wpx_ret
  | |- wpx _ (emit _) _ _ => apply wpx_emit
  | |- wpx _ (emit_all _) _ _ => apply wpx_emit_all
  | |- wpx _ options _ _ => apply wpx_options
  | |- wpx _ (update _) _ _ => apply wpx_update
  | |- wpx _ (deref (Some _)) _ _ => apply wpx_deref
  | |- wpx True (deref None) _ _ => exact I
  | |- wpx True undefined _ _ => exact I
  | |- wpx _ (deref None) _ _ => fail
  | |- wpx _ (deref ?p) _ _ =>
      first [ match goal with H : p = _ |- _ => rewrite H end
            | destruct p eqn:? ]
  | |- wpx _ (if is_null ?p then _ else _) _ _ =>
      first [ match goal with H : p = _ |- _ => rewrite H end
            | destruct p eqn:? ]
  | |- wpx _ (if ?b then _ else _) _ _ =>
      tryif has_var b then destruct b eqn:?
      else (let v := eval vm_compute in b in change b with v)
  | |- wpx _ (match ?x with _ => _ end) _ _ =>
      first [ match goal with H : x = _ |- _ => rewrite H end
            | destruct x eqn:? ]
  | |- wpx True ?m _ _ =>
      (* a call already known to keep the context and no reference *)
      let H := fresh "Hpure" in
      assert (H : pure m) by (solve [auto with keeps_none]);
      eapply wpx_mono; [apply H | cbv beta; intros ? ? ? [-> ?]]; clear H
  end.

Ltac wsteps := repeat (autounfold with tool; wstep).

Ltac splits := repeat match goal with |- _ /\ _ => split end.

(** Boolean tests in the hypotheses, as propositions. *)
Ltac zbool :=
  repeat match goal with
  | H : negb _ = true |- _ => apply Bool.negb_true_iff in H
  | H : negb _ = false |- _ => apply Bool.negb_false_iff in H
  | H : (_ =? _) = true |- _ => apply Z.eqb_eq in H
  | H : (_ =? _) = false |- _ => apply Z.eqb_neq in H
  | H : (_ <? _) = true |- _ => apply Z.ltb_lt in H
  | H : (_ <? _) = false |- _ => apply Z.ltb_ge in H
  | H : (_ <=? _) = true |- _ => apply Z.leb_le in H
  | H : (_ <=? _) = false |- _ => apply Z.leb_gt in H
  | H : (_ >? _) = true |- _ => apply Z.gtb_lt in H
  | H : (_ >? _) = false |- _ => rewrite Z.gtb_ltb in H; apply Z.ltb_ge in H
  | H : (_ >=? _) = true |- _ => apply Z.geb_le in H
  | H : (_ >=? _) = false |- _ => rewrite Z.geb_leb in H; apply Z.leb_gt in H
  end;
  unfold SUCCESS, ERR_UNSUPPORTED, ERR_USAGE, ERR_DEVICE in *.

Lemma set_macro_events_zero W button i :
  set_macro_events W button i (events macro_zero) = ret tt.
Proof. reflexivity. Qed.

(** C2, on the code: a macro argument that starts with neither [f] nor [b]
    encodes to an empty macro, but [str_to_macro] reports success and
    [ratbag_cmd_change_button] goes on with it: the handler returns, and
    never [ERR_USAGE]. *)
Theorem change_button_unknown_macro_not_rejected
    W index_arg arg rest o d p :
  first_char arg <> "f"%char -> first_char arg <> "b"%char ->
  device o = Some d -> profile o = Some p ->
  macro_events (events (snd (str_to_macro (Some arg) macro_zero))) = []
  /\ exists t rc,
       ratbag_cmd_change_button W 3 (index_arg :: "macro" :: arg :: rest) o
         = (t, Ok (rc, o))
       /\ rc <> ERR_USAGE.
Proof.
  intros Hf Hb Hd Hp.
  destruct (str_to_macro_other W arg Hf Hb) as (Em & _ & E).
  split; [rewrite Em; reflexivity|].
  cut (twp (ratbag_cmd_change_button W 3 (index_arg :: "macro" :: arg :: rest)) o
         (fun _ rc o' => o' = o /\ rc <> ERR_USAGE)).
  { intros H. apply twp_run in H as (t & rc & o' & Er & -> & Hrc). eauto. }
  unfold twp, ratbag_cmd_change_button.
  change (arg_at (index_arg :: "macro" :: arg :: rest) 0) with (Some index_arg).
  change (arg_at (index_arg :: "macro" :: arg :: rest) 1) with (Some "macro").
  change (arg_at (index_arg :: "macro" :: arg :: rest) 2) with (Some arg).
  rewrite E. simpl negb. cbv iota.
  unfold apply_button_action.
  wsteps; rewrite ?set_macro_events_zero; wsteps.
  all: split; [reflexivity|].
  all: zbool; lia.
Qed.

(** C8: a [key] action whose name resolves to key code 0 makes
    [ratbag_cmd_change_button] return [ERR_USAGE] at once: the context is
    untouched and the trace holds only the diagnostic, no call that changes
    the device and no reference taken. *)
Theorem change_button_null_key_usage_error W argc index_arg key_name rest o :
  libevdev_event_code_from_name W key_name = 0 ->
  exists t,
    ratbag_cmd_change_button W argc (index_arg :: "key" :: key_name :: rest) o
      = (t, Ok (ERR_USAGE, o))
    /\ no_calls t = true /\ no_acquire t = true.
Proof.
  intros Hkey.
  cut (twp (ratbag_cmd_change_button W argc (index_arg :: "key" :: key_name :: rest)) o
         (fun t rc o' => rc = ERR_USAGE /\ o' = o
                         /\ no_calls t = true /\ no_acquire t = true)).
  { intros H. apply twp_run in H as (t & rc & o' & Er & -> & -> & H). eauto. }
  unfold twp, ratbag_cmd_change_button.
  change (arg_at (index_arg :: "key" :: key_name :: rest) 0) with (Some index_arg).
  change (arg_at (index_arg :: "key" :: key_name :: rest) 1) with (Some "key").
  change (arg_at (index_arg :: "key" :: key_name :: rest) 2) with (Some key_name).
  unfold parse_button_action.
  wsteps.
  all: try (repeat split; reflexivity).
  all: rewrite Hkey in *; discriminate.
Qed.

(** The same from the command line, on the sample device:
    [change-button 3 key KEY_RESERVED /dev/input/event5] exits with 2 and
    the device sees no mutating call. *)
Example change_button_null_key_end_to_end :
  let r := main sample_world []
             ["change-button"; "3"; "key"; "KEY_RESERVED"; sample_path] in
  exit_code r = Some ERR_USAGE /\ no_calls (fst r) = true.
Proof. vm_compute. split; reflexivity. Qed.

(** A name libevdev does not know yields -1, which is not the zero key
    code: the handler goes on and hands key 4294967295 to the device. *)
Example change_button_unknown_key_name :
  let r := main sample_world []
             ["change-button"; "3"; "key"; "BOGUS"; sample_path] in
  exit_code r = Some SUCCESS
  /\ In (Call (set_key (HButton sample_path 0 3) 4294967295 0)) (fst r).
Proof. vm_compute. split; [reflexivity|]. do 4 right. left. reflexivity. Qed.

(** ** [profile active get] *)

Lemma to_uint_le i : 0 <= i -> 0 <= to_uint i <= i.
Proof.
  intros H. unfold to_uint. split.
  - apply Z.mod_pos_bound. lia.
  - apply Z.mod_le; lia.
Qed.

Lemma at_index_in_range {A} (l : list A) i :
  0 <= i < Z.of_nat (List.length l) ->
  exists x, at_index l i = Some x /\ In x l.
Proof.
  intros H. unfold at_index.
  pose proof (to_uint_le i (proj1 H)) as Hu.
  destruct (Z.ltb_spec (to_uint i) (Z.of_nat (List.length l))); [|lia].
  destruct (l !! Z.to_nat (to_uint i)) as [x|] eqn:E.
  - exists x. split; [reflexivity|]. apply list_elem_of_In.
    eapply list_elem_of_lookup_2. exact E.
  - apply lookup_ge_None in E. lia.
Qed.

Lemma at_index_out_of_range {A} (l : list A) i :
  Z.of_nat (List.length l) <= to_uint i -> at_index l i = None.
Proof.
  intros H. unfold at_index.
  destruct (Z.ltb_spec (to_uint i) (Z.of_nat (List.length l))); [lia | reflexivity].
Qed.

Lemma no_stdout_app t1 t2 :
  no_stdout (t1 ++ t2) = no_stdout t1 && no_stdout t2.
Proof. apply forallb_app. Qed.

(** With no profile flagged active the scan runs to the end and leaves
    [profile], [active_profile_idx] and [rc] as they were initialised. *)
Lemma active_index_from_none d o n : forall i,
  0 <= i -> i + Z.of_nat n <= Z.of_nat (List.length (device_profiles (device_of d))) ->
  Forall (fun p => profile_active p = false) (device_profiles (device_of d)) ->
  twp (active_index_from (Some d) i n) o
    (fun t r o' => r = (None, 0, ERR_DEVICE) /\ o' = o /\ no_stdout t = true).
Proof.
  unfold twp. induction n as [|n IH]; intros i Hi Hn Hall.
  - simpl. apply wpx_ret. auto.
  - cbn [active_index_from].
    destruct (at_index_in_range (device_profiles (device_of d)) i) as (st & E & Hin);
      [lia|].
    rewrite Forall_forall in Hall. pose proof (Hall st Hin) as Hst.
    wsteps.
    + simpl in *. congruence.
    + eapply wpx_mono.
      * apply IH; [lia | lia | rewrite Forall_forall; exact Hall].
      * cbv beta. intros t a o' (-> & -> & Ht). repeat split.
        simpl. exact Ht.
Qed.

(** C10: [ratbag_cmd_profile_active_get].  Without the switchable-profile
    capability, or with at most one profile, it prints index 0 and returns
    [SUCCESS]; the trace is that one line, no profile was fetched to look at
    its active flag.  With more than one profile and none flagged active it
    returns [ERR_DEVICE] and writes nothing to standard output. *)
Theorem profile_active_get_cases argc argv o d :
  device o = Some d ->
  let switchable :=
    device_capabilities (device_of d) RATBAG_DEVICE_CAP_SWITCHABLE_PROFILE in
  let profiles := device_profiles (device_of d) in
  (switchable = false \/ (List.length profiles <= 1)%nat ->
     ratbag_cmd_profile_active_get argc argv o
       = ([Stdout "%d\n" [ArgInt 0]], Ok (SUCCESS, o)))
  /\ (switchable = true -> (1 < List.length profiles)%nat ->
      Forall (fun p => profile_active p = false) profiles ->
      exists t,
        ratbag_cmd_profile_active_get argc argv o = (t, Ok (ERR_DEVICE, o))
        /\ no_stdout t = true).
Proof.
  intros Hd switchable profiles. split.
  - intros Hcase.
    cut (twp (ratbag_cmd_profile_active_get argc argv) o
           (fun t rc o' => t = [Stdout "%d\n" [ArgInt 0]] /\ rc = SUCCESS /\ o' = o)).
    { intros H. apply twp_run in H as (t & rc & o' & Er & -> & -> & ->). exact Er. }
    unfold twp, ratbag_cmd_profile_active_get.
    wsteps; auto.
    all: exfalso; subst switchable profiles; zbool.
    all: destruct Hcase as [Hc | Hc]; [congruence | lia].
  - intros Hcap Hlen Hall.
    cut (twp (ratbag_cmd_profile_active_get argc argv) o
           (fun t rc o' => rc = ERR_DEVICE /\ o' = o /\ no_stdout t = true)).
    { intros H. apply twp_run in H as (t & rc & o' & Er & -> & -> & H). eauto. }
    unfold twp, ratbag_cmd_profile_active_get.
    subst switchable profiles.
    wsteps; zbool; try (exfalso; first [congruence | lia]).
    eapply wpx_mono.
    + apply (active_index_from_none d); [lia | | exact Hall].
      rewrite Nat2Z.id. lia.
    + cbv beta. intros t a o' (-> & -> & Ht).
      wsteps; zbool; try (exfalso; lia).
      repeat split. rewrite !no_stdout_app, Ht. reflexivity.
Qed.

(** ** Flags *)

Lemma has_flag_lor flags a b :
  has_flag flags (Z.lor a b) = has_flag flags a || has_flag flags b.
Proof.
  unfold has_flag. rewrite Z.land_lor_distr_r.
  destruct (Z.eqb_spec (Z.land flags a) 0) as [Ea|Ea];
    destruct (Z.eqb_spec (Z.land flags b) 0) as [Eb|Eb];
    destruct (Z.eqb_spec (Z.lor (Z.land flags a) (Z.land flags b)) 0) as [E|E];
    try reflexivity; exfalso.
  - apply E. rewrite Ea, Eb. reflexivity.
  - apply Z.lor_eq_0_iff in E. tauto.
  - apply Z.lor_eq_0_iff in E. tauto.
  - apply Z.lor_eq_0_iff in E. tauto.
Qed.

Lemma has_flag_need_any flags :
  has_flag flags need_any =
    has_flag flags FLAG_NEED_DEVICE || has_flag flags FLAG_NEED_PROFILE
      || has_flag flags FLAG_NEED_RESOLUTION.
Proof. unfold need_any. rewrite !has_flag_lor. reflexivity. Qed.

(** ** Finding the active profile and resolution *)

Lemma replay_acquire_release X h t :
  replay X (Acquire h :: Release h :: t) = replay X t.
Proof.
  simpl. rewrite decide_True by multiset_solver.
  f_equal. multiset_solver.
Qed.

(** The scan for the active profile returns; it leaves the context alone,
    makes no mutating call, and the only reference it keeps is the one it
    returns. *)
Lemma active_profile_from_spec d o n : forall i,
  0 <= i -> i + Z.of_nat n <= Z.of_nat (List.length (device_profiles (device_of d))) ->
  twp (active_profile_from (Some d) i n) o
    (fun t r o' =>
       o' = o /\ no_calls t = true /\ no_stdout t = true
       /\ (forall X, replay X t = Some (X ⊎ one profile_handle r))
       /\ forall p, r = Some p -> profile_device p = d).
Proof.
  unfold twp. induction n as [|n IH]; intros i Hi Hn.
  - simpl. apply wpx_ret. splits; try reflexivity.
    + intros X. simpl. f_equal. multiset_solver.
    + discriminate.
  - cbn [active_profile_from].
    destruct (at_index_in_range (device_profiles (device_of d)) i) as (st & E & Hin);
      [lia|].
    wsteps.
    + splits; try reflexivity.
      intros p' [= <-]. reflexivity.
    + eapply wpx_mono.
      * apply (IH (i + 1)); lia.
      * cbv beta. intros t a o' (-> & Hc & Hs & Hr & Hp).
        splits; try assumption; try reflexivity.
        intros X. simpl app. rewrite replay_acquire_release. apply Hr.
Qed.

Lemma get_active_profile_spec d o :
  twp (ratbag_cmd_get_active_profile (Some d)) o
    (fun t r o' =>
       o' = o /\ no_calls t = true /\ no_stdout t = true
       /\ (forall X, replay X t = Some (X ⊎ one profile_handle r))
       /\ forall p, r = Some p -> profile_device p = d).
Proof.
  unfold twp, ratbag_cmd_get_active_profile.
  wsteps.
  eapply wpx_mono.
  - apply (active_profile_from_spec d); [lia | rewrite Nat2Z.id; lia].
  - cbv beta. intros t a o' (-> & Hc & Hs & Hr & Hp).
    wsteps; subst.
    + splits; try assumption; try reflexivity.
      * simpl. rewrite !app_nil_r. exact Hc.
      * simpl. rewrite !app_nil_r. exact Hs.
      * intros X. simpl. rewrite !app_nil_r. apply Hr.
    + splits; try discriminate; try reflexivity.
      * simpl. unfold no_calls in *. rewrite forallb_app, Hc. reflexivity.
      * simpl. rewrite no_stdout_app, Hs. reflexivity.
      * intros X. simpl. rewrite replay_app, Hr. reflexivity.
Qed.

Lemma active_resolution_from_spec p o n : forall i,
  0 <= i ->
  i + Z.of_nat n <= Z.of_nat (List.length (profile_resolutions (profile_of p))) ->
  twp (active_resolution_from (Some p) i n) o
    (fun t r o' =>
       o' = o /\ no_calls t = true /\ no_stdout t = true
       /\ (forall X, replay X t = Some (X ⊎ one resolution_handle r))
       /\ forall res, r = Some res -> resolution_profile res = p).
Proof.
  unfold twp. induction n as [|n IH]; intros i Hi Hn.
  - simpl. apply wpx_ret. splits; try reflexivity.
    + intros X. simpl. f_equal. multiset_solver.
    + discriminate.
  - cbn [active_resolution_from].
    destruct (at_index_in_range (profile_resolutions (profile_of p)) i)
      as (st & E & Hin); [lia|].
    wsteps.
    + splits; try reflexivity.
      intros p' [= <-]. reflexivity.
    + eapply wpx_mono.
      * apply (IH (i + 1)); lia.
      * cbv beta. intros t a o' (-> & Hc & Hs & Hr & Hp).
        splits; try assumption; try reflexivity.
        intros X. simpl app. rewrite replay_acquire_release. apply Hr.
Qed.

Lemma get_active_resolution_spec p o :
  twp (ratbag_cmd_get_active_resolution (Some p)) o
    (fun t r o' =>
       o' = o /\ no_calls t = true /\ no_stdout t = true
       /\ (forall X, replay X t = Some (X ⊎ one resolution_handle r))
       /\ forall res, r = Some res -> resolution_profile res = p).
Proof.
  unfold twp, ratbag_cmd_get_active_resolution.
  wsteps.
  eapply wpx_mono.
  - apply (active_resolution_from_spec p); [lia | rewrite Nat2Z.id; lia].
  - cbv beta. intros t a o' (-> & Hc & Hs & Hr & Hp).
    wsteps; subst.
    + splits; try assumption; try reflexivity.
      * simpl. rewrite !app_nil_r. exact Hc.
      * simpl. rewrite !app_nil_r. exact Hs.
      * intros X. simpl. rewrite !app_nil_r. apply Hr.
    + splits; try discriminate; try reflexivity.
      * simpl. unfold no_calls in *. rewrite forallb_app, Hc. reflexivity.
      * simpl. rewrite no_stdout_app, Hs. reflexivity.
      * intros X. simpl. rewrite replay_app, Hr. reflexivity.
Qed.

(** ** [fill_options] *)

(** Closing the routine parts of a postcondition. *)
Ltac fin :=
  cbn [fst snd one store_device store_profile store_resolution] in *;
  rewrite ?app_nil_r in *;
  splits;
  try solve [ assumption | reflexivity | discriminate
            | left; reflexivity | right; reflexivity
            | intros; discriminate
            | intros; splits; solve [reflexivity | assumption | congruence] ].

Ltac wcall lemma :=
  eapply wpx_mono;
  [first [apply lemma | apply twp_wpx; apply lemma] | cbv beta; intros ? ? ?].

Lemma no_calls_app t1 t2 : no_calls (t1 ++ t2) = no_calls t1 && no_calls t2.
Proof. apply forallb_app. Qed.

Lemma fill_resolution_spec flags argc plocal rlocal o :
  (has_flag flags FLAG_NEED_RESOLUTION = true -> rlocal = None -> plocal <> None) ->
  twp (fill_resolution flags argc plocal rlocal) o
    (fun t r o' =>
       exists nr,
         o' = store_resolution nr o
         /\ (forall X, replay X t = Some (X ⊎ one resolution_handle nr))
         /\ no_calls t = true
         /\ snd r = argc
         /\ (fst r = SUCCESS \/ fst r = ERR_DEVICE)
         /\ (forall res, nr = Some res ->
               rlocal = None /\ has_flag flags FLAG_NEED_RESOLUTION = true
               /\ plocal = Some (resolution_profile res))
         /\ (fst r = SUCCESS -> has_flag flags FLAG_NEED_RESOLUTION = true ->
               rlocal <> None \/ nr <> None)).
Proof.
  intros Hpre. unfold twp, fill_resolution.
  destruct (has_flag flags FLAG_NEED_RESOLUTION) eqn:Hf;
    destruct rlocal as [r0|]; cbn [is_null andb].
  2: { destruct plocal as [p|]; [|exfalso; apply Hpre; reflexivity].
       wstep. wcall (get_active_resolution_spec p).
       intros (-> & Hc & Hs & Hr & Hp).
       wsteps.
       - exists (Some r). fin.
         + intros res [= <-]. splits; auto. f_equal. symmetry. apply Hp. reflexivity.
         + intros _ _. right. discriminate.
       - exists None. fin. }
  all: wsteps; exists None; fin.
  all: try (intros X; simpl; f_equal; multiset_solver).
Qed.

Lemma replay_quiet t : quiet t = true -> forall X, replay X t = Some X.
Proof.
  induction t as [|e t IH]; intros H X; [reflexivity|].
  simpl in H. apply andb_prop in H as [He Ht].
  destruct e; try discriminate; simpl; auto.
Qed.

Lemma usage_quiet W : quiet (usage W) = true.
Proof. reflexivity. Qed.

Lemma replay_usage W X : replay X (usage W) = Some X.
Proof. apply replay_quiet, usage_quiet. Qed.

Lemma no_calls_usage W : no_calls (usage W) = true.
Proof. reflexivity. Qed.

(** Replaying a trace made of parts whose effect is known. *)
Ltac rp :=
  let X := fresh "X" in
  intros X; cbn [app]; rewrite ?app_nil_r, ?replay_app;
  repeat (cbn [replay one];
          match goal with
          | H : forall X, replay X ?t = _ |- context [replay _ ?t] => rewrite H
          | |- context [replay _ (usage _)] => rewrite replay_usage
          end);
  cbn [replay one]; f_equal;
  clear; multiset_solver.

Lemma fill_profile_spec flags argc dlocal plocal rlocal o :
  (has_flag flags (Z.lor FLAG_NEED_PROFILE FLAG_NEED_RESOLUTION) = true ->
   plocal = None -> dlocal <> None) ->
  twp (fill_profile flags argc dlocal plocal rlocal) o
    (fun t r o' =>
       exists np nr,
         o' = store_resolution nr (store_profile np o)
         /\ (forall X, replay X t =
               Some (X ⊎ one profile_handle np ⊎ one resolution_handle nr))
         /\ no_calls t = true
         /\ snd r = argc
         /\ (fst r = SUCCESS \/ fst r = ERR_DEVICE)
         /\ (forall p, np = Some p ->
               plocal = None
               /\ has_flag flags (Z.lor FLAG_NEED_PROFILE FLAG_NEED_RESOLUTION) = true
               /\ dlocal = Some (profile_device p))
         /\ (forall res, nr = Some res ->
               rlocal = None /\ has_flag flags FLAG_NEED_RESOLUTION = true
               /\ match np with Some _ => np | None => plocal end
                  = Some (resolution_profile res))
         /\ (np = None ->
             has_flag flags (Z.lor FLAG_NEED_PROFILE FLAG_NEED_RESOLUTION) = true ->
             plocal = None -> nr = None /\ fst r = ERR_DEVICE)
         /\ (fst r = SUCCESS ->
               (has_flag flags (Z.lor FLAG_NEED_PROFILE FLAG_NEED_RESOLUTION) = true ->
                  plocal <> None \/ np <> None)
               /\ (has_flag flags FLAG_NEED_RESOLUTION = true ->
                     rlocal <> None \/ nr <> None))).
Proof.
  intros Hpre. unfold twp, fill_profile.
  destruct (has_flag flags (Z.lor FLAG_NEED_PROFILE FLAG_NEED_RESOLUTION)) eqn:Hf;
    destruct plocal as [p0|]; cbn [is_null andb].
  2: { destruct dlocal as [d|]; [|exfalso; apply Hpre; reflexivity].
       wstep. wcall (get_active_profile_spec d).
       intros (-> & Hc & Hs & Hr & Hp).
       wsteps.
       - wcall (fill_resolution_spec flags argc (Some r) rlocal).
         { discriminate. }
         intros (nr & -> & Hr' & Hc' & Hargc & Hrc & Hnr & Hok).
         exists (Some r), nr. fin. 
         + rp.
         + rewrite !no_calls_app, Hc, Hc'. reflexivity.
         + intros p [= <-]. splits; auto. f_equal. symmetry. apply Hp. reflexivity.
         + intros Hs0. split; [intros _; right; discriminate | apply Hok; exact Hs0].
       - exists None, None. fin. rp. }
  - wcall (fill_resolution_spec flags argc (Some p0) rlocal); [discriminate|].
    intros (nr & -> & Hr' & Hc' & Hargc & Hrc & Hnr & Hok).
    exists None, nr. fin; try rp.
    all: intros Hs0; split; [intros _; left; discriminate | apply Hok; exact Hs0].
  - wcall (fill_resolution_spec flags argc (Some p0) rlocal); [discriminate|].
    intros (nr & -> & Hr' & Hc' & Hargc & Hrc & Hnr & Hok).
    exists None, nr. fin; try rp.
    all: intros Hs0; split; [discriminate | apply Hok; exact Hs0].
  - assert (Hres : has_flag flags FLAG_NEED_RESOLUTION = false).
    { rewrite has_flag_lor in Hf. apply Bool.orb_false_iff in Hf. tauto. }
    wcall (fill_resolution_spec flags argc (@None ratbag_profile) rlocal);
      [rewrite Hres; discriminate|].
    intros (nr & -> & Hr' & Hc' & Hargc & Hrc & Hnr & Hok).
    exists None, nr. fin; try rp.
    all: try (intros Hs0; split; [discriminate | apply Hok; exact Hs0]).
Qed.

Lemma has_flag_profile_any flags :
  has_flag flags (Z.lor FLAG_NEED_PROFILE FLAG_NEED_RESOLUTION) = true ->
  has_flag flags need_any = true.
Proof.
  rewrite has_flag_need_any, has_flag_lor.
  destruct (has_flag flags FLAG_NEED_DEVICE), (has_flag flags FLAG_NEED_PROFILE),
    (has_flag flags FLAG_NEED_RESOLUTION); simpl; congruence.
Qed.

(** What [fill_options] does, in one statement: it returns (given that the
    token it would open exists), it stores what it newly resolved - a
    device [nd], a profile [np], a resolution [nr], each only into a field
    that was NULL - and keeps no other reference. *)
Lemma fill_options_spec (U : Prop) W flags argc argv o :
  U \/ (has_flag flags need_any = true -> device o = None -> argc <> 0 ->
        arg_at argv (argc - 1) <> None) ->
  wpx U (fill_options W flags argc argv) o
    (fun t r o' =>
       exists nd np nr,
         o' = store_resolution nr (store_profile np (store_device nd o))
         /\ (forall X, replay X t =
               Some (X ⊎ one device_handle nd ⊎ one profile_handle np
                       ⊎ one resolution_handle nr))
         /\ no_calls t = true
         /\ (fst r = SUCCESS \/ fst r = ERR_DEVICE)
         /\ (forall d, nd = Some d ->
               device o = None /\ has_flag flags need_any = true
               /\ snd r = argc - 1
               /\ arg_at argv (argc - 1) = Some (device_path d)
               /\ open_device W (device_path d) = Some (device_of d))
         /\ (nd = None -> snd r = argc)
         /\ (forall p, np = Some p ->
               profile o = None
               /\ has_flag flags (Z.lor FLAG_NEED_PROFILE FLAG_NEED_RESOLUTION) = true
               /\ match nd with Some _ => nd | None => device o end
                  = Some (profile_device p))
         /\ (forall res, nr = Some res ->
               resolution o = None /\ has_flag flags FLAG_NEED_RESOLUTION = true
               /\ match np with Some _ => np | None => profile o end
                  = Some (resolution_profile res))
         /\ (nd = None -> has_flag flags need_any = true -> device o = None ->
             np = None /\ nr = None /\ fst r = ERR_DEVICE
             /\ (argc = 0 \/ exists path, arg_at argv (argc - 1) = Some path
                                         /\ open_device W path = None))
         /\ (np = None ->
             has_flag flags (Z.lor FLAG_NEED_PROFILE FLAG_NEED_RESOLUTION) = true ->
             profile o = None -> nr = None /\ fst r = ERR_DEVICE)
         /\ (fst r = SUCCESS ->
               (has_flag flags need_any = true -> device o <> None \/ nd <> None)
               /\ (has_flag flags (Z.lor FLAG_NEED_PROFILE FLAG_NEED_RESOLUTION) = true ->
                     profile o <> None \/ np <> None)
               /\ (has_flag flags FLAG_NEED_RESOLUTION = true ->
                     resolution o <> None \/ nr <> None))).
Proof.
  intros Hargs. unfold fill_options.
  wstep. wstep. cbv beta match zeta.
  destruct (has_flag flags need_any) eqn:Hany;
    destruct (device o) as [d0|] eqn:Hdev; cbn [is_null andb].
  2: { unfold ratbag_cmd_device_from_arg.
       destruct (Z.eqb_spec argc 0) as [Hz|Hz].
       - wsteps. exists None, None, None. fin; try rp.
         intros _ _ _. splits; auto.
       - destruct (arg_at argv (argc - 1)) as [path|] eqn:Hpath.
         2: { destruct Hargs as [HU | Hargs]; [|exfalso; apply Hargs; auto].
              unfold wpx. simpl. exact HU. }
         wsteps.
         + wcall (fill_profile_spec flags (argc - 1)
                    (Some {| device_path := path; device_of := d |})
                    (profile o) (resolution o)); [discriminate|].
           intros (np & nr & -> & Hr & Hc & Hargc & Hrc & Hnp & Hnr & Hfail & Hok).
           exists (Some {| device_path := path; device_of := d |}), np, nr.
           fin; try rp.
           * intros d' [= <-]. cbn. splits; auto.
           * intros Hs0. destruct (Hok Hs0) as [Hok1 Hok2].
             splits; auto; try (intros _; right; discriminate).
         + exists None, None, None. fin; try rp.
           intros _ _ _. splits; auto. right. exists path. auto. }
  all: wcall (fill_profile_spec flags argc (Some d0) (profile o) (resolution o))
    || wcall (fill_profile_spec flags argc (@None ratbag_device) (profile o) (resolution o)).
  all: try discriminate.
  3: { intros Hp _. apply has_flag_profile_any in Hp. congruence. }
  all: intros (np & nr & -> & Hr & Hc & Hargc & Hrc & Hnp & Hnr & Hfail & Hok);
    exists None, np, nr; fin; try rp.
  all: try (intros _; assumption).
  all: try (intros Hs0; destruct (Hok Hs0) as [Hok1 Hok2]; splits; auto;
            try (intros _; left; discriminate); discriminate).
Qed.

(** ** The dispatcher's loop *)

Lemma bind_deref_some {A B} (a : A) (k : A -> M B) o :
  bind (deref (Some a)) k o = k a o.
Proof. unfold bind, deref, ret. destruct (k a o) as [t r]. reflexivity. Qed.

(** Looking at entry 0 twice changes nothing: [run_subcommand] enters the
    first entry whose name equals the command. *)
Lemma run_subcommand_on_find W call c subs argc argv o :
  run_subcommand_on W call (Some c) subs argc argv o =
    match List.find (fun sub => streq c (name sub)) subs with
    | Some sub => enter_subcommand W call sub argc argv o
    | None => invalid_subcommand (Some c) o
    end.
Proof.
  unfold run_subcommand_on. destruct subs as [|first rest]; [reflexivity|].
  rewrite bind_deref_some. cbn [List.find].
  destruct (streq c (name first)) eqn:E; [reflexivity|].
  cbv beta iota.
  induction rest as [|sub rest IH]; [reflexivity|].
  cbn [List.find]. destruct (streq c (name sub)); [reflexivity | exact IH].
Qed.

Lemma run_subcommand_find W c cmd0 argc argv o :
  run_subcommand W (Some c) cmd0 argc argv o =
    match List.find (fun sub => streq c (name sub)) (subcommands cmd0) with
    | Some sub => enter_subcommand W (call W) sub argc argv o
    | None => invalid_subcommand (Some c) o
    end.
Proof. apply run_subcommand_on_find. Qed.

(** ** A missing device path *)

Lemma fill_options_missing_device W flags argv o :
  has_flag flags need_any = true -> device o = None ->
  fill_options W flags 0 argv o
    = (Stderr "Missing device path.\n" [] :: usage W, Ok ((ERR_DEVICE, 0), o)).
Proof.
  intros Hany Hdev.
  cut (twp (fill_options W flags 0 argv) o
         (fun t r o' => t = Stderr "Missing device path.\n" [] :: usage W
                        /\ r = (ERR_DEVICE, 0) /\ o' = o)).
  { intros H. apply twp_run in H as (t & r & o' & E & -> & -> & ->). exact E. }
  unfold twp, fill_options. wstep. wstep. cbv beta match zeta.
  rewrite Hany, Hdev. cbn [is_null andb]. unfold ratbag_cmd_device_from_arg.
  change (0 =? 0) with true.
  wsteps. splits; try reflexivity.
  all: cbn [app]; rewrite !app_nil_r; reflexivity.
Qed.

Lemma fill_options_open_fails W flags argc argv path o :
  has_flag flags need_any = true -> device o = None ->
  argc <> 0 -> arg_at argv (argc - 1) = Some path -> open_device W path = None ->
  fill_options W flags argc argv o
    = ([Stderr "Device '%s' is not supported\n" [ArgStr path]],
       Ok ((ERR_DEVICE, argc), o)).
Proof.
  intros Hany Hdev Hargc Hpath Hopen.
  cut (twp (fill_options W flags argc argv) o
         (fun t r o' => t = [Stderr "Device '%s' is not supported\n" [ArgStr path]]
                        /\ r = (ERR_DEVICE, argc) /\ o' = o)).
  { intros H. apply twp_run in H as (t & r & o' & E & -> & -> & ->). exact E. }
  unfold twp, fill_options. wstep. wstep. cbv beta match zeta.
  rewrite Hany, Hdev. cbn [is_null andb]. unfold ratbag_cmd_device_from_arg.
  rewrite Hpath.
  destruct (Z.eqb_spec argc 0) as [|_]; [contradiction|].
  wsteps. splits; reflexivity.
Qed.

Lemma arg_at_last (argv : list string) :
  argv <> [] ->
  arg_at argv (Z.of_nat (List.length argv) - 1) = List.last (map Some argv) None.
Proof.
  intros Hne. unfold arg_at.
  destruct argv as [|a argv]; [contradiction|]. clear Hne.
  destruct (Z.ltb_spec (Z.of_nat (List.length (a :: argv)) - 1) 0) as [H|_].
  { simpl List.length in H. lia. }
  replace (Z.to_nat (Z.of_nat (List.length (a :: argv)) - 1))
    with (List.length argv) by (simpl List.length; lia).
  revert a. induction argv as [|b argv IH]; intros a; [reflexivity|].
  change ((a :: b :: argv) !! List.length (b :: argv))
    with ((b :: argv) !! List.length argv).
  rewrite IH. reflexivity.
Qed.

Lemma last_map_some (l : list string) d :
  l <> [] -> List.last (map Some l) None = Some (List.last l d).
Proof.
  induction l as [|a l IH]; [contradiction|]. intros _.
  destruct l as [|b l]; [reflexivity|].
  change (List.last (map Some (a :: b :: l)) None)
    with (List.last (map Some (b :: l)) None).
  change (List.last (a :: b :: l) d) with (List.last (b :: l) d).
  apply IH. discriminate.
Qed.

(** C7: a command that requires a device and finds no token left for the
    device path fails with [ERR_DEVICE].  In [fill_options] itself, with
    [*argc == 0]; in [run_subcommand] when the matched entry requires a
    device; and for the whole program: [main] hands the last token to
    [ratbag_cmd_open_device], and when that token is no device path (in
    particular when the command stands alone), the exit code is 3. *)
Theorem missing_device_path_is_device_error W :
  (forall flags argv o,
     has_flag flags need_any = true -> device o = None ->
     fill_options W flags 0 argv o
       = (Stderr "Missing device path.\n" [] :: usage W, Ok ((ERR_DEVICE, 0), o)))
  /\ (forall c cmd0 sub argv o,
        List.find (fun s => streq c (name s)) (subcommands cmd0) = Some sub ->
        has_flag (flags sub) need_any = true -> device o = None ->
        run_subcommand W (Some c) cmd0 0 argv o
          = (Stderr "Missing device path.\n" [] :: usage W, Ok (ERR_DEVICE, o)))
  /\ (forall c rest sub path,
        List.find (fun s => streq c (name s)) (subcommands ratbag_commands) = Some sub ->
        has_flag (flags sub) need_any = true ->
        create_context W = true ->
        List.last (c :: rest) c = path -> open_device W path = None ->
        exit_code (main W [] (c :: rest)) = Some ERR_DEVICE).
Proof.
  split; [|split].
  - intros. apply fill_options_missing_device; assumption.
  - intros c cmd0 sub argv o Hfind Hany Hdev.
    rewrite run_subcommand_find, Hfind. unfold enter_subcommand, bind.
    rewrite fill_options_missing_device by assumption.
    change (negb (ERR_DEVICE =? SUCCESS)) with true.
    unfold ret. cbv beta iota zeta. rewrite app_nil_r. reflexivity.
  - intros c rest sub path Hfind Hany Hctx Hlast Hopen.
    set (o1 := with_button (-1) (with_flags 0 options_zero)).
    assert (Hrun : run_subcommand W (arg_at (c :: rest) 0) ratbag_commands
                     (Z.of_nat (List.length (c :: rest))) (c :: rest) o1
                   = ([Stderr "Device '%s' is not supported\n" [ArgStr path]],
                      Ok (ERR_DEVICE, o1))).
    { change (arg_at (c :: rest) 0) with (Some c).
      rewrite run_subcommand_find, Hfind. unfold enter_subcommand, bind.
      rewrite (fill_options_open_fails W _ _ _ path); try assumption; try reflexivity.
      - simpl List.length. lia.
      - rewrite arg_at_last by discriminate. rewrite <- Hlast.
        apply last_map_some. discriminate. }
    cut (twp (main_body W [] (c :: rest)) options_zero
           (fun _ rc _ => rc = ERR_DEVICE)).
    { intros H. apply twp_run in H as (t & rc & o' & E & ->).
      unfold exit_code, main. rewrite E. reflexivity. }
    unfold twp, main_body. rewrite Hctx. cbn [negb parse_options].
    wsteps.
    eapply wpx_run; [exact Hrun|].
    wsteps; reflexivity.
Qed.

(** ** Which token is the device path *)

Lemma visible_last argc argv :
  0 < argc <= Z.of_nat (List.length argv) ->
  arg_at argv (argc - 1) = List.last (map Some (visible argc argv)) None.
Proof.
  intros H. unfold visible.
  assert (Hlen : List.length (take (Z.to_nat argc) argv) = Z.to_nat argc)
    by (rewrite length_take; lia).
  assert (Hne : take (Z.to_nat argc) argv <> []).
  { intros E. rewrite E in Hlen. simpl in Hlen. lia. }
  rewrite <- (arg_at_last _ Hne), Hlen.
  unfold arg_at. rewrite Z2Nat.id by lia.
  destruct (Z.ltb_spec (argc - 1) 0); [lia|].
  symmetry. apply lookup_take_lt. lia.
Qed.

Lemma take_removelast {A} (l : list A) n :
  (S n <= List.length l)%nat -> take n l = removelast (take (S n) l).
Proof.
  revert n. induction l as [|a l IH]; intros n Hn; [simpl in Hn; lia|].
  destruct n as [|n]; [reflexivity|].
  change (take (S (S n)) (a :: l)) with (a :: take (S n) l).
  change (take (S n) (a :: l)) with (a :: take n l).
  destruct l as [|b l]; [simpl in Hn; lia|].
  change (take (S n) (b :: l)) with (b :: take n l).
  change (removelast (a :: b :: take n l)) with (a :: removelast (b :: take n l)).
  f_equal. apply (IH n). simpl in *. lia.
Qed.

Lemma visible_removelast argc argv :
  0 < argc <= Z.of_nat (List.length argv) ->
  visible (argc - 1) argv = removelast (visible argc argv).
Proof.
  intros H. unfold visible.
  replace (Z.to_nat argc) with (S (Z.to_nat (argc - 1))) by lia.
  apply take_removelast. lia.
Qed.

Lemma device_store o np nr :
  device (store_resolution nr (store_profile np o)) = device o.
Proof. destruct np, nr; reflexivity. Qed.

(** C4, as the code has it: [fill_options] returns, and when a device is
    required and none is cached it takes the LAST visible token as the
    device path.  If that token opens as a device, exactly that one token is
    consumed - [*argc] drops by one, the visible tokens lose their last
    entry, the tokens in front stay - and the device is stored; if no token
    is visible or the token does not open, nothing is consumed and the
    result is [ERR_DEVICE] with the context unchanged.  When the device is
    cached or not required, no token is consumed. *)
Theorem fill_options_takes_last_token W flags argc argv o :
  0 <= argc <= Z.of_nat (List.length argv) ->
  exists t rc argc' o',
    fill_options W flags argc argv o = (t, Ok ((rc, argc'), o'))
    /\ if has_flag flags need_any && is_null (device o)
       then match List.last (map Some (visible argc argv)) None with
            | Some path =>
                match open_device W path with
                | Some st =>
                    argc' = argc - 1
                    /\ visible argc' argv = removelast (visible argc argv)
                    /\ device o' = Some {| device_path := path; device_of := st |}
                | None => argc' = argc /\ rc = ERR_DEVICE /\ o' = o
                end
            | None => argc' = argc /\ rc = ERR_DEVICE /\ o' = o
            end
       else argc' = argc /\ device o' = device o.
Proof.
  intros Hrange.
  assert (Hargs : has_flag flags need_any = true -> device o = None -> argc <> 0 ->
                  arg_at argv (argc - 1) <> None).
  { intros _ _ Hnz. unfold arg_at.
    destruct (Z.ltb_spec (argc - 1) 0); [lia|].
    intros E. apply lookup_ge_None in E. lia. }
  destruct (twp_run _ _ _ (fill_options_spec False W flags argc argv o (or_intror Hargs)))
    as (t & [rc argc'] & o' & E & nd & np & nr & -> & _ & _ & Hrc & Hnd & Hnone
        & _ & _ & Hfail & _ & Hok).
  exists t, rc, argc', (store_resolution nr (store_profile np (store_device nd o))).
  split; [exact E|]. cbn [fst snd] in *.
  destruct (has_flag flags need_any) eqn:Hany;
    destruct (device o) as [d0|] eqn:Hdev; cbn [is_null andb].
  2: { destruct nd as [d|].
       - destruct (Hnd d eq_refl) as (_ & _ & -> & Hpath & Hopen).
         assert (Hpos : 0 < argc).
         { destruct (Z.eq_dec argc 0) as [->|]; [|lia].
           unfold arg_at in Hpath. simpl in Hpath. discriminate. }
         rewrite <- visible_last by lia. rewrite Hpath, Hopen.
         splits; [reflexivity | apply visible_removelast; lia |].
         rewrite device_store. destruct d. reflexivity.
       - destruct (Hfail eq_refl eq_refl eq_refl) as (-> & -> & -> & Hwhy).
         rewrite (Hnone eq_refl). cbn [store_device store_profile store_resolution].
         destruct Hwhy as [-> | (path & Hpath & Hopen)].
         + simpl. auto.
         + assert (Hpos : 0 < argc).
           { destruct (Z.eq_dec argc 0) as [->|]; [|lia].
             unfold arg_at in Hpath. simpl in Hpath. discriminate. }
           rewrite <- visible_last by lia. rewrite Hpath, Hopen. auto. }
  all: destruct nd as [d|];
    [destruct (Hnd d eq_refl) as (? & ? & _); congruence|].
  all: rewrite (Hnone eq_refl), device_store; cbn [store_device]; auto.
Qed.

(** The claim as first written - the token is taken from the FRONT - fails:
    on [info /dev/input/event5] the path opened is the last token, the
    token left visible is the front one, and when the lone token does not
    open as a device nothing is consumed at all. *)
Lemma fill_options_front_counterexample :
  let argv := ["info"; "/dev/input/event5"] in
  let r := fill_options sample_world FLAG_NEED_DEVICE 2 argv options_zero in
  (exists t o',
     r = (t, Ok ((SUCCESS, 1), o'))
     /\ device o' = Some sample_device_ptr
     /\ device_path sample_device_ptr = "/dev/input/event5"
     /\ visible 1 argv = ["info"]
     /\ visible 1 argv <> tail (visible 2 argv))
  /\ snd (fill_options sample_world FLAG_NEED_DEVICE 1 ["info"] options_zero)
       = Ok ((ERR_DEVICE, 1), options_zero).
Proof.
  split; [|reflexivity].
  eexists _, _. split; [vm_compute; reflexivity|].
  splits; try reflexivity. discriminate.
Qed.

(** ** Explicit indices *)

Lemma to_int_range z : - 2 ^ 31 <= to_int z < 2 ^ 31.
Proof.
  unfold to_int.
  pose proof (Z.mod_pos_bound (z + 2 ^ 31) (2 ^ 32) ltac:(lia)). lia.
Qed.

Lemma atoi_range s : - 2 ^ 31 <= atoi s < 2 ^ 31.
Proof. unfold atoi. apply to_int_range. Qed.

(** An [int] below zero or from the item count on yields NULL. *)
Lemma at_index_outside {A} (l : list A) i :
  Z.of_nat (List.length l) < 2 ^ 31 -> - 2 ^ 31 <= i ->
  i < 0 \/ Z.of_nat (List.length l) <= i < 2 ^ 32 ->
  at_index l i = None.
Proof.
  intros Hlen Hlo Hout. apply at_index_out_of_range. unfold to_uint.
  destruct Hout as [Hneg | Hge].
  - replace i with ((i + 2 ^ 32) + (-1) * 2 ^ 32) by lia.
    rewrite Z.mod_add by lia. rewrite Z.mod_small; lia.
  - rewrite Z.mod_small; lia.
Qed.

(** Undefined behaviour, as a statement: the run cannot return. *)
Lemma wp_false_undefined {A} (m : M A) o :
  wp m o (fun _ _ _ => False) -> snd (m o) = Undefined.
Proof.
  unfold wp, wpx. destruct (m o) as [t [[a o']|]]; [contradiction | reflexivity].
Qed.

(** [profile active set N] with [N] above the profile count is refused. *)
Lemma profile_active_set_above_count W index_arg rest o d :
  device o = Some d ->
  Z.of_nat (List.length (device_profiles (device_of d))) < atoi index_arg ->
  exists t, ratbag_cmd_profile_active_set W 1 (index_arg :: rest) o
              = (t, Ok (ERR_UNSUPPORTED, o))
            /\ no_calls t = true.
Proof.
  intros Hd Hidx.
  cut (twp (ratbag_cmd_profile_active_set W 1 (index_arg :: rest)) o
         (fun t rc o' => rc = ERR_UNSUPPORTED /\ o' = o /\ no_calls t = true)).
  { intros H. apply twp_run in H as (t & rc & o' & E & -> & -> & H). eauto. }
  unfold twp, ratbag_cmd_profile_active_set.
  change (arg_at (index_arg :: rest) 0) with (Some index_arg).
  wsteps; zbool; try lia; splits; reflexivity.
Qed.

(** C1, on the code: [profile active set N] with [N] equal to the number of
    profiles (or negative) passes the test [index > num_profiles], gets NULL
    from [ratbag_device_get_profile_by_index] and hands it to
    [ratbag_profile_is_active]; the handler does not return
    [ERR_UNSUPPORTED], it runs into undefined behaviour. *)
Theorem profile_active_set_count_not_refused W index_arg rest o d :
  device o = Some d ->
  device_capabilities (device_of d) RATBAG_DEVICE_CAP_SWITCHABLE_PROFILE = true ->
  Z.of_nat (List.length (device_profiles (device_of d))) < 2 ^ 31 ->
  atoi index_arg = Z.of_nat (List.length (device_profiles (device_of d)))
    \/ atoi index_arg < 0 ->
  snd (ratbag_cmd_profile_active_set W 1 (index_arg :: rest) o) = Undefined.
Proof.
  intros Hd Hcap Hlen Hidx. apply wp_false_undefined.
  pose proof (atoi_range index_arg) as Hr.
  assert (Hnull : at_index (device_profiles (device_of d)) (atoi index_arg) = None).
  { apply at_index_outside; lia. }
  unfold wp, ratbag_cmd_profile_active_set.
  change (arg_at (index_arg :: rest) 0) with (Some index_arg).
  wsteps; zbool; try lia; congruence.
Qed.

(** [profile N ...] and [resolution N ...] with an index that has no item:
    [ERR_UNSUPPORTED], before anything else is looked at. *)
Lemma profile_index_out_of_range W run argc tok rest o d :
  device o = Some d -> 1 <= argc -> strtod_full tok = true ->
  at_index (device_profiles (device_of d)) (strtod_int W tok) = None ->
  ratbag_cmd_profile W run argc (tok :: rest) o
    = ([Stderr "Unable to find profile %d\n" [ArgInt (strtod_int W tok)]],
       Ok (ERR_UNSUPPORTED, o)).
Proof.
  intros Hd Hargc Hfull Hnone.
  cut (twp (ratbag_cmd_profile W run argc (tok :: rest)) o
         (fun t rc o' =>
            t = [Stderr "Unable to find profile %d\n" [ArgInt (strtod_int W tok)]]
            /\ rc = ERR_UNSUPPORTED /\ o' = o)).
  { intros H. apply twp_run in H as (t & rc & o' & E & -> & -> & ->). exact E. }
  unfold twp, ratbag_cmd_profile.
  change (arg_at (tok :: rest) 0) with (Some tok).
  wsteps; zbool; try lia; try congruence. splits; reflexivity.
Qed.

Lemma resolution_index_out_of_range W run argc tok rest o p :
  profile o = Some p -> 1 <= argc -> strtod_full tok = true ->
  at_index (profile_resolutions (profile_of p)) (strtod_int W tok) = None ->
  ratbag_cmd_resolution W run argc (tok :: rest) o
    = ([Stderr "Unable to retrieve resolution %d\n" [ArgInt (strtod_int W tok)]],
       Ok (ERR_UNSUPPORTED, o)).
Proof.
  intros Hp Hargc Hfull Hnone.
  cut (twp (ratbag_cmd_resolution W run argc (tok :: rest)) o
         (fun t rc o' =>
            t = [Stderr "Unable to retrieve resolution %d\n" [ArgInt (strtod_int W tok)]]
            /\ rc = ERR_UNSUPPORTED /\ o' = o)).
  { intros H. apply twp_run in H as (t & rc & o' & E & -> & -> & ->). exact E. }
  unfold twp, ratbag_cmd_resolution.
  change (arg_at (tok :: rest) 0) with (Some tok).
  wsteps; zbool; try lia; try congruence. splits; reflexivity.
Qed.

(** The spec's scenario: [profile 5 active set] on a device with two
    profiles exits with 1; so does [profile active set 3]; [profile active
    set 2] and [profile active set -1] do not return at all. *)
Example explicit_index_scenarios :
  exit_code (main sample_world [] ["profile"; "5"; "active"; "set"; sample_path])
    = Some ERR_UNSUPPORTED
  /\ exit_code (main sample_world [] ["resolution"; "7"; "dpi"; "get"; sample_path])
    = Some ERR_UNSUPPORTED
  /\ exit_code (main sample_world [] ["profile"; "active"; "set"; "3"; sample_path])
    = Some ERR_UNSUPPORTED
  /\ exit_code (main sample_world [] ["profile"; "active"; "set"; "1"; sample_path])
    = Some SUCCESS
  /\ exit_code (main sample_world [] ["profile"; "active"; "set"; "2"; sample_path])
    = None
  /\ exit_code (main sample_world [] ["profile"; "active"; "set"; "-1"; sample_path])
    = None.
Proof. vm_compute. splits; reflexivity. Qed.

(** ** Numeric tokens *)

Lemma bind_options {B} (k : ratbag_cmd_options -> M B) o :
  bind options k o = k o o.
Proof. unfold bind, options. destruct (k o o) as [t r]. reflexivity. Qed.

Lemma bind_update {B} f (k : unit -> M B) o :
  bind (update f) k o = k tt (f o).
Proof. unfold bind, update. destruct (k tt (f o)) as [t r]. reflexivity. Qed.

(** C3, on the code.  The test on the token is [strtod]'s, not an integer
    parse: ["1.5"] is no integer literal, yet it passes, and
    [ratbag_cmd_profile] takes the explicit branch for every such token -
    it fetches the profile with index [(int) strtod (token)], never looks
    for the active profile, and dispatches on the NEXT token.
    [ratbag_cmd_button] reads its token from [argv[1]] and, when it is
    numeric, stores it as the button index and still passes the same token
    to [run_subcommand] as the subcommand name. *)
Theorem numeric_token_disambiguation W run argc tok first rest o :
  strtod_full tok = true ->
  (strtod_full "1.5" = true /\ is_integer_literal "1.5" = false)
  /\ (1 <= argc ->
      ratbag_cmd_profile W run argc (tok :: rest) o =
        (profile <- ratbag_device_get_profile_by_index (device o) (strtod_int W tok);;
         if is_null profile then
           error "Unable to find profile %d\n" [ArgInt (strtod_int W tok)];;
           ret ERR_UNSUPPORTED
         else
           update (with_profile profile);;
           run (arg_at rest 0) (argc - 1) rest)%C o)
  /\ (2 <= argc ->
      ratbag_cmd_button W run argc (first :: tok :: rest) o =
        run (Some tok) (argc - 1) (tok :: rest)
            (with_button (strtod_int W tok) o)).
Proof.
  intros Hfull. split; [split; reflexivity|]. split.
  - intros Hargc. unfold ratbag_cmd_profile.
    rewrite bind_options.
    destruct (Z.ltb_spec argc 1) as [|_]; [lia|].
    change (arg_at (tok :: rest) 0) with (Some tok).
    rewrite bind_deref_some, Hfull. reflexivity.
  - intros Hargc. unfold ratbag_cmd_button.
    destruct (Z.ltb_spec argc 2) as [|_]; [lia|].
    change (arg_at (first :: tok :: rest) 1) with (Some tok).
    rewrite bind_deref_some, Hfull, bind_update. reflexivity.
Qed.

(** The same from the command line: [profile 1.5 active get] selects
    profile 1 explicitly and succeeds, where a token that is no integer
    should have been looked up as a subcommand name and refused. *)
Example non_integer_token_end_to_end :
  let r := main sample_world [] ["profile"; "1.5"; "active"; "get"; sample_path] in
  exit_code r = Some SUCCESS
  /\ In (Acquire (HProfile sample_path 1)) (fst r)
  /\ exit_code (main sample_world [] ["profile"; "x1"; "active"; "get"; sample_path])
     = Some ERR_USAGE.
Proof. vm_compute. splits; try reflexivity. do 2 right. left. reflexivity. Qed.

(** ** Computations that keep no reference *)

Lemma neutral_nil : neutral [].
Proof. intros X. reflexivity. Qed.

Lemma neutral_app t1 t2 : neutral t1 -> neutral t2 -> neutral (t1 ++ t2).
Proof. intros H1 H2 X. rewrite replay_app, H1. apply H2. Qed.

Lemma neutral_quiet t : quiet t = true -> neutral t.
Proof. intros H X. apply replay_quiet. exact H. Qed.

Lemma neutral_bracket h t : neutral t -> neutral (Acquire h :: t ++ [Release h]).
Proof.
  intros H X. cbn [replay]. rewrite replay_app, H. cbn [replay].
  rewrite decide_True by multiset_solver. f_equal. multiset_solver.
Qed.

Lemma neutral_gains t o : neutral t -> gains t o o.
Proof.
  intros H. exists ∅. split.
  - intros X. rewrite H. f_equal. multiset_solver.
  - multiset_solver.
Qed.

(** Replaying a concrete trace, possibly with parts known to be neutral. *)
Ltac neutral_solve :=
  let X := fresh "X" in
  unfold neutral in *; intros X; cbn [app]; rewrite ?app_nil_r;
  repeat first
    [ rewrite replay_app
    | progress cbn [replay one]
    | match goal with
      | H : forall X, replay X ?t = _ |- context [replay _ ?t] => rewrite H
      | |- context [replay _ (usage _)] => rewrite replay_usage
      | |- context [decide (?h ∈ ?Y)] =>
          rewrite (decide_True (P := h ∈ Y)) by (clear; multiset_solver)
      end ];
  try (f_equal; clear; multiset_solver).

Lemma pure_ret {A} (a : A) : pure (ret a).
Proof. intros o. apply wpx_ret. split; [reflexivity | apply neutral_nil]. Qed.

Lemma pure_bind {A B} (m : M A) (k : A -> M B) :
  pure m -> (forall a, pure (k a)) -> pure (bind m k).
Proof.
  intros Hm Hk o. apply wpx_bind. eapply wpx_mono; [apply Hm|].
  cbv beta. intros t a o' [-> Ht]. eapply wpx_mono; [apply Hk|].
  cbv beta. intros t' b o'' [-> Ht']. split; [reflexivity | apply neutral_app; assumption].
Qed.

Lemma pure_undefined {A} : pure (@undefined A).
Proof. intros o. exact I. Qed.

Lemma pure_deref {A} (p : option A) : pure (deref p).
Proof. destruct p; [apply pure_ret | apply pure_undefined]. Qed.

Lemma pure_options : pure options.
Proof. intros o. apply wpx_options. split; [reflexivity | apply neutral_nil]. Qed.

Lemma pure_emit e : quiet [e] = true -> pure (emit e).
Proof.
  intros H o. apply wpx_emit. split; [reflexivity | apply neutral_quiet, H].
Qed.

Lemma pure_emit_all t : quiet t = true -> pure (emit_all t).
Proof.
  intros H o. apply wpx_emit_all. split; [reflexivity | apply neutral_quiet, H].
Qed.

Lemma pure_for_loop body n : forall i,
  (forall j, pure (body j)) -> pure (for_loop i n body).
Proof.
  induction n as [|n IH]; intros i Hbody; cbn [for_loop].
  - apply pure_ret.
  - apply pure_bind; [apply Hbody | intros _; apply IH, Hbody].
Qed.

(** A computation built from reads, prints and mutating calls, step by
    step; [if]s and [match]es by cases. *)
Ltac pure_step :=
  autounfold with tool;
  lazymatch goal with
  | |- pure (bind _ _) => apply pure_bind; [|intros ?]
  | |- pure (ret _) => apply pure_ret
  | |- pure undefined => apply pure_undefined
  | |- pure (deref _) => apply pure_deref
  | |- pure options => apply pure_options
  | |- pure (emit _) => apply pure_emit; reflexivity
  | |- pure (emit_all (usage _)) => apply pure_emit_all, usage_quiet
  | |- pure (for_loop _ _ _) => apply pure_for_loop; intros ?
  | |- pure (if ?b then _ else _) => destruct b
  | |- pure (match ?x with _ => _ end) => destruct x
  | |- pure (let '(_, _) := ?x in _) => destruct x
  end.

Ltac pure_steps := repeat pure_step.

(** A bracket: take a reference, do something that keeps none, drop it. *)
Ltac pure_run :=
  let o := fresh "o" in
  intros o; unfold wp; wsteps; try (split; [reflexivity | neutral_solve]).

Lemma set_macro_events_pure W button es : forall i,
  pure (set_macro_events W button i es).
Proof.
  induction es as [|[type data] es IH]; intros i; cbn [set_macro_events].
  - apply pure_ret.
  - destruct type; [apply pure_ret | |];
      (apply pure_bind; [pure_steps | intros _; apply IH]).
Qed.

Lemma parse_button_action_pure W action_str action_arg :
  pure (parse_button_action W action_str action_arg).
Proof. unfold parse_button_action. pure_steps. Qed.

Lemma apply_button_action_pure W button action :
  pure (apply_button_action W button action).
Proof.
  unfold apply_button_action. destruct action; pure_steps.
  apply set_macro_events_pure.
Qed.

Lemma ratbag_cmd_resolution_active_set_pure argc argv :
  pure (ratbag_cmd_resolution_active_set argc argv).
Proof. unfold ratbag_cmd_resolution_active_set. pure_steps. Qed.

Lemma ratbag_cmd_resolution_active_get_pure argc argv :
  pure (ratbag_cmd_resolution_active_get argc argv).
Proof. unfold ratbag_cmd_resolution_active_get. pure_steps. Qed.

Lemma ratbag_cmd_resolution_dpi_get_pure argc argv :
  pure (ratbag_cmd_resolution_dpi_get argc argv).
Proof. unfold ratbag_cmd_resolution_dpi_get. pure_steps. Qed.

Lemma ratbag_cmd_resolution_dpi_set_pure W argc argv :
  pure (ratbag_cmd_resolution_dpi_set W argc argv).
Proof. unfold ratbag_cmd_resolution_dpi_set. pure_steps. Qed.

#[global] Hint Resolve set_macro_events_pure parse_button_action_pure
  apply_button_action_pure : keeps_none.

Lemma ratbag_cmd_change_button_pure W argc argv :
  pure (ratbag_cmd_change_button W argc argv).
Proof. unfold ratbag_cmd_change_button. pure_run. Qed.

Lemma ratbag_cmd_profile_active_set_pure W argc argv :
  pure (ratbag_cmd_profile_active_set W argc argv).
Proof. unfold ratbag_cmd_profile_active_set. pure_run. Qed.

Lemma ratbag_cmd_switch_etekcity_pure W argc argv :
  pure (ratbag_cmd_switch_etekcity W argc argv).
Proof. unfold ratbag_cmd_switch_etekcity. pure_run. Qed.

Lemma active_index_from_refs d o n : forall i,
  wp (active_index_from d i n) o
    (fun t r o' =>
       o' = o /\ forall X, replay X t = Some (X ⊎ one profile_handle (fst (fst r)))).
Proof.
  unfold wp. induction n as [|n IH]; intros i; cbn [active_index_from].
  - apply wpx_ret. split; [reflexivity|]. neutral_solve.
  - wsteps.
    + split; [reflexivity|]. neutral_solve.
    + wcall (IH (i + 1)). intros [-> Hr].
      split; [reflexivity|]. neutral_solve.
Qed.

Lemma ratbag_cmd_profile_active_get_pure argc argv :
  pure (ratbag_cmd_profile_active_get argc argv).
Proof.
  unfold ratbag_cmd_profile_active_get. intros o. unfold wp.
  wsteps; try (split; [reflexivity | neutral_solve]).
  wcall (active_index_from_refs (Some r) o). intros [-> Hr].
  destruct a as [[found idx] rc]. cbn [fst] in Hr.
  wsteps; destruct found; split; try reflexivity; neutral_solve.
Qed.

Lemma list_devices_pure W entries : forall supported,
  pure (list_devices W entries supported).
Proof.
  induction entries as [|d_name entries IH]; intros supported; cbn [list_devices].
  - apply pure_ret.
  - pure_run.
Qed.

#[global] Hint Resolve list_devices_pure : keeps_none.

Lemma ratbag_cmd_list_supported_devices_pure W argc argv :
  pure (ratbag_cmd_list_supported_devices W argc argv).
Proof. unfold ratbag_cmd_list_supported_devices. pure_run. Qed.

Lemma info_resolution_pure profile j : pure (info_resolution profile j).
Proof. unfold info_resolution. pure_run. Qed.

Lemma info_button_pure profile b : pure (info_button profile b).
Proof. unfold info_button. pure_run. Qed.

#[global] Hint Resolve pure_for_loop info_resolution_pure info_button_pure
  : keeps_none.

Lemma info_profile_pure device num_buttons i :
  pure (info_profile device num_buttons i).
Proof. unfold info_profile. pure_run. Qed.

#[global] Hint Resolve info_profile_pure : keeps_none.

Lemma ratbag_cmd_info_pure argc argv : pure (ratbag_cmd_info argc argv).
Proof.
  unfold ratbag_cmd_info. pure_steps. auto with keeps_none.
Qed.

(** ** The dependency chain of the context *)

Lemma wpx_ext {A} U (m m' : M A) o Q : m o = m' o -> wpx U m' o Q -> wpx U m o Q.
Proof. unfold wpx. intros ->. auto. Qed.

Lemma call_unfold W c argc argv :
  call W c argc argv =
    match cmd c with
    | None => undefined
    | Some f =>
        call_handler W f
          (fun command argc argv =>
             run_subcommand_on W (call W) command (subcommands c) argc argv)
          argc argv
    end.
Proof. destruct c. reflexivity. Qed.

(** [fill_options] keeps the chain, and what it stores hangs together: a
    profile it stores is a profile of the device in the context, a
    resolution it stores is a resolution of the profile in the context. *)
Lemma fill_options_inv W flags argc argv o :
  ctx_inv o ->
  wp (fill_options W flags argc argv) o
    (fun _ _ o' =>
       ctx_inv o'
       /\ (forall p, profile o' = Some p -> profile o = None ->
             device o' = Some (profile_device p))
       /\ (forall r, resolution o' = Some r -> resolution o = None ->
             profile o' = Some (resolution_profile r))).
Proof.
  intros [Hrp Hpd].
  eapply wpx_mono; [apply (fill_options_spec True); left; exact I|].
  cbv beta. intros t r o' (nd & np & nr & -> & _ & _ & _ & _ & _ & Hnp & Hnr & _).
  destruct nd as [d|], np as [p|], nr as [res|];
    cbn [store_device store_profile store_resolution];
    repeat match goal with
    | H : forall x, Some ?y = Some x -> _ |- _ => specialize (H y eq_refl)
    | H : forall x, None = Some x -> _ |- _ => clear H
    | H : _ /\ _ |- _ => destruct H
    end;
    unfold ctx_inv; cbn; splits; intros; simplify_eq; auto; try congruence.
Qed.

Section Chain.

Context (W : collaborator).

(** What the nodes below preserve. *)
Let chain_post := fun (_ : list event) (_ : Z) (o' : ratbag_cmd_options) => ctx_inv o'.

Lemma leaf_chain (m : M Z) o : pure m -> ctx_inv o -> wp m o chain_post.
Proof.
  intros Hm Hinv. eapply wpx_mono; [apply Hm|].
  cbv beta. intros t a o' [-> _]. exact Hinv.
Qed.

Ltac chain_finish :=
  unfold ctx_inv in *; cbn in *; simplify_eq; intuition congruence.

Lemma get_active_profile_null o Q :
  wp (ratbag_cmd_get_active_profile None) o Q.
Proof. unfold wp, ratbag_cmd_get_active_profile. wsteps. Qed.

Lemma get_active_resolution_null o Q :
  wp (ratbag_cmd_get_active_resolution None) o Q.
Proof. unfold wp, ratbag_cmd_get_active_resolution. wsteps. Qed.

Lemma ratbag_cmd_profile_chain run argc argv o :
  (forall command argc argv o1, ctx_inv o1 -> wp (run command argc argv) o1 chain_post) ->
  ctx_inv o -> wp (ratbag_cmd_profile W run argc argv) o chain_post.
Proof.
  intros Hrun Hinv. unfold wp, ratbag_cmd_profile.
  wsteps.
  all: try (apply Hrun; chain_finish).
  all: try exact Hinv.
  destruct (device o) as [d|] eqn:Hd; [|apply get_active_profile_null].
  wcall (get_active_profile_spec d). intros (-> & _).
  wsteps; [|exact Hinv].
  apply Hrun. chain_finish.
Qed.

Lemma ratbag_cmd_resolution_chain run argc argv o :
  (forall command argc argv o1, ctx_inv o1 -> wp (run command argc argv) o1 chain_post) ->
  ctx_inv o -> wp (ratbag_cmd_resolution W run argc argv) o chain_post.
Proof.
  intros Hrun Hinv. unfold wp, ratbag_cmd_resolution.
  wsteps.
  all: try (apply Hrun; chain_finish).
  all: try exact Hinv.
  destruct (profile o) as [p|] eqn:Hp; [|apply get_active_resolution_null].
  wcall (get_active_resolution_spec p). intros (-> & _).
  wsteps; [|exact Hinv].
  apply Hrun. chain_finish.
Qed.

Lemma ratbag_cmd_button_chain run argc argv o :
  (forall command argc argv o1, ctx_inv o1 -> wp (run command argc argv) o1 chain_post) ->
  ctx_inv o -> wp (ratbag_cmd_button W run argc argv) o chain_post.
Proof.
  intros Hrun Hinv. unfold wp, ratbag_cmd_button.
  wsteps; try exact Hinv; apply Hrun; exact Hinv.
Qed.

(** Every handler keeps the chain, whatever its node dispatches to, as long
    as that keeps the chain as well. *)
Lemma call_handler_chain f run argc argv o :
  (forall command argc argv o1, ctx_inv o1 -> wp (run command argc argv) o1 chain_post) ->
  ctx_inv o -> wp (call_handler W f run argc argv) o chain_post.
Proof.
  intros Hrun Hinv. destruct f; cbn [call_handler].
  - apply leaf_chain; [apply ratbag_cmd_info_pure | exact Hinv].
  - apply leaf_chain; [apply ratbag_cmd_switch_etekcity_pure | exact Hinv].
  - apply leaf_chain; [apply ratbag_cmd_change_button_pure | exact Hinv].
  - apply leaf_chain; [apply ratbag_cmd_list_supported_devices_pure | exact Hinv].
  - apply leaf_chain; [apply ratbag_cmd_resolution_active_set_pure | exact Hinv].
  - apply leaf_chain; [apply ratbag_cmd_resolution_active_get_pure | exact Hinv].
  - unfold wp, ratbag_cmd_resolution_active. wsteps; [exact Hinv | apply Hrun, Hinv].
  - apply leaf_chain; [apply ratbag_cmd_resolution_dpi_get_pure | exact Hinv].
  - apply leaf_chain; [apply ratbag_cmd_resolution_dpi_set_pure | exact Hinv].
  - unfold wp, ratbag_cmd_resolution_dpi. wsteps; [exact Hinv | apply Hrun, Hinv].
  - apply ratbag_cmd_resolution_chain; assumption.
  - apply ratbag_cmd_button_chain; assumption.
  - apply leaf_chain; [apply ratbag_cmd_profile_active_set_pure | exact Hinv].
  - apply leaf_chain; [apply ratbag_cmd_profile_active_get_pure | exact Hinv].
  - unfold wp, ratbag_cmd_profile_active. wsteps; [exact Hinv | apply Hrun, Hinv].
  - apply ratbag_cmd_profile_chain; assumption.
Qed.

Lemma enter_subcommand_chain call sub argc argv o :
  (forall argc argv o1, ctx_inv o1 -> wp (call sub argc argv) o1 chain_post) ->
  ctx_inv o -> wp (enter_subcommand W call sub argc argv) o chain_post.
Proof.
  intros Hcall Hinv. unfold wp, enter_subcommand.
  wstep. wcall (fill_options_inv W (flags sub) argc argv o Hinv).
  intros (Hinv' & _). destruct a as [rc argc'].
  wsteps; [exact Hinv' | apply Hcall, Hinv'].
Qed.

Lemma run_subcommand_on_chain call subs command argc argv o :
  Forall (fun sub => forall argc argv o1,
            ctx_inv o1 -> wp (call sub argc argv) o1 chain_post) subs ->
  ctx_inv o -> wp (run_subcommand_on W call command subs argc argv) o chain_post.
Proof.
  intros Hsubs Hinv. destruct command as [c|].
  - unfold wp, wpx. rewrite run_subcommand_on_find.
    destruct (List.find _ subs) as [sub|] eqn:Hfind.
    + apply List.find_some in Hfind as [Hin _].
      rewrite Forall_forall in Hsubs.
      apply (enter_subcommand_chain call sub argc argv o); [apply Hsubs, Hin | exact Hinv].
    + change (wpx True (invalid_subcommand (Some c)) o chain_post).
      unfold invalid_subcommand. wsteps. exact Hinv.
  - unfold wp, run_subcommand_on, invalid_subcommand.
    destruct subs; wsteps. exact Hinv.
Qed.

(** Every node of every command tree keeps the chain. *)
Lemma call_chain c : forall argc argv o,
  ctx_inv o -> wp (call W c argc argv) o chain_post.
Proof.
  induction c as [n f a h fl subs IH] using ratbag_cmd_tree_ind.
  intros argc argv o Hinv. rewrite call_unfold. cbn [cmd subcommands].
  destruct f as [f|]; [|exact I].
  apply call_handler_chain; [|exact Hinv].
  intros command argc' argv' o1 Hinv1.
  apply run_subcommand_on_chain; assumption.
Qed.

Lemma run_subcommand_chain command c argc argv o :
  ctx_inv o -> wp (run_subcommand W command c argc argv) o chain_post.
Proof.
  intros Hinv. unfold run_subcommand. apply run_subcommand_on_chain; [|exact Hinv].
  rewrite Forall_forall. intros sub _. apply call_chain.
Qed.

Lemma parse_options_fields opts : forall o,
  wp (parse_options W opts) o
    (fun t _ o' =>
       quiet t = true /\ device o' = device o /\ profile o' = profile o
       /\ resolution o' = resolution o).
Proof.
  unfold wp. induction opts as [|opt opts IH]; intros o; cbn [parse_options].
  - apply wpx_ret. splits; reflexivity.
  - destruct opt as [optarg| |].
    + wsteps.
      all: wcall IH; intros (Hq & Hd & Hp & Hr); splits;
        [cbn [app]; exact Hq | rewrite Hd | rewrite Hp | rewrite Hr]; reflexivity.
    + wsteps. splits; reflexivity.
    + apply wpx_ret. splits; reflexivity.
Qed.

Lemma main_chain opts tokens :
  wp (main_body W opts tokens) options_zero chain_post.
Proof.
  unfold wp, main_body.
  assert (H0 : forall o, device o = None -> profile o = None ->
                 resolution o = None -> ctx_inv o).
  { intros o Hd Hp Hr. split; congruence. }
  wsteps; try (apply H0; reflexivity).
  wcall (parse_options_fields opts). intros (_ & Hd & Hp & Hr).
  cbn in Hd, Hp, Hr.
  wsteps; try (apply H0; assumption).
  all: wcall (run_subcommand_chain (arg_at (s :: l) 0) ratbag_commands
                (Z.of_nat (List.length (s :: l))) (s :: l) o');
    [apply H0; assumption|].
  all: intros Hinv; wsteps; exact Hinv.
Qed.

End Chain.

(** C5: the chain [resolution != NULL => profile != NULL => device != NULL]
    is preserved by [fill_options] - which stores a profile only of the
    device in the context and a resolution only of the profile in the
    context -, by every handler of every node, by [run_subcommand] on any
    command tree, and so by the whole program, whose context starts empty. *)
Theorem dependency_chain_preserved W :
  (forall flags argc argv o,
     ctx_inv o ->
     wp (fill_options W flags argc argv) o
       (fun _ _ o' =>
          ctx_inv o'
          /\ (forall p, profile o' = Some p -> profile o = None ->
                device o' = Some (profile_device p))
          /\ (forall r, resolution o' = Some r -> resolution o = None ->
                profile o' = Some (resolution_profile r))))
  /\ (forall command c argc argv o,
        ctx_inv o ->
        wp (run_subcommand W command c argc argv) o (fun _ _ o' => ctx_inv o'))
  /\ (forall opts tokens t rc o',
        main W opts tokens = (t, Ok (rc, o')) -> ctx_inv o').
Proof.
  split; [|split].
  - intros. apply fill_options_inv. assumption.
  - intros. apply run_subcommand_chain. assumption.
  - intros opts tokens t rc o' E.
    exact (wp_run _ _ _ _ _ _ (main_chain W opts tokens) E).
Qed.

(** ** Reference accounting *)

Lemma gains_app t1 t2 o o1 o2 :
  gains t1 o o1 -> gains t2 o1 o2 -> gains (t1 ++ t2) o o2.
Proof.
  intros (G1 & H1 & E1) (G2 & H2 & E2). exists (G1 ⊎ G2). split.
  - intros X. rewrite replay_app, H1. cbn. rewrite H2. f_equal. multiset_solver.
  - rewrite E2, E1. multiset_solver.
Qed.

Lemma gains_quiet t1 t2 o o1 :
  quiet t1 = true -> gains t2 o o1 -> gains (t1 ++ t2) o o1.
Proof.
  intros Hq Hg. eapply gains_app; [|exact Hg]. apply neutral_gains, neutral_quiet, Hq.
Qed.

Lemma gains_profile t p o :
  (forall X, replay X t = Some (X ⊎ {[+ profile_handle p +]})) ->
  profile o = None -> gains t o (with_profile (Some p) o).
Proof.
  intros Ht Hp. exists {[+ profile_handle p +]}. split; [exact Ht|].
  unfold held. cbn [with_profile device profile resolution one]. rewrite Hp.
  cbn [one]. clear. multiset_solver.
Qed.

Lemma gains_resolution t r o :
  (forall X, replay X t = Some (X ⊎ {[+ resolution_handle r +]})) ->
  resolution o = None -> gains t o (with_resolution (Some r) o).
Proof.
  intros Ht Hr. exists {[+ resolution_handle r +]}. split; [exact Ht|].
  unfold held. cbn [with_resolution device profile resolution one]. rewrite Hr.
  cbn [one]. clear. multiset_solver.
Qed.

Lemma gains_button t b o o' : gains t o o' -> gains t (with_button b o) o'.
Proof. intros H. exact H. Qed.

(** What a replay does to the count of each handle. *)
Lemma replay_count t : forall X Y,
  replay X t = Some Y ->
  forall h, (multiplicity h X + acquired h t = multiplicity h Y + released h t)%nat.
Proof.
  induction t as [|e t IH]; intros X Y E h.
  - injection E as <-. cbn. lia.
  - destruct e as [h0|h0| | |]; cbn [replay acquired released] in E |- *;
      try (apply IH; exact E).
    + specialize (IH _ _ E h).
      rewrite multiplicity_disj_union in IH.
      destruct (decide (h0 = h)) as [->|Hne].
      * rewrite multiplicity_singleton_eq in IH. lia.
      * rewrite multiplicity_singleton_ne in IH by congruence. lia.
    + destruct (decide (h0 ∈ X)) as [Hin|]; [|discriminate].
      specialize (IH _ _ E h).
      rewrite multiplicity_difference in IH.
      pose proof (proj1 (elem_of_multiplicity h0 X) Hin) as Hpos.
      destruct (decide (h0 = h)) as [->|Hne].
      * rewrite multiplicity_singleton_eq in IH. lia.
      * rewrite multiplicity_singleton_ne in IH by congruence. lia.
Qed.

Lemma fill_options_gains W flags argc argv o :
  wp (fill_options W flags argc argv) o
    (fun t _ o' => gains t o o' /\ kept flags o o').
Proof.
  wcall (fill_options_spec True W flags argc argv o (or_introl I)).
  intros (nd & np & nr & -> & Hr & _ & _ & Hnd & _ & Hnp & Hnr & _).
  split.
  - exists (one device_handle nd ⊎ one profile_handle np ⊎ one resolution_handle nr).
    split; [intros X; rewrite Hr; f_equal; clear; multiset_solver|].
    destruct nd as [d|], np as [p|], nr as [res|];
      repeat match goal with
      | H : forall x, Some ?y = Some x -> _ |- _ => specialize (H y eq_refl)
      | H : forall x, None = Some x -> _ |- _ => clear H
      | H : _ /\ _ |- _ => destruct H
      end;
      unfold held;
      cbn [one store_device store_profile store_resolution with_device
           with_profile with_resolution device profile resolution];
      repeat match goal with H : _ o = None |- _ => rewrite H end;
      cbn [one]; clear; multiset_solver.
  - split; intros Hf.
    + destruct np as [p|]; [destruct (Hnp p eq_refl) as (_ & Hf' & _); congruence|].
      destruct nd, nr; reflexivity.
    + destruct nr as [res|]; [destruct (Hnr res eq_refl) as (_ & Hf' & _); congruence|].
      destruct nd, np; reflexivity.
Qed.

Section Accounting.

Context (W : collaborator).

Lemma pure_gains (m : M Z) o : pure m -> wp m o (fun t _ o' => gains t o o').
Proof.
  intros Hm. eapply wpx_mono; [apply Hm|].
  cbv beta. intros t a o' [-> Hn]. apply neutral_gains, Hn.
Qed.

Lemma leaf_pure f run argc argv :
  is_leaf f = true -> pure (call_handler W f run argc argv).
Proof.
  destruct f; try discriminate; intros _; cbn [call_handler].
  - apply ratbag_cmd_info_pure.
  - apply ratbag_cmd_switch_etekcity_pure.
  - apply ratbag_cmd_change_button_pure.
  - apply ratbag_cmd_list_supported_devices_pure.
  - apply ratbag_cmd_resolution_active_set_pure.
  - apply ratbag_cmd_resolution_active_get_pure.
  - apply ratbag_cmd_resolution_dpi_get_pure.
  - apply ratbag_cmd_resolution_dpi_set_pure.
  - apply ratbag_cmd_profile_active_set_pure.
  - apply ratbag_cmd_profile_active_get_pure.
Qed.

Lemma enter_subcommand_gains call sub argc argv o :
  (forall argc argv o1, kept (flags sub) o o1 ->
     wp (call sub argc argv) o1 (fun t _ o' => gains t o1 o')) ->
  wp (enter_subcommand W call sub argc argv) o (fun t _ o' => gains t o o').
Proof.
  intros Hcall. unfold wp, enter_subcommand. wstep.
  wcall (fill_options_gains W (flags sub) argc argv o).
  intros (Hg & Hk). destruct a as [rc argc'].
  wsteps.
  - rewrite app_nil_r. exact Hg.
  - wcall (Hcall (argc' - 1) (tail argv) o' Hk). intros Hg2.
    eapply gains_app; eassumption.
Qed.

Lemma run_subcommand_on_gains call subs command argc argv o :
  Forall (fun sub => forall argc argv o1, kept (flags sub) o o1 ->
            wp (call sub argc argv) o1 (fun t _ o' => gains t o1 o')) subs ->
  wp (run_subcommand_on W call command subs argc argv) o
    (fun t _ o' => gains t o o').
Proof.
  intros Hsubs. destruct command as [c|].
  - unfold wp, wpx. rewrite run_subcommand_on_find.
    destruct (List.find _ subs) as [sub|] eqn:Hfind.
    + apply List.find_some in Hfind as [Hin _].
      rewrite Forall_forall in Hsubs.
      apply (enter_subcommand_gains call sub argc argv o). apply Hsubs, Hin.
    + change (wpx True (invalid_subcommand (Some c)) o (fun t (_ : Z) o' => gains t o o')).
      unfold invalid_subcommand. wsteps. apply neutral_gains, neutral_quiet. reflexivity.
  - unfold wp, run_subcommand_on, invalid_subcommand.
    destruct subs; wsteps. apply neutral_gains, neutral_quiet. reflexivity.
Qed.

Lemma call_leaf c f argc argv o :
  cmd c = Some f -> is_leaf f = true ->
  wp (call W c argc argv) o (fun t _ o' => gains t o o').
Proof.
  intros Hc Hl. rewrite call_unfold, Hc. apply pure_gains, leaf_pure, Hl.
Qed.

Ltac leaves :=
  repeat constructor; intros; eapply call_leaf; reflexivity.

Ltac gains_nothing := apply neutral_gains, neutral_quiet; reflexivity.

Lemma cmd_resolution_active_gains argc argv o :
  wp (call W cmd_resolution_active argc argv) o (fun t _ o' => gains t o o').
Proof.
  rewrite call_unfold. cbn [cmd subcommands cmd_resolution_active call_handler].
  unfold wp, ratbag_cmd_resolution_active. wsteps; [gains_nothing|].
  apply run_subcommand_on_gains. leaves.
Qed.

Lemma cmd_resolution_dpi_gains argc argv o :
  wp (call W cmd_resolution_dpi argc argv) o (fun t _ o' => gains t o o').
Proof.
  rewrite call_unfold. cbn [cmd subcommands cmd_resolution_dpi call_handler].
  unfold wp, ratbag_cmd_resolution_dpi. wsteps; [gains_nothing|].
  apply run_subcommand_on_gains. leaves.
Qed.

Lemma cmd_profile_active_gains argc argv o :
  wp (call W cmd_profile_active argc argv) o (fun t _ o' => gains t o o').
Proof.
  rewrite call_unfold. cbn [cmd subcommands cmd_profile_active call_handler].
  unfold wp, ratbag_cmd_profile_active. wsteps; [gains_nothing|].
  apply run_subcommand_on_gains. leaves.
Qed.

Lemma cmd_button_gains argc argv o :
  wp (call W cmd_button argc argv) o (fun t _ o' => gains t o o').
Proof.
  rewrite call_unfold. cbn [cmd subcommands cmd_button call_handler].
  unfold wp, ratbag_cmd_button. wsteps; [gains_nothing| |].
  all: eapply wpx_mono; [apply run_subcommand_on_gains; constructor|].
  all: cbv beta; intros t _ o1 Hg; exact Hg.
Qed.

Lemma cmd_resolution_gains argc argv o :
  resolution o = None ->
  wp (call W cmd_resolution argc argv) o (fun t _ o' => gains t o o').
Proof.
  intros Hr.
  rewrite call_unfold. cbn [cmd subcommands cmd_resolution call_handler].
  unfold wp, ratbag_cmd_resolution. wsteps.
  - gains_nothing.
  - eapply wpx_mono;
      [apply run_subcommand_on_gains; repeat constructor; intros;
       [apply cmd_resolution_active_gains | apply cmd_resolution_dpi_gains]|].
    cbv beta. intros t _ o1 Hg. cbn [app].
    eapply (gains_app [_] t); [|exact Hg].
    apply gains_resolution; [reflexivity | exact Hr].
  - gains_nothing.
  - destruct (profile o) as [p|]; [|apply get_active_resolution_null].
    wcall (get_active_resolution_spec p). intros (-> & _ & _ & Hrep & _).
    wsteps.
    + eapply wpx_mono;
        [apply run_subcommand_on_gains; repeat constructor; intros;
         [apply cmd_resolution_active_gains | apply cmd_resolution_dpi_gains]|].
      cbv beta. intros t1 _ o1 Hg. cbn [app].
      eapply gains_app; [|exact Hg].
      apply gains_resolution; [exact Hrep | exact Hr].
    + apply neutral_gains. neutral_solve.
Qed.

Lemma cmd_profile_gains argc argv o :
  profile o = None -> resolution o = None ->
  wp (call W cmd_profile argc argv) o (fun t _ o' => gains t o o').
Proof.
  intros Hp Hr.
  rewrite call_unfold. cbn [cmd subcommands cmd_profile call_handler].
  assert (Hsubs : forall p,
            Forall (fun sub => forall argc argv o1,
                      kept (flags sub) (with_profile (Some p) o) o1 ->
                      wp (call W sub argc argv) o1 (fun t _ o' => gains t o1 o'))
              [cmd_profile_active; cmd_resolution; cmd_button]).
  { intros p. repeat constructor; intros argc' argv' o1 [_ Hkr].
    - apply cmd_profile_active_gains.
    - apply cmd_resolution_gains. rewrite (Hkr eq_refl). exact Hr.
    - apply cmd_button_gains. }
  unfold wp, ratbag_cmd_profile. wsteps.
  - gains_nothing.
  - eapply wpx_mono; [apply run_subcommand_on_gains, Hsubs|].
    cbv beta. intros t _ o1 Hg. cbn [app].
    eapply (gains_app [_] t); [|exact Hg].
    apply gains_profile; [reflexivity | exact Hp].
  - gains_nothing.
  - destruct (device o) as [d|]; [|apply get_active_profile_null].
    wcall (get_active_profile_spec d). intros (-> & _ & _ & Hrep & _).
    wsteps.
    + eapply wpx_mono; [apply run_subcommand_on_gains, Hsubs|].
      cbv beta. intros t1 _ o1 Hg. cbn [app].
      eapply gains_app; [|exact Hg].
      apply gains_profile; [exact Hrep | exact Hp].
    + apply neutral_gains. neutral_solve.
Qed.

(** From the top: nothing but a device may be in the context yet. *)
Lemma run_subcommand_gains command argc argv o :
  profile o = None -> resolution o = None ->
  wp (run_subcommand W command ratbag_commands argc argv) o
    (fun t _ o' => gains t o o').
Proof.
  intros Hp Hr. unfold run_subcommand.
  apply run_subcommand_on_gains.
  cbn [subcommands ratbag_commands top_level_commands].
  repeat constructor; intros argc' argv' o1 [Hkp Hkr].
  - eapply call_leaf; reflexivity.
  - eapply call_leaf; reflexivity.
  - eapply call_leaf; reflexivity.
  - eapply call_leaf; reflexivity.
  - apply cmd_button_gains.
  - apply cmd_resolution_gains. rewrite (Hkr eq_refl). exact Hr.
  - apply cmd_profile_gains; [rewrite (Hkp eq_refl); exact Hp | rewrite (Hkr eq_refl); exact Hr].
  - apply cmd_resolution_dpi_gains.
Qed.

Ltac replay_solve :=
  cbn [app]; rewrite ?app_nil_r;
  repeat first
    [ rewrite replay_app
    | progress cbn [replay app]
    | rewrite replay_usage
    | match goal with
      | H : quiet ?t = true |- context [replay _ ?t] => rewrite (replay_quiet t H)
      | H : forall X, replay X ?t = _ |- context [replay _ ?t] => rewrite H
      | |- context [decide (?h ∈ ?Y)] =>
          rewrite (decide_True (P := h ∈ Y)) by (clear; multiset_solver)
      end ];
  f_equal; clear; multiset_solver.

Lemma main_balanced opts tokens :
  wp (main_body W opts tokens) options_zero
    (fun t _ _ => replay ∅ t = Some ∅).
Proof.
  unfold wp, main_body. wsteps; try discriminate; [reflexivity|].
  wcall (parse_options_fields W opts). intros (Hq & Hd & Hp & Hr).
  cbn [device profile resolution with_button with_flags options_zero] in Hd, Hp, Hr.
  wsteps.
  1, 2: replay_solve.
  all: wcall (run_subcommand_gains (arg_at (s :: l) 0)
                (Z.of_nat (List.length (s :: l))) (s :: l) o' Hp Hr).
  all: intros (G & Hrep & Hheld); unfold held in Hheld;
    rewrite Hd, Hp, Hr in Hheld; cbn [one] in Hheld.
  all: wsteps.
  all: repeat match goal with
       | H : _ = Some _ |- _ => rewrite H in Hheld
       | H : _ = None |- _ => rewrite H in Hheld
       end; cbn [one] in Hheld.
  all: match type of Hheld with
       | ?L = _ ⊎ ?G' => assert (G' = L) as -> by (clear -Hheld; multiset_solver)
       end.
  all: replay_solve.
Qed.

End Accounting.

(** C6: whenever [main] returns - whatever the options, the tokens, the
    devices and the exit code -, its trace replays from no live reference
    to no live reference: no reference is dropped that is not alive (no
    double release) and none is left (no leak); so every handle - context,
    device, profile, resolution, button - is released exactly as often as
    it was acquired. *)
Theorem references_released_exactly_once W opts tokens t rc o :
  main W opts tokens = (t, Ok (rc, o)) ->
  replay ∅ t = Some ∅ /\ forall h, acquired h t = released h t.
Proof.
  intros E.
  assert (Hbal : replay ∅ t = Some ∅)
    by exact (wp_run _ _ _ _ _ _ (main_balanced W opts tokens) E).
  split; [exact Hbal|].
  intros h. pose proof (replay_count t ∅ ∅ Hbal h) as Hc.
  rewrite multiplicity_empty in Hc. lia.
Qed.

(** * The statements on the sample devices *)

Lemma profile_active_set_count_not_refused_witness :
  device sample_options = Some sample_device_ptr
  /\ atoi "2" = Z.of_nat (List.length (device_profiles (device_of sample_device_ptr)))
  /\ snd (ratbag_cmd_profile_active_set sample_world 1 ["2"] sample_options)
     = Undefined.
Proof.
  split; [reflexivity|]. split; [reflexivity|].
  apply (profile_active_set_count_not_refused
           sample_world "2" [] sample_options sample_device_ptr).
  - reflexivity.
  - reflexivity.
  - reflexivity.
  - left. reflexivity.
Defined.

Lemma change_button_unknown_macro_not_rejected_witness :
  first_char "x" <> "f"%char /\ first_char "x" <> "b"%char
  /\ macro_events (events (snd (str_to_macro (Some "x") macro_zero))) = []
  /\ exists t rc,
       ratbag_cmd_change_button sample_world 3 ["3"; "macro"; "x"] sample_options
         = (t, Ok (rc, sample_options))
       /\ rc <> ERR_USAGE.
Proof.
  assert (Hf : first_char "x" <> "f"%char) by (intros H; discriminate H).
  assert (Hb : first_char "x" <> "b"%char) by (intros H; discriminate H).
  split; [exact Hf|]. split; [exact Hb|].
  exact (change_button_unknown_macro_not_rejected
           sample_world "3" "x" [] sample_options sample_device_ptr
           sample_profile_ptr Hf Hb eq_refl eq_refl).
Defined.

Lemma numeric_token_disambiguation_witness :
  strtod_full "1.5" = true
  /\ is_integer_literal "1.5" = false
  /\ ratbag_cmd_profile sample_world accept_all 3 ["1.5"; "active"; "get"]
       (options_with sample_device)
     = ([Acquire (HProfile sample_path 1)],
        Ok (SUCCESS,
            with_profile
              (Some {| profile_device := sample_device_ptr; profile_index := 1;
                       profile_of := sample_profile false |})
              (options_with sample_device)))
  /\ ratbag_cmd_button sample_world accept_all 3 ["button"; "3"; "x"]
       (options_with sample_device)
     = accept_all (Some "3") 2 ["3"; "x"] (with_button 3 (options_with sample_device)).
Proof.
  destruct (numeric_token_disambiguation sample_world accept_all 3 "1.5" "button"
              ["active"; "get"] (options_with sample_device) eq_refl)
    as ((H1 & H2) & H3 & _).
  destruct (numeric_token_disambiguation sample_world accept_all 3 "3" "button"
              ["x"] (options_with sample_device) eq_refl)
    as (_ & _ & H4).
  split; [exact H1|]. split; [exact H2|]. split.
  - rewrite H3 by lia. reflexivity.
  - rewrite H4 by lia. reflexivity.
Defined.

Lemma fill_options_takes_last_token_witness :
  0 <= 2 <= Z.of_nat (List.length ["info"; sample_path])
  /\ exists t rc o',
       fill_options sample_world FLAG_NEED_DEVICE 2 ["info"; sample_path] options_zero
         = (t, Ok ((rc, 1), o'))
       /\ visible 1 ["info"; sample_path] = ["info"]
       /\ device o' = Some sample_device_ptr.
Proof.
  assert (Hargc : 0 <= 2 <= Z.of_nat (List.length ["info"; sample_path]))
    by (cbn; lia).
  split; [exact Hargc|].
  destruct (fill_options_takes_last_token sample_world FLAG_NEED_DEVICE 2
              ["info"; sample_path] options_zero Hargc)
    as (t & rc & argc' & o' & E & H).
  cbn in H. destruct H as (-> & Hv & Hd).
  exists t, rc, o'. split; [exact E|]. split; [reflexivity | exact Hd].
Defined.

Lemma dependency_chain_preserved_witness :
  ctx_inv sample_options
  /\ wp (run_subcommand sample_world (Some "resolution") ratbag_commands 3
           ["resolution"; "dpi"; "get"])
        sample_options (fun _ _ o' => ctx_inv o')
  /\ exists t o',
       main sample_world [] ["resolution"; "dpi"; "get"; sample_path]
         = (t, Ok (SUCCESS, o'))
       /\ resolution o' <> None /\ ctx_inv o'.
Proof.
  destruct (dependency_chain_preserved sample_world) as (_ & Hrun & Hmain).
  assert (Hinv : ctx_inv sample_options).
  { split; cbn; congruence. }
  split; [exact Hinv|]. split; [apply Hrun, Hinv|].
  eexists _, _. split; [vm_compute; reflexivity|].
  split; [cbn; congruence|].
  eapply (Hmain [] ["resolution"; "dpi"; "get"; sample_path]).
  vm_compute. reflexivity.
Defined.

Lemma references_released_exactly_once_witness :
  exists t o,
    main sample_world [] ["resolution"; "dpi"; "get"; sample_path]
      = (t, Ok (SUCCESS, o))
    /\ acquired (HDevice sample_path) t = 1%nat
    /\ replay ∅ t = Some ∅
    /\ forall h, acquired h t = released h t.
Proof.
  eexists _, _. split; [vm_compute; reflexivity|].
  split; [reflexivity|].
  eapply (references_released_exactly_once sample_world []
            ["resolution"; "dpi"; "get"; sample_path]).
  vm_compute. reflexivity.
Defined.

Lemma missing_device_path_is_device_error_witness :
  fill_options sample_world FLAG_NEED_DEVICE 0 [] options_zero
    = (Stderr "Missing device path.\n" [] :: usage sample_world,
       Ok ((ERR_DEVICE, 0), options_zero))
  /\ run_subcommand sample_world (Some "info") ratbag_commands 0 [] options_zero
     = (Stderr "Missing device path.\n" [] :: usage sample_world,
        Ok (ERR_DEVICE, options_zero))
  /\ open_device sample_world "info" = None
  /\ exit_code (main sample_world [] ["info"]) = Some ERR_DEVICE.
Proof.
  destruct (missing_device_path_is_device_error sample_world) as (H1 & H2 & H3).
  split; [apply H1; reflexivity|].
  split; [apply (H2 "info" ratbag_commands cmd_info); reflexivity|].
  split; [reflexivity|].
  apply (H3 "info" [] cmd_info "info"); reflexivity.
Defined.

Lemma change_button_null_key_usage_error_witness :
  libevdev_event_code_from_name sample_world "KEY_RESERVED" = 0
  /\ exists t,
       ratbag_cmd_change_button sample_world 3 ["3"; "key"; "KEY_RESERVED"]
         sample_options
       = (t, Ok (ERR_USAGE, sample_options))
       /\ no_calls t = true /\ no_acquire t = true.
Proof.
  split; [reflexivity|].
  apply (change_button_null_key_usage_error sample_world 3 "3" "KEY_RESERVED" []
           sample_options).
  reflexivity.
Defined.

Lemma profile_active_get_cases_witness :
  ratbag_cmd_profile_active_get 0 [] (options_with plain_device)
    = ([Stdout "%d\n" [ArgInt 0]], Ok (SUCCESS, options_with plain_device))
  /\ exists t,
       ratbag_cmd_profile_active_get 0 [] (options_with idle_device)
         = (t, Ok (ERR_DEVICE, options_with idle_device))
       /\ no_stdout t = true.
Proof.
  split.
  - apply (profile_active_get_cases 0 [] (options_with plain_device)
             {| device_path := sample_path; device_of := plain_device |} eq_refl).
    left. reflexivity.
  - apply (profile_active_get_cases 0 [] (options_with idle_device)
             {| device_path := sample_path; device_of := idle_device |} eq_refl).
    + reflexivity.
    + cbn. lia.
    + repeat constructor.
Defined.

(** * The rest of the tool *)

(** An equation [m o = run], by running [m] step by step. *)
Ltac by_twp :=
  lazymatch goal with
  | |- ?m ?o = ?rhs =>
      cut (twp m o (fun t a o' => (t, Ok (a, o')) = rhs));
      [ let H := fresh "H" in
        let E := fresh "E" in
        intros H; apply twp_run in H as (? & ? & ? & E & H); rewrite E; exact H
      | unfold twp ]
  end.

(** Closing an equation between a computed run and the stated one. *)
Ltac run_eq :=
  repeat match goal with
  | H : ?b = true |- context [if ?b then _ else _] => rewrite H
  | H : ?b = false |- context [if ?b then _ else _] => rewrite H
  | |- context [if ?x =? ?y then _ else _] =>
      destruct (Z.eqb_spec x y); try lia; try congruence
  end;
  cbn [app]; rewrite ?app_nil_r; try reflexivity.

(** ** The scans for the active item *)

Lemma at_index_nat {A} (l : list A) (i : nat) :
  Z.of_nat (List.length l) < 2 ^ 32 -> (i < List.length l)%nat ->
  at_index l (Z.of_nat i) = l !! i /\ Z.to_nat (to_uint (Z.of_nat i)) = i.
Proof.
  intros Hlen Hi. unfold at_index, to_uint. rewrite Z.mod_small by lia.
  rewrite Nat2Z.id.
  destruct (Z.ltb_spec (Z.of_nat i) (Z.of_nat (List.length l))); [auto | lia].
Qed.

Lemma drop_lookup_cons {A} (l : list A) (i : nat) x :
  l !! i = Some x -> drop i l = x :: drop (S i) l.
Proof. intros H. apply drop_S. exact H. Qed.

Lemma active_profile_from_find d o n : forall i : nat,
  Z.of_nat (List.length (device_profiles (device_of d))) < 2 ^ 31 ->
  (i + n)%nat = List.length (device_profiles (device_of d)) ->
  twp (active_profile_from (Some d) (Z.of_nat i) n) o
    (fun t r o' =>
       o' = o
       /\ match first_active_profile (drop i (device_profiles (device_of d))) with
          | Some (k, st) =>
              t = scanned (HProfile (device_path d)) i k
                    ++ [Acquire (HProfile (device_path d) (i + k))]
              /\ r = Some {| profile_device := d; profile_index := i + k;
                             profile_of := st |}
          | None => t = scanned (HProfile (device_path d)) i n /\ r = None
          end).
Proof.
  unfold twp. induction n as [|n IH]; intros i Hlen Hn.
  - cbn [active_profile_from]. apply wpx_ret. split; [reflexivity|].
    rewrite drop_ge by lia. cbn. auto.
  - cbn [active_profile_from].
    destruct (at_index_nat (device_profiles (device_of d)) i) as [Hat Hidx];
      [lia | lia |].
    destruct (device_profiles (device_of d) !! i) as [st|] eqn:Hst;
      [|apply lookup_ge_None in Hst; lia].
    rewrite (drop_lookup_cons _ _ _ Hst).
    unfold first_active_profile. cbn [list_find].
    wsteps.
    + cbn in Heqb. rewrite Hidx, decide_True by exact Heqb.
      split; [reflexivity|]. unfold scanned, profile_handle. cbn.
      rewrite Nat.add_0_r. auto.
    + cbn in Heqb. rewrite Hidx, decide_False by congruence.
      replace (Z.of_nat i + 1) with (Z.of_nat (S i)) by lia.
      wcall (IH (S i) Hlen ltac:(lia)). intros (-> & H). split; [reflexivity|].
      unfold first_active_profile in H.
      destruct (list_find _ (drop (S i) _)) as [[k st']|]; cbn [fmap option_fmap option_map prod_map fst snd id];
        destruct H as [-> ->]; unfold profile_handle; cbn [app profile_device device_path profile_index].
      * replace (i + S k)%nat with (S i + k)%nat by lia. split; reflexivity.
      * split; reflexivity.
Qed.

(** The same for the resolutions of a profile. *)
Lemma active_resolution_from_find p o n : forall i : nat,
  Z.of_nat (List.length (profile_resolutions (profile_of p))) < 2 ^ 31 ->
  (i + n)%nat = List.length (profile_resolutions (profile_of p)) ->
  let h := HResolution (device_path (profile_device p)) (profile_index p) in
  twp (active_resolution_from (Some p) (Z.of_nat i) n) o
    (fun t r o' =>
       o' = o
       /\ match first_active_resolution (drop i (profile_resolutions (profile_of p))) with
          | Some (k, st) =>
              t = scanned h i k ++ [Acquire (h (i + k)%nat)]
              /\ r = Some {| resolution_profile := p; resolution_index := i + k;
                             resolution_of := st |}
          | None => t = scanned h i n /\ r = None
          end).
Proof.
  intros i Hlen Hn h. revert i Hlen Hn.
  unfold twp. induction n as [|n IH]; intros i Hlen Hn.
  - cbn [active_resolution_from]. apply wpx_ret. split; [reflexivity|].
    rewrite drop_ge by lia. cbn. auto.
  - cbn [active_resolution_from].
    destruct (at_index_nat (profile_resolutions (profile_of p)) i) as [Hat Hidx];
      [lia | lia |].
    destruct (profile_resolutions (profile_of p) !! i) as [st|] eqn:Hst;
      [|apply lookup_ge_None in Hst; lia].
    rewrite (drop_lookup_cons _ _ _ Hst).
    unfold first_active_resolution. cbn [list_find].
    wsteps.
    + cbn in Heqb. rewrite Hidx, decide_True by exact Heqb.
      split; [reflexivity|]. unfold scanned, resolution_handle, h. cbn.
      rewrite Nat.add_0_r. auto.
    + cbn in Heqb. rewrite Hidx, decide_False by congruence.
      replace (Z.of_nat i + 1) with (Z.of_nat (S i)) by lia.
      wcall (IH (S i) Hlen ltac:(lia)). intros (-> & H). split; [reflexivity|].
      unfold first_active_resolution in H.
      destruct (list_find _ (drop (S i) _)) as [[k st']|];
        cbn [fmap option_fmap option_map prod_map fst snd id];
        destruct H as [-> ->]; unfold resolution_handle, h;
        cbn [app resolution_profile resolution_index].
      * replace (i + S k)%nat with (S i + k)%nat by lia. split; reflexivity.
      * split; reflexivity.
Qed.

(** What [ratbag_cmd_get_active_profile] does, as one equation. *)
Lemma get_active_profile_find d o :
  Z.of_nat (List.length (device_profiles (device_of d))) < 2 ^ 31 ->
  ratbag_cmd_get_active_profile (Some d) o =
    match first_active_profile (device_profiles (device_of d)) with
    | Some (k, st) =>
        (scanned (HProfile (device_path d)) 0 k
           ++ [Acquire (HProfile (device_path d) k)],
         Ok (Some {| profile_device := d; profile_index := k; profile_of := st |},
             o))
    | None =>
        (scanned (HProfile (device_path d)) 0
           (List.length (device_profiles (device_of d)))
           ++ [Stderr "Failed to retrieve the active profile\n" []],
         Ok (None, o))
    end.
Proof.
  intros Hlen.
  cut (twp (ratbag_cmd_get_active_profile (Some d)) o
         (fun t r o' =>
            (t, Ok (r, o')) =
            match first_active_profile (device_profiles (device_of d)) with
            | Some (k, st) =>
                (scanned (HProfile (device_path d)) 0 k
                   ++ [Acquire (HProfile (device_path d) k)],
                 Ok (Some {| profile_device := d; profile_index := k;
                             profile_of := st |}, o))
            | None =>
                (scanned (HProfile (device_path d)) 0
                   (List.length (device_profiles (device_of d)))
                   ++ [Stderr "Failed to retrieve the active profile\n" []],
                 Ok (None, o))
            end)).
  { intros H. apply twp_run in H as (t & r & o' & E & H). rewrite E. exact H. }
  unfold twp, ratbag_cmd_get_active_profile. wsteps.
  rewrite Nat2Z.id.
  wcall (active_profile_from_find d o (List.length (device_profiles (device_of d)))
           0%nat Hlen eq_refl).
  intros (-> & H). rewrite drop_0 in H.
  destruct (first_active_profile _) as [[k st]|]; destruct H as [-> ->]; wsteps;
    cbn [app]; rewrite ?app_nil_r; reflexivity.
Qed.

(** What [ratbag_cmd_get_active_resolution] does, as one equation. *)
Lemma get_active_resolution_find p o :
  Z.of_nat (List.length (profile_resolutions (profile_of p))) < 2 ^ 31 ->
  let h := HResolution (device_path (profile_device p)) (profile_index p) in
  ratbag_cmd_get_active_resolution (Some p) o =
    match first_active_resolution (profile_resolutions (profile_of p)) with
    | Some (k, st) =>
        (scanned h 0 k ++ [Acquire (h k)],
         Ok (Some {| resolution_profile := p; resolution_index := k;
                     resolution_of := st |}, o))
    | None =>
        (scanned h 0 (List.length (profile_resolutions (profile_of p)))
           ++ [Stderr "Failed to retrieve the active resolution\n" []],
         Ok (None, o))
    end.
Proof.
  intros Hlen h.
  cut (twp (ratbag_cmd_get_active_resolution (Some p)) o
         (fun t r o' =>
            (t, Ok (r, o')) =
            match first_active_resolution (profile_resolutions (profile_of p)) with
            | Some (k, st) =>
                (scanned h 0 k ++ [Acquire (h k)],
                 Ok (Some {| resolution_profile := p; resolution_index := k;
                             resolution_of := st |}, o))
            | None =>
                (scanned h 0 (List.length (profile_resolutions (profile_of p)))
                   ++ [Stderr "Failed to retrieve the active resolution\n" []],
                 Ok (None, o))
            end)).
  { intros H. apply twp_run in H as (t & r & o' & E & H). rewrite E. exact H. }
  unfold twp, ratbag_cmd_get_active_resolution. wsteps.
  rewrite Nat2Z.id.
  wcall (active_resolution_from_find p o
           (List.length (profile_resolutions (profile_of p))) 0%nat Hlen eq_refl).
  intros (-> & H). rewrite drop_0 in H. fold h in H.
  destruct (first_active_resolution _) as [[k st]|]; destruct H as [-> ->]; wsteps;
    cbn [app]; rewrite ?app_nil_r; reflexivity.
Qed.


(** X1: [ratbag_cmd_get_active_profile] returns the first profile, in index
    order, that is flagged active: it takes and drops again a reference to
    each profile before it and keeps the one to the profile it returns.
    With no profile flagged active it has looked at all of them, writes
    "Failed to retrieve the active profile" to standard error and returns
    NULL.  The context is not touched. *)
Theorem get_active_profile_first_match d o :
  Z.of_nat (List.length (device_profiles (device_of d))) < 2 ^ 31 ->
  ratbag_cmd_get_active_profile (Some d) o =
    match first_active_profile (device_profiles (device_of d)) with
    | Some (k, st) =>
        (scanned (HProfile (device_path d)) 0 k
           ++ [Acquire (HProfile (device_path d) k)],
         Ok (Some {| profile_device := d; profile_index := k; profile_of := st |},
             o))
    | None =>
        (scanned (HProfile (device_path d)) 0
           (List.length (device_profiles (device_of d)))
           ++ [Stderr "Failed to retrieve the active profile\n" []],
         Ok (None, o))
    end.
Proof. apply get_active_profile_find. Qed.

(** X2: [ratbag_cmd_get_active_resolution] returns the first resolution of
    the profile, in index order, that is flagged active, holding one
    reference to it and none to the resolutions before it; with none
    flagged active it writes "Failed to retrieve the active resolution" to
    standard error and returns NULL. *)
Theorem get_active_resolution_first_match p o :
  Z.of_nat (List.length (profile_resolutions (profile_of p))) < 2 ^ 31 ->
  let h := HResolution (device_path (profile_device p)) (profile_index p) in
  ratbag_cmd_get_active_resolution (Some p) o =
    match first_active_resolution (profile_resolutions (profile_of p)) with
    | Some (k, st) =>
        (scanned h 0 k ++ [Acquire (h k)],
         Ok (Some {| resolution_profile := p; resolution_index := k;
                     resolution_of := st |}, o))
    | None =>
        (scanned h 0 (List.length (profile_resolutions (profile_of p)))
           ++ [Stderr "Failed to retrieve the active resolution\n" []],
         Ok (None, o))
    end.
Proof. apply get_active_resolution_find. Qed.

(** ** [fill_options] *)

Lemma fill_options_cached W flags argc argv o :
  (has_flag flags need_any = true -> device o <> None) ->
  (has_flag flags (Z.lor FLAG_NEED_PROFILE FLAG_NEED_RESOLUTION) = true ->
   profile o <> None) ->
  (has_flag flags FLAG_NEED_RESOLUTION = true -> resolution o <> None) ->
  fill_options W flags argc argv o = ([], Ok ((SUCCESS, argc), o)).
Proof.
  intros Hd Hp Hr.
  unfold fill_options, fill_profile, fill_resolution, bind, options, ret.
  destruct (has_flag flags need_any), (device o) as [d|];
    try (exfalso; apply Hd; reflexivity);
    destruct (has_flag flags (Z.lor FLAG_NEED_PROFILE FLAG_NEED_RESOLUTION)),
      (profile o) as [p|];
    try (exfalso; apply Hp; reflexivity);
    destruct (has_flag flags FLAG_NEED_RESOLUTION), (resolution o) as [r|];
    try (exfalso; apply Hr; reflexivity);
    reflexivity.
Qed.

(** X3: [fill_options] resolves nothing twice: when the context already
    holds every handle the flags ask for, it returns [SUCCESS] at once,
    consumes no token, takes no reference, opens nothing and prints
    nothing, and the context is as before. *)
Theorem fill_options_reuses_context W flags argc argv o :
  (has_flag flags need_any = true -> device o <> None) ->
  (has_flag flags (Z.lor FLAG_NEED_PROFILE FLAG_NEED_RESOLUTION) = true ->
   profile o <> None) ->
  (has_flag flags FLAG_NEED_RESOLUTION = true -> resolution o <> None) ->
  fill_options W flags argc argv o = ([], Ok ((SUCCESS, argc), o)).
Proof. apply fill_options_cached. Qed.

(** The steps of [fill_options] from an empty context, one by one. *)
Lemma device_from_arg_opens W argc argv path st o :
  argc <> 0 -> arg_at argv (argc - 1) = Some path -> open_device W path = Some st ->
  ratbag_cmd_device_from_arg W argc argv o =
    ([Acquire (HDevice path)],
     Ok ((Some {| device_path := path; device_of := st |}, argc - 1), o)).
Proof.
  intros Hargc Hpath Hopen.
  unfold ratbag_cmd_device_from_arg, ratbag_cmd_open_device.
  destruct (Z.eqb_spec argc 0) as [|_]; [contradiction|].
  rewrite Hpath. unfold bind, deref, ret. rewrite Hopen. reflexivity.
Qed.

Lemma fill_options_all_run W flags argc argv path st i pst j rst o :
  has_flag flags FLAG_NEED_RESOLUTION = true ->
  device o = None -> profile o = None -> resolution o = None ->
  argc <> 0 -> arg_at argv (argc - 1) = Some path -> open_device W path = Some st ->
  Z.of_nat (List.length (device_profiles st)) < 2 ^ 31 ->
  first_active_profile (device_profiles st) = Some (i, pst) ->
  Z.of_nat (List.length (profile_resolutions pst)) < 2 ^ 31 ->
  first_active_resolution (profile_resolutions pst) = Some (j, rst) ->
  let d := {| device_path := path; device_of := st |} in
  let p := {| profile_device := d; profile_index := i; profile_of := pst |} in
  let r := {| resolution_profile := p; resolution_index := j; resolution_of := rst |} in
  fill_options W flags argc argv o =
    ([Acquire (HDevice path)]
       ++ scanned (HProfile path) 0 i ++ [Acquire (HProfile path i)]
       ++ scanned (HResolution path i) 0 j ++ [Acquire (HResolution path i j)],
     Ok ((SUCCESS, argc - 1),
         {| opt_flags := opt_flags o; device := Some d; profile := Some p;
            resolution := Some r; button := button o |})).
Proof.
  intros Hres Hd Hp Hr Hargc Hpath Hopen Hlp Hfp Hlr Hfr d p r.
  assert (Hany : has_flag flags need_any = true).
  { rewrite has_flag_need_any, Hres. apply orb_true_r. }
  assert (Hpr : has_flag flags (Z.lor FLAG_NEED_PROFILE FLAG_NEED_RESOLUTION) = true).
  { rewrite has_flag_lor, Hres. apply orb_true_r. }
  cut (twp (fill_options W flags argc argv) o
         (fun t a o' =>
            t = [Acquire (HDevice path)]
                  ++ scanned (HProfile path) 0 i ++ [Acquire (HProfile path i)]
                  ++ scanned (HResolution path i) 0 j
                  ++ [Acquire (HResolution path i j)]
            /\ a = (SUCCESS, argc - 1)
            /\ o' = {| opt_flags := opt_flags o; device := Some d; profile := Some p;
                       resolution := Some r; button := button o |})).
  { intros H. apply twp_run in H as (t & a & o' & E & -> & -> & ->). exact E. }
  unfold twp, fill_options. wstep. wstep. cbv beta match zeta.
  rewrite Hany, Hd, Hp, Hr. cbn [is_null andb].
  wstep. eapply wpx_run; [apply (device_from_arg_opens W argc argv path st); assumption|].
  cbv beta match zeta. cbn [is_null]. wstep. wstep.
  unfold fill_profile. rewrite Hpr. cbn [is_null andb].
  wstep. eapply wpx_run.
  { rewrite (get_active_profile_find d) by exact Hlp.
    cbn [device_of d]. rewrite Hfp. reflexivity. }
  cbn [is_null]. wstep. wstep.
  unfold fill_resolution. rewrite Hres. cbn [is_null andb].
  wstep. eapply wpx_run.
  { rewrite (get_active_resolution_find p) by exact Hlr.
    cbv zeta. cbn [profile_of p]. rewrite Hfr. reflexivity. }
  cbn [is_null]. wsteps.
  splits; try reflexivity.
  cbn [app]. rewrite ?app_nil_r, <- ?app_assoc. reflexivity.
Qed.

(** X4: from a context that holds nothing yet, [fill_options] with the
    resolution flag resolves in the fixed order device, profile,
    resolution: it opens the last visible token as the device, then takes
    the first active profile of that device, then the first active
    resolution of that profile; it stores the three handles, consumes the
    one token and returns [SUCCESS]. *)
Theorem fill_options_resolves_in_order W flags argc argv path st i pst j rst o :
  has_flag flags FLAG_NEED_RESOLUTION = true ->
  device o = None -> profile o = None -> resolution o = None ->
  argc <> 0 -> arg_at argv (argc - 1) = Some path -> open_device W path = Some st ->
  Z.of_nat (List.length (device_profiles st)) < 2 ^ 31 ->
  first_active_profile (device_profiles st) = Some (i, pst) ->
  Z.of_nat (List.length (profile_resolutions pst)) < 2 ^ 31 ->
  first_active_resolution (profile_resolutions pst) = Some (j, rst) ->
  let d := {| device_path := path; device_of := st |} in
  let p := {| profile_device := d; profile_index := i; profile_of := pst |} in
  let r := {| resolution_profile := p; resolution_index := j; resolution_of := rst |} in
  fill_options W flags argc argv o =
    ([Acquire (HDevice path)]
       ++ scanned (HProfile path) 0 i ++ [Acquire (HProfile path i)]
       ++ scanned (HResolution path i) 0 j ++ [Acquire (HResolution path i j)],
     Ok ((SUCCESS, argc - 1),
         {| opt_flags := opt_flags o; device := Some d; profile := Some p;
            resolution := Some r; button := button o |})).
Proof. apply fill_options_all_run. Qed.

Lemma fill_options_no_profile_run W flags argc argv path st o :
  has_flag flags (Z.lor FLAG_NEED_PROFILE FLAG_NEED_RESOLUTION) = true ->
  device o = None -> profile o = None ->
  argc <> 0 -> arg_at argv (argc - 1) = Some path -> open_device W path = Some st ->
  Z.of_nat (List.length (device_profiles st)) < 2 ^ 31 ->
  first_active_profile (device_profiles st) = None ->
  fill_options W flags argc argv o =
    ([Acquire (HDevice path)]
       ++ scanned (HProfile path) 0 (List.length (device_profiles st))
       ++ [Stderr "Failed to retrieve the active profile\n" []],
     Ok ((ERR_DEVICE, argc - 1),
         with_device (Some {| device_path := path; device_of := st |}) o)).
Proof.
  intros Hpr Hd Hp Hargc Hpath Hopen Hlp Hfp.
  pose proof (has_flag_profile_any flags Hpr) as Hany.
  set (d := {| device_path := path; device_of := st |}).
  cut (twp (fill_options W flags argc argv) o
         (fun t a o' =>
            t = [Acquire (HDevice path)]
                  ++ scanned (HProfile path) 0 (List.length (device_profiles st))
                  ++ [Stderr "Failed to retrieve the active profile\n" []]
            /\ a = (ERR_DEVICE, argc - 1) /\ o' = with_device (Some d) o)).
  { intros H. apply twp_run in H as (t & a & o' & E & -> & -> & ->). exact E. }
  unfold twp, fill_options. wstep. wstep. cbv beta match zeta.
  rewrite Hany, Hd, Hp. cbn [is_null andb].
  wstep. eapply wpx_run; [apply (device_from_arg_opens W argc argv path st); assumption|].
  cbv beta match zeta. cbn [is_null]. wstep. wstep.
  unfold fill_profile. rewrite Hpr. cbn [is_null andb].
  wstep. eapply wpx_run.
  { rewrite (get_active_profile_find d) by exact Hlp.
    cbn [device_of d]. rewrite Hfp. reflexivity. }
  cbn [is_null]. wsteps.
  splits; try reflexivity.
  cbn [app]. rewrite ?app_nil_r. reflexivity.
Qed.

Lemma fill_options_no_resolution_run W flags argc argv path st i pst o :
  has_flag flags FLAG_NEED_RESOLUTION = true ->
  device o = None -> profile o = None -> resolution o = None ->
  argc <> 0 -> arg_at argv (argc - 1) = Some path -> open_device W path = Some st ->
  Z.of_nat (List.length (device_profiles st)) < 2 ^ 31 ->
  first_active_profile (device_profiles st) = Some (i, pst) ->
  Z.of_nat (List.length (profile_resolutions pst)) < 2 ^ 31 ->
  first_active_resolution (profile_resolutions pst) = None ->
  let d := {| device_path := path; device_of := st |} in
  let p := {| profile_device := d; profile_index := i; profile_of := pst |} in
  fill_options W flags argc argv o =
    ([Acquire (HDevice path)]
       ++ scanned (HProfile path) 0 i ++ [Acquire (HProfile path i)]
       ++ scanned (HResolution path i) 0 (List.length (profile_resolutions pst))
       ++ [Stderr "Failed to retrieve the active resolution\n" []],
     Ok ((ERR_DEVICE, argc - 1), with_profile (Some p) (with_device (Some d) o))).
Proof.
  intros Hres Hd Hp Hr Hargc Hpath Hopen Hlp Hfp Hlr Hfr d p.
  assert (Hany : has_flag flags need_any = true).
  { rewrite has_flag_need_any, Hres. apply orb_true_r. }
  assert (Hpr : has_flag flags (Z.lor FLAG_NEED_PROFILE FLAG_NEED_RESOLUTION) = true).
  { rewrite has_flag_lor, Hres. apply orb_true_r. }
  by_twp. unfold fill_options. wstep. wstep. cbv beta match zeta.
  rewrite Hany, Hd, Hp, Hr. cbn [is_null andb].
  wstep. eapply wpx_run; [apply (device_from_arg_opens W argc argv path st); assumption|].
  cbv beta match zeta. cbn [is_null]. wstep. wstep.
  unfold fill_profile. rewrite Hpr. cbn [is_null andb].
  wstep. eapply wpx_run.
  { rewrite (get_active_profile_find d) by exact Hlp.
    cbn [device_of d]. rewrite Hfp. reflexivity. }
  cbn [is_null]. wstep. wstep.
  unfold fill_resolution. rewrite Hres. cbn [is_null andb].
  wstep. eapply wpx_run.
  { rewrite (get_active_resolution_find p) by exact Hlr.
    cbv zeta. cbn [profile_of p]. rewrite Hfr. reflexivity. }
  cbn [is_null]. wsteps.
  repeat first [rewrite <- app_assoc | progress cbn [app]]. rewrite ?app_nil_r.
  reflexivity.
Qed.

(** X5: [fill_options] keeps what it has resolved when a later step fails.
    When the device opens but none of its profiles is flagged active, it
    returns [ERR_DEVICE] after having looked at every profile; the device
    path is consumed all the same and the device stays in the context, the
    profile field stays NULL and no resolution is looked for.  When the
    active profile is found but none of its resolutions is flagged active,
    it returns [ERR_DEVICE] with both the device and the profile stored.
    ([main] releases what the context holds.) *)
Theorem fill_options_keeps_what_it_resolved W flags argc argv path st o :
  device o = None -> profile o = None -> resolution o = None ->
  argc <> 0 -> arg_at argv (argc - 1) = Some path -> open_device W path = Some st ->
  Z.of_nat (List.length (device_profiles st)) < 2 ^ 31 ->
  let d := {| device_path := path; device_of := st |} in
  (has_flag flags (Z.lor FLAG_NEED_PROFILE FLAG_NEED_RESOLUTION) = true ->
   first_active_profile (device_profiles st) = None ->
   fill_options W flags argc argv o =
     ([Acquire (HDevice path)]
        ++ scanned (HProfile path) 0 (List.length (device_profiles st))
        ++ [Stderr "Failed to retrieve the active profile\n" []],
      Ok ((ERR_DEVICE, argc - 1), with_device (Some d) o)))
  /\ (forall i pst,
        has_flag flags FLAG_NEED_RESOLUTION = true ->
        first_active_profile (device_profiles st) = Some (i, pst) ->
        Z.of_nat (List.length (profile_resolutions pst)) < 2 ^ 31 ->
        first_active_resolution (profile_resolutions pst) = None ->
        let p := {| profile_device := d; profile_index := i; profile_of := pst |} in
        fill_options W flags argc argv o =
          ([Acquire (HDevice path)]
             ++ scanned (HProfile path) 0 i ++ [Acquire (HProfile path i)]
             ++ scanned (HResolution path i) 0
                  (List.length (profile_resolutions pst))
             ++ [Stderr "Failed to retrieve the active resolution\n" []],
           Ok ((ERR_DEVICE, argc - 1),
               with_profile (Some p) (with_device (Some d) o)))).
Proof.
  intros Hd Hp Hr Hargc Hpath Hopen Hlp d. split.
  - intros Hpr Hfp. apply fill_options_no_profile_run; assumption.
  - intros i pst Hres Hfp Hlr Hfr p.
    apply (fill_options_no_resolution_run W flags argc argv path st i pst o);
      assumption.
Qed.

(** ** [run_subcommand] *)

Lemma run_subcommand_unknown W c cmd0 argc argv o :
  List.find (fun sub => streq c (name sub)) (subcommands cmd0) = None ->
  run_subcommand W (Some c) cmd0 argc argv o =
    ([Stderr "Invalid subcommand '%s'\n" [ArgStr c]], Ok (ERR_USAGE, o)).
Proof.
  intros Hfind. rewrite run_subcommand_find, Hfind. reflexivity.
Qed.

(** X6: [run_subcommand] goes to the first entry of [cmd->subcommands]
    whose name equals the command, as a plain search in order would - the
    second look at entry 0 that the post-increment in the loop causes
    changes nothing -, resolves what that entry's flags ask for and, if
    that succeeds, calls the entry's function with the matched token
    dropped; if the resolution fails its code is returned and the function
    is not called.  A command that no entry is named after gives
    "Invalid subcommand" on standard error and [ERR_USAGE], with the
    context untouched and nothing resolved. *)
Theorem run_subcommand_first_match W c cmd0 argc argv o :
  run_subcommand W (Some c) cmd0 argc argv o =
    match List.find (fun sub => streq c (name sub)) (subcommands cmd0) with
    | Some sub =>
        (filled <- fill_options W (flags sub) argc argv;;
         if negb (fst filled =? SUCCESS) then ret (fst filled)
         else call W sub (snd filled - 1) (tail argv))%C o
    | None => ([Stderr "Invalid subcommand '%s'\n" [ArgStr c]], Ok (ERR_USAGE, o))
    end.
Proof.
  rewrite run_subcommand_find.
  destruct (List.find _ (subcommands cmd0)) as [sub|]; [|reflexivity].
  unfold enter_subcommand, bind.
  destruct (fill_options W (flags sub) argc argv o) as [t [[[rc argc'] o']|]];
    reflexivity.
Qed.

(** ** The nodes that take an index *)

(** X7: at the nodes [profile N] and [resolution N], an index that parses
    as a number but lies outside the items the device (or the profile of
    the context) has - negative, or from the item count on - is refused
    with [ERR_UNSUPPORTED] and a message naming the index; the context
    keeps its fields, no reference is kept and the subcommand below is not
    run (the result does not depend on [run]). *)
Theorem explicit_index_out_of_range W run argc tok rest o :
  1 <= argc -> strtod_full tok = true ->
  - 2 ^ 31 <= strtod_int W tok < 2 ^ 31 ->
  (forall d, device o = Some d ->
     let n := Z.of_nat (List.length (device_profiles (device_of d))) in
     n < 2 ^ 31 -> strtod_int W tok < 0 \/ n <= strtod_int W tok ->
     ratbag_cmd_profile W run argc (tok :: rest) o
       = ([Stderr "Unable to find profile %d\n" [ArgInt (strtod_int W tok)]],
          Ok (ERR_UNSUPPORTED, o)))
  /\ (forall p, profile o = Some p ->
        let n := Z.of_nat (List.length (profile_resolutions (profile_of p))) in
        n < 2 ^ 31 -> strtod_int W tok < 0 \/ n <= strtod_int W tok ->
        ratbag_cmd_resolution W run argc (tok :: rest) o
          = ([Stderr "Unable to retrieve resolution %d\n"
                [ArgInt (strtod_int W tok)]],
             Ok (ERR_UNSUPPORTED, o))).
Proof.
  intros Hargc Hfull Hint. split.
  - intros d Hd n Hn Hout.
    apply (profile_index_out_of_range W run argc tok rest o d Hd Hargc Hfull).
    apply at_index_outside; [exact Hn | lia | lia].
  - intros p Hp n Hn Hout.
    apply (resolution_index_out_of_range W run argc tok rest o p Hp Hargc Hfull).
    apply at_index_outside; [exact Hn | lia | lia].
Qed.

Lemma call_cmd_button W argc argv o :
  call W cmd_button argc argv o =
    ratbag_cmd_button W (fun command _ _ => invalid_subcommand command) argc argv o.
Proof. rewrite call_unfold. reflexivity. Qed.

(** X8: the [button] node has no subcommand to go to, so it never
    succeeds: with fewer than two tokens it returns [ERR_USAGE] at once;
    otherwise it reads the second token, stores it as the button index of
    the context if it parses as a number, and then fails with
    "Invalid subcommand" for that very token and [ERR_USAGE]. *)
Theorem button_node_is_a_usage_error W argc argv o :
  (argc < 2 -> call W cmd_button argc argv o = ([], Ok (ERR_USAGE, o)))
  /\ (forall tok, 2 <= argc -> arg_at argv 1 = Some tok ->
        call W cmd_button argc argv o =
          ([Stderr "Invalid subcommand '%s'\n" [ArgStr tok]],
           Ok (ERR_USAGE,
               if strtod_full tok then with_button (strtod_int W tok) o else o))).
Proof.
  split.
  - intros Hargc. rewrite call_cmd_button. unfold ratbag_cmd_button.
    destruct (Z.ltb_spec argc 2); [reflexivity | lia].
  - intros tok Hargc Htok. rewrite call_cmd_button. unfold ratbag_cmd_button.
    destruct (Z.ltb_spec argc 2); [lia|].
    rewrite Htok, bind_deref_some.
    destruct (strtod_full tok); reflexivity.
Qed.

(** ** [profile active get] and [profile active set] *)

Lemma active_index_from_find d o n : forall i : nat,
  Z.of_nat (List.length (device_profiles (device_of d))) < 2 ^ 31 ->
  (i + n)%nat = List.length (device_profiles (device_of d)) ->
  twp (active_index_from (Some d) (Z.of_nat i) n) o
    (fun t r o' =>
       o' = o
       /\ match first_active_profile (drop i (device_profiles (device_of d))) with
          | Some (k, st) =>
              t = scanned (HProfile (device_path d)) i k
                    ++ [Acquire (HProfile (device_path d) (i + k))]
              /\ r = (Some {| profile_device := d; profile_index := i + k;
                              profile_of := st |},
                      Z.of_nat (i + k), SUCCESS)
          | None =>
              t = scanned (HProfile (device_path d)) i n
              /\ r = (None, 0, ERR_DEVICE)
          end).
Proof.
  unfold twp. induction n as [|n IH]; intros i Hlen Hn.
  - cbn [active_index_from]. apply wpx_ret. split; [reflexivity|].
    rewrite drop_ge by lia. cbn. auto.
  - cbn [active_index_from].
    destruct (at_index_nat (device_profiles (device_of d)) i) as [Hat Hidx];
      [lia | lia |].
    destruct (device_profiles (device_of d) !! i) as [st|] eqn:Hst;
      [|apply lookup_ge_None in Hst; lia].
    rewrite (drop_lookup_cons _ _ _ Hst).
    unfold first_active_profile. cbn [list_find].
    wsteps.
    + cbn in Heqb. rewrite Hidx, decide_True by exact Heqb.
      split; [reflexivity|]. unfold scanned, profile_handle. cbn.
      rewrite Nat.add_0_r. auto.
    + cbn in Heqb. rewrite Hidx, decide_False by congruence.
      replace (Z.of_nat i + 1) with (Z.of_nat (S i)) by lia.
      wcall (IH (S i) Hlen ltac:(lia)). intros (-> & H). split; [reflexivity|].
      unfold first_active_profile in H.
      destruct (list_find _ (drop (S i) _)) as [[k st']|];
        cbn [fmap option_fmap option_map prod_map fst snd id];
        destruct H as [-> ->]; unfold profile_handle;
        cbn [app profile_device device_path profile_index].
      * replace (i + S k)%nat with (S i + k)%nat by lia. split; reflexivity.
      * split; reflexivity.
Qed.

Lemma list_find_lt {A} (P : A -> Prop) `{forall x, Decision (P x)} (l : list A) k x :
  list_find P l = Some (k, x) -> (k < List.length l)%nat.
Proof.
  intros Hf. apply list_find_Some in Hf as (Hl & _).
  eapply lookup_lt_Some. exact Hl.
Qed.

Lemma profile_active_get_run argc argv o d :
  device o = Some d ->
  device_capabilities (device_of d) RATBAG_DEVICE_CAP_SWITCHABLE_PROFILE = true ->
  (1 < List.length (device_profiles (device_of d)))%nat ->
  Z.of_nat (List.length (device_profiles (device_of d))) < 2 ^ 31 ->
  let h := HProfile (device_path d) in
  ratbag_cmd_profile_active_get argc argv o =
    match first_active_profile (device_profiles (device_of d)) with
    | Some (k, _) =>
        (scanned h 0 k
           ++ [Acquire (h k); Stdout "%d\n" [ArgInt (Z.of_nat k)]; Release (h k)],
         Ok (SUCCESS, o))
    | None =>
        (scanned h 0 (List.length (device_profiles (device_of d))),
         Ok (ERR_DEVICE, o))
    end.
Proof.
  intros Hd Hcap Hmany Hlen h.
  cut (twp (ratbag_cmd_profile_active_get argc argv) o
         (fun t rc o' =>
            (t, Ok (rc, o')) =
            match first_active_profile (device_profiles (device_of d)) with
            | Some (k, _) =>
                (scanned h 0 k
                   ++ [Acquire (h k); Stdout "%d\n" [ArgInt (Z.of_nat k)];
                       Release (h k)],
                 Ok (SUCCESS, o))
            | None =>
                (scanned h 0 (List.length (device_profiles (device_of d))),
                 Ok (ERR_DEVICE, o))
            end)).
  { intros H. apply twp_run in H as (t & r & o' & E & H). rewrite E. exact H. }
  unfold twp, ratbag_cmd_profile_active_get. wstep. wstep. cbv beta zeta.
  rewrite Hd. wsteps; zbool; try lia; try congruence.
  rewrite Nat2Z.id.
  wcall (active_index_from_find d o (List.length (device_profiles (device_of d)))
           0%nat Hlen eq_refl).
  intros (-> & H). rewrite drop_0 in H.
  destruct (first_active_profile _) as [[k st]|] eqn:Hf; destruct H as [-> ->].
  - apply list_find_lt in Hf. cbn [Nat.add].
    wsteps; zbool; try lia.
    unfold h, profile_handle. cbn [app profile_device profile_index].
    rewrite ?app_nil_r, <- ?app_assoc. reflexivity.
  - wsteps; zbool; try lia.
    cbn [app]. rewrite ?app_nil_r. reflexivity.
Qed.

(** X9: [profile active get] on a device with switchable profiles and more
    than one profile prints the index of the first profile flagged active
    and returns [SUCCESS], holding no reference afterwards; with no profile
    flagged active it returns [ERR_DEVICE] in silence - nothing on
    standard output and, the test for "Unable to find active profile"
    never being true, nothing on standard error either.  The arguments are
    not looked at. *)
Theorem profile_active_get_first_active argc argv o d :
  device o = Some d ->
  device_capabilities (device_of d) RATBAG_DEVICE_CAP_SWITCHABLE_PROFILE = true ->
  (1 < List.length (device_profiles (device_of d)))%nat ->
  Z.of_nat (List.length (device_profiles (device_of d))) < 2 ^ 31 ->
  let h := HProfile (device_path d) in
  ratbag_cmd_profile_active_get argc argv o =
    match first_active_profile (device_profiles (device_of d)) with
    | Some (k, _) =>
        (scanned h 0 k
           ++ [Acquire (h k); Stdout "%d\n" [ArgInt (Z.of_nat k)]; Release (h k)],
         Ok (SUCCESS, o))
    | None =>
        (scanned h 0 (List.length (device_profiles (device_of d))),
         Ok (ERR_DEVICE, o))
    end.
Proof. apply profile_active_get_run. Qed.

Lemma profile_active_set_run W index_arg rest o d st :
  device o = Some d ->
  device_capabilities (device_of d) RATBAG_DEVICE_CAP_SWITCHABLE_PROFILE = true ->
  Z.of_nat (List.length (device_profiles (device_of d))) < 2 ^ 31 ->
  0 <= atoi index_arg ->
  device_profiles (device_of d) !! Z.to_nat (atoi index_arg) = Some st ->
  let h := HProfile (device_path d) (Z.to_nat (atoi index_arg)) in
  let n := ArgStr (device_name (device_of d)) in
  ratbag_cmd_profile_active_set W 1 (index_arg :: rest) o =
    if profile_active st then
      ([Acquire h;
        Stdout "'%s' is already in profile '%d'\n" [n; ArgInt (atoi index_arg)];
        Release h],
       Ok (SUCCESS, o))
    else if rc_of W (profile_set_active h) =? 0 then
      ([Acquire h; Call (profile_set_active h);
        Stdout "Switched '%s' to profile '%d'\n" [n; ArgInt (atoi index_arg)];
        Release h],
       Ok (SUCCESS, o))
    else ([Acquire h; Call (profile_set_active h); Release h], Ok (ERR_DEVICE, o)).
Proof.
  intros Hd Hcap Hlen Hpos Hst h n.
  pose proof (lookup_lt_Some _ _ _ Hst) as Hlt.
  destruct (at_index_nat (device_profiles (device_of d)) (Z.to_nat (atoi index_arg)))
    as [Hat Hidx]; [lia | exact Hlt |].
  rewrite Z2Nat.id in Hat, Hidx by exact Hpos. rewrite Hst in Hat.
  cut (twp (ratbag_cmd_profile_active_set W 1 (index_arg :: rest)) o
         (fun t rc o' =>
            (t, Ok (rc, o')) =
            if profile_active st then
              ([Acquire h;
                Stdout "'%s' is already in profile '%d'\n" [n; ArgInt (atoi index_arg)];
                Release h],
               Ok (SUCCESS, o))
            else if rc_of W (profile_set_active h) =? 0 then
              ([Acquire h; Call (profile_set_active h);
                Stdout "Switched '%s' to profile '%d'\n" [n; ArgInt (atoi index_arg)];
                Release h],
               Ok (SUCCESS, o))
            else ([Acquire h; Call (profile_set_active h); Release h],
                  Ok (ERR_DEVICE, o)))).
  { intros H. apply twp_run in H as (t & r & o' & E & H). rewrite E. exact H. }
  unfold twp, ratbag_cmd_profile_active_set.
  change (arg_at (index_arg :: rest) 0) with (Some index_arg).
  wsteps; zbool; try lia; try congruence.
  all: unfold profile_handle in *;
    cbn [profile_of profile_device profile_index] in *;
    rewrite ?Hidx in *; subst h n; run_eq.
Qed.

(** X10: [profile active set N] with [N] an index the device has, on a
    device with switchable profiles: if that profile is flagged active
    already it says so and returns [SUCCESS] without any call that changes
    the device; otherwise it calls [ratbag_profile_set_active] once, and
    returns [SUCCESS] with "Switched ..." if the call returns 0 and
    [ERR_DEVICE], with nothing printed, if not.  Either way the one
    reference it took is dropped and the context is as before. *)
Theorem profile_active_set_in_range W index_arg rest o d st :
  device o = Some d ->
  device_capabilities (device_of d) RATBAG_DEVICE_CAP_SWITCHABLE_PROFILE = true ->
  Z.of_nat (List.length (device_profiles (device_of d))) < 2 ^ 31 ->
  0 <= atoi index_arg ->
  device_profiles (device_of d) !! Z.to_nat (atoi index_arg) = Some st ->
  let h := HProfile (device_path d) (Z.to_nat (atoi index_arg)) in
  let n := ArgStr (device_name (device_of d)) in
  ratbag_cmd_profile_active_set W 1 (index_arg :: rest) o =
    if profile_active st then
      ([Acquire h;
        Stdout "'%s' is already in profile '%d'\n" [n; ArgInt (atoi index_arg)];
        Release h],
       Ok (SUCCESS, o))
    else if rc_of W (profile_set_active h) =? 0 then
      ([Acquire h; Call (profile_set_active h);
        Stdout "Switched '%s' to profile '%d'\n" [n; ArgInt (atoi index_arg)];
        Release h],
       Ok (SUCCESS, o))
    else ([Acquire h; Call (profile_set_active h); Release h], Ok (ERR_DEVICE, o)).
Proof. apply profile_active_set_run. Qed.


(** X11: what [profile active set] refuses, and how: a token count other
    than one is [ERR_USAGE]; a context without device is [ERR_DEVICE];
    a device without switchable profiles and an index above the profile
    count are [ERR_UNSUPPORTED], each with its message on standard error.
    None of these takes a reference, calls into the device or changes the
    context. *)
Theorem profile_active_set_refusals W argc argv o :
  (argc <> 1 -> ratbag_cmd_profile_active_set W argc argv o = ([], Ok (ERR_USAGE, o)))
  /\ (forall index_arg rest,
        argc = 1 -> argv = index_arg :: rest ->
        (device o = None ->
         ratbag_cmd_profile_active_set W argc argv o = ([], Ok (ERR_DEVICE, o)))
        /\ (forall d,
              device o = Some d ->
              device_capabilities (device_of d) RATBAG_DEVICE_CAP_SWITCHABLE_PROFILE
                = false ->
              ratbag_cmd_profile_active_set W argc argv o =
                ([Stderr "Device '%s' has no switchable profiles\n"
                    [ArgStr (device_name (device_of d))]],
                 Ok (ERR_UNSUPPORTED, o)))
        /\ (forall d,
              device o = Some d ->
              device_capabilities (device_of d) RATBAG_DEVICE_CAP_SWITCHABLE_PROFILE
                = true ->
              Z.of_nat (List.length (device_profiles (device_of d))) < atoi index_arg ->
              ratbag_cmd_profile_active_set W argc argv o =
                ([Stderr "'%d' is not a valid profile\n" [ArgInt (atoi index_arg)]],
                 Ok (ERR_UNSUPPORTED, o)))).
Proof.
  split.
  - intros Hargc. unfold ratbag_cmd_profile_active_set.
    destruct (Z.eqb_spec argc 1); [contradiction | reflexivity].
  - intros index_arg rest -> ->. splits.
    + intros Hd. by_twp. unfold ratbag_cmd_profile_active_set.
      change (arg_at (index_arg :: rest) 0) with (Some index_arg).
      wsteps; try congruence. reflexivity.
    + intros d Hd Hcap. by_twp. unfold ratbag_cmd_profile_active_set.
      change (arg_at (index_arg :: rest) 0) with (Some index_arg).
      wsteps; zbool; try lia; try congruence. run_eq.
    + intros d Hd Hcap Hidx. by_twp. unfold ratbag_cmd_profile_active_set.
      change (arg_at (index_arg :: rest) 0) with (Some index_arg).
      wsteps; zbool; try lia; try congruence. run_eq.
Qed.

(** ** [resolution dpi set] and [resolution dpi get] *)

Lemma resolution_dpi_set_run W dpi_arg rest o d r :
  device o = Some d -> resolution o = Some r ->
  let call := resolution_set_dpi (resolution_handle r) (atoi dpi_arg) in
  ratbag_cmd_resolution_dpi_set W 1 (dpi_arg :: rest) o =
    if device_capabilities (device_of d) RATBAG_DEVICE_CAP_SWITCHABLE_RESOLUTION
    then
      if rc_of W call =? 0 then ([Call call], Ok (SUCCESS, o))
      else ([Call call;
             Stderr "Failed to change the dpi: %s (%d)\n"
               [ArgStr (strerror W (- rc_of W call)); ArgInt (rc_of W call)]],
            Ok (ERR_DEVICE, o))
    else ([Stderr "Device '%s' has no switchable resolution\n"
             [ArgStr (device_name (device_of d))]],
          Ok (ERR_UNSUPPORTED, o)).
Proof.
  intros Hd Hr call. by_twp. unfold ratbag_cmd_resolution_dpi_set.
  change (arg_at (dpi_arg :: rest) 0) with (Some dpi_arg).
  wsteps; zbool; try lia; try congruence.
  all: subst call; run_eq.
  congruence.
Qed.

(** X12: [resolution dpi set N]: on a device without switchable
    resolutions it returns [ERR_UNSUPPORTED] with a message and does not
    call into the device; otherwise it calls [ratbag_resolution_set_dpi]
    once, on the resolution of the context and with [atoi] of the token,
    and returns [SUCCESS] if the call returns 0 and [ERR_DEVICE], with the
    error written to standard error, if not. *)
Theorem resolution_dpi_set_cases W dpi_arg rest o d r :
  device o = Some d -> resolution o = Some r ->
  let call := resolution_set_dpi (resolution_handle r) (atoi dpi_arg) in
  ratbag_cmd_resolution_dpi_set W 1 (dpi_arg :: rest) o =
    if device_capabilities (device_of d) RATBAG_DEVICE_CAP_SWITCHABLE_RESOLUTION
    then
      if rc_of W call =? 0 then ([Call call], Ok (SUCCESS, o))
      else ([Call call;
             Stderr "Failed to change the dpi: %s (%d)\n"
               [ArgStr (strerror W (- rc_of W call)); ArgInt (rc_of W call)]],
            Ok (ERR_DEVICE, o))
    else ([Stderr "Device '%s' has no switchable resolution\n"
             [ArgStr (device_name (device_of d))]],
          Ok (ERR_UNSUPPORTED, o)).
Proof. apply resolution_dpi_set_run. Qed.

(** ** [change-button] *)

Lemma set_macro_events_run W b es o : forall i : nat,
  set_macro_events W (Some b) (Z.of_nat i) es o =
    (imap (fun k e => Call (set_macro_event (button_handle b) (Z.of_nat (i + k))
                              (fst e) (snd e)))
       (macro_events es),
     Ok (tt, o)).
Proof.
  induction es as [|[type data] es IH]; intros i; [reflexivity|].
  destruct type; [reflexivity | |];
    cbn [set_macro_events macro_events imap];
    unfold ratbag_button_call, bind, deref, ret, emit;
    replace (Z.of_nat i + 1) with (Z.of_nat (S i)) by lia;
    rewrite IH; cbn [app fst snd]; rewrite Nat.add_0_r;
    f_equal; f_equal; apply imap_ext; intros k e _; cbn;
    repeat f_equal; lia.
Qed.

(** X13: handing a macro to a button: one call with the macro's name, then
    one [ratbag_button_set_macro_event] call per event, with indices 0, 1,
    ... in order, up to the first event of type
    [RATBAG_MACRO_EVENT_NONE] (or all 64 when there is none), then the
    commit [ratbag_button_write_macro]; what the calls before the commit
    return is not looked at, the result is the commit's.  For a macro
    argument that starts with [f] these are exactly eight calls: the name
    "foo", the six events of F, O, O and the commit. *)
Theorem macro_transfer W b m arg o :
  apply_button_action W (Some b) (ActionMacro m) o =
    (macro_calls (button_handle b) m,
     Ok (rc_of W (write_macro (button_handle b)), o))
  /\ (first_char arg = "f"%char ->
      macro_calls (button_handle b) (snd (str_to_macro (Some arg) macro_zero)) =
        let h := button_handle b in
        [Call (set_macro h (Some "foo"));
         Call (set_macro_event h 0 RATBAG_MACRO_EVENT_KEY_PRESSED KEY_F);
         Call (set_macro_event h 1 RATBAG_MACRO_EVENT_KEY_RELEASED KEY_F);
         Call (set_macro_event h 2 RATBAG_MACRO_EVENT_KEY_PRESSED KEY_O);
         Call (set_macro_event h 3 RATBAG_MACRO_EVENT_KEY_RELEASED KEY_O);
         Call (set_macro_event h 4 RATBAG_MACRO_EVENT_KEY_PRESSED KEY_O);
         Call (set_macro_event h 5 RATBAG_MACRO_EVENT_KEY_RELEASED KEY_O);
         Call (write_macro h)]).
Proof.
  split.
  - unfold apply_button_action, macro_calls.
    unfold bind at 1. unfold ratbag_button_call at 1.
    unfold bind, deref, ret, emit.
    change 0 with (Z.of_nat 0). rewrite set_macro_events_run.
    cbn [app fst snd Nat.add]. reflexivity.
  - intros Hf. unfold str_to_macro. rewrite Hf. reflexivity.
Qed.

Lemma change_button_key_run W index_arg key_name rest o d p :
  device o = Some d -> profile o = Some p ->
  device_capabilities (device_of d) RATBAG_DEVICE_CAP_BUTTON_KEY = true ->
  to_uint (atoi index_arg)
    < Z.of_nat (device_num_buttons (device_of (profile_device p))) ->
  to_uint (libevdev_event_code_from_name W key_name) <> 0 ->
  let hb := HButton (device_path (profile_device p)) (profile_index p)
              (Z.to_nat (to_uint (atoi index_arg))) in
  let set := set_key hb (to_uint (libevdev_event_code_from_name W key_name)) 0 in
  let activate := profile_set_active (profile_handle p) in
  ratbag_cmd_change_button W 3 (index_arg :: "key" :: key_name :: rest) o =
    if rc_of W set =? 0 then
      if rc_of W activate =? 0 then
        ([Acquire hb; Call set; Call activate; Release hb], Ok (SUCCESS, o))
      else
        ([Acquire hb; Call set; Call activate;
          Stderr "Unable to apply the current profile: %s (%d)\n"
            [ArgStr (strerror W (- rc_of W activate)); ArgInt (rc_of W activate)];
          Release hb],
         Ok (ERR_DEVICE, o))
    else
      ([Acquire hb; Call set;
        Stderr "Unable to perform button %d mapping %s %s\n"
          [ArgInt (atoi index_arg); ArgStr "key"; ArgStr key_name];
        Release hb],
       Ok (ERR_UNSUPPORTED, o)).
Proof.
  intros Hd Hp Hcap Hidx Hkey hb set activate. by_twp.
  unfold ratbag_cmd_change_button.
  change (arg_at (index_arg :: "key" :: key_name :: rest) 0) with (Some index_arg).
  change (arg_at (index_arg :: "key" :: key_name :: rest) 1) with (Some "key").
  change (arg_at (index_arg :: "key" :: key_name :: rest) 2) with (Some key_name).
  unfold parse_button_action, apply_button_action.
  wsteps; zbool; try lia; try congruence.
  all: unfold button_handle, str_or_null in *;
    cbn [button_profile button_index] in *;
    subst hb set activate; run_eq.
  congruence.
Qed.

(** X14: [change-button N key NAME] with a key name that resolves, on a
    device with programmable buttons and a button [N]: the button's action
    is set with one [ratbag_button_set_key] call carrying the resolved
    code and no modifiers; only if that returns 0 the profile of the
    context is activated again.  The result is [SUCCESS] when both calls
    return 0, [ERR_UNSUPPORTED] when the first does not (the profile is
    then not activated) and [ERR_DEVICE] when the second does not; the
    reference to the button is dropped on each of the three ways out. *)
Theorem change_button_key_applies W index_arg key_name rest o d p :
  device o = Some d -> profile o = Some p ->
  device_capabilities (device_of d) RATBAG_DEVICE_CAP_BUTTON_KEY = true ->
  to_uint (atoi index_arg)
    < Z.of_nat (device_num_buttons (device_of (profile_device p))) ->
  to_uint (libevdev_event_code_from_name W key_name) <> 0 ->
  let hb := HButton (device_path (profile_device p)) (profile_index p)
              (Z.to_nat (to_uint (atoi index_arg))) in
  let set := set_key hb (to_uint (libevdev_event_code_from_name W key_name)) 0 in
  let activate := profile_set_active (profile_handle p) in
  ratbag_cmd_change_button W 3 (index_arg :: "key" :: key_name :: rest) o =
    if rc_of W set =? 0 then
      if rc_of W activate =? 0 then
        ([Acquire hb; Call set; Call activate; Release hb], Ok (SUCCESS, o))
      else
        ([Acquire hb; Call set; Call activate;
          Stderr "Unable to apply the current profile: %s (%d)\n"
            [ArgStr (strerror W (- rc_of W activate)); ArgInt (rc_of W activate)];
          Release hb],
         Ok (ERR_DEVICE, o))
    else
      ([Acquire hb; Call set;
        Stderr "Unable to perform button %d mapping %s %s\n"
          [ArgInt (atoi index_arg); ArgStr "key"; ArgStr key_name];
        Release hb],
       Ok (ERR_UNSUPPORTED, o)).
Proof. apply change_button_key_run. Qed.

Lemma change_button_frame W argc argv o :
  wp (ratbag_cmd_change_button W argc argv) o
    (fun t rc o' =>
       (rc = ERR_USAGE -> no_calls t = true /\ no_acquire t = true)
       /\ 0 <= rc <= 3).
Proof.
  unfold wp, ratbag_cmd_change_button, parse_button_action.
  wsteps.
  all: cbn [app]; split; [intros Hrun|];
    try discriminate Hrun; try (split; reflexivity);
    try (zbool; unfold ERR_USAGE, ERR_UNSUPPORTED, ERR_DEVICE in *; lia).
Qed.

(** X15: whatever its arguments, the context and the device, when
    [change-button] returns it has left the context as it was and dropped
    every reference it took; its result is one of the four exit codes; and
    when that is [ERR_USAGE] - wrong token count, unknown action kind, a
    key or special name that does not resolve - it has made no call that
    changes the device and has not even fetched the button. *)
Theorem change_button_rejections_touch_nothing W argc argv o t rc o' :
  ratbag_cmd_change_button W argc argv o = (t, Ok (rc, o')) ->
  o' = o /\ neutral t /\ 0 <= rc <= 3
  /\ (rc = ERR_USAGE -> no_calls t = true /\ no_acquire t = true).
Proof.
  intros E.
  destruct (wp_run _ _ _ _ _ _ (ratbag_cmd_change_button_pure W argc argv o) E)
    as [-> Hn].
  destruct (wp_run _ _ _ _ _ _ (change_button_frame W argc argv o) E)
    as [Hu Hrc].
  auto.
Qed.

(** ** [list] *)

Lemma list_devices_run W entries o : forall supported,
  list_devices W entries supported o =
    (flat_map (listed W) entries,
     Ok (supported + Z.of_nat (List.length (List.filter (opens W) entries)), o)).
Proof.
  induction entries as [|d_name entries IH]; intros supported.
  - cbn. rewrite Z.add_0_r. reflexivity.
  - cbn [list_devices flat_map List.filter]. unfold listed at 1, opens at 1.
    unfold ratbag_cmd_open_device, ratbag_device_get_name, ratbag_device_unref,
      printf, bind, deref, ret, emit.
    destruct (open_device W ("/dev/input/" +:+ d_name)) as [st|];
      cbn [is_null negb device_handle device_path device_of app List.length];
      rewrite IH; cbn [app]; [|reflexivity].
    replace (supported + 1 + Z.of_nat (List.length (List.filter (opens W) entries)))
      with (supported + Z.of_nat (S (List.length (List.filter (opens W) entries))))
      by lia.
    reflexivity.
Qed.

(** X16: [list] takes no argument ([ERR_USAGE] otherwise).  When
    [/dev/input] cannot be scanned it returns [SUCCESS] and prints
    nothing.  Otherwise it tries the entries in the order [scandir] gives
    them, prints one line - path and device name - for each entry that
    opens as a device, releasing the device at once, and prints "No
    supported devices found" exactly when no entry opened; the result is
    [SUCCESS] in both cases and the context is not touched. *)
Theorem list_supported_devices_lines W argc argv o :
  (argc <> 0 ->
   ratbag_cmd_list_supported_devices W argc argv o = ([], Ok (ERR_USAGE, o)))
  /\ (argc = 0 ->
      ratbag_cmd_list_supported_devices W argc argv o =
        match scandir_dev_input W with
        | None => ([], Ok (SUCCESS, o))
        | Some entries =>
            (flat_map (listed W) entries
               ++ (if existsb (opens W) entries then []
                   else [Stdout "No supported devices found\n" []]),
             Ok (SUCCESS, o))
        end).
Proof.
  split; intros Hargc; unfold ratbag_cmd_list_supported_devices.
  - destruct (Z.eqb_spec argc 0); [contradiction | reflexivity].
  - subst argc. cbn [Z.eqb negb].
    destruct (scandir_dev_input W) as [entries|]; [|reflexivity].
    unfold bind. rewrite list_devices_run. cbn [Z.add].
    assert (Hex : (Z.of_nat (List.length (List.filter (opens W) entries)) =? 0)
                  = negb (existsb (opens W) entries)).
    { induction entries as [|e entries IH]; [reflexivity|].
      cbn [List.filter existsb]. destruct (opens W e); [|exact IH].
      cbn [orb negb List.length]. apply Z.eqb_neq. lia. }
    rewrite Z.add_0_l, Hex. destruct (existsb (opens W) entries); reflexivity.
Qed.

(** ** [info] *)

Lemma read_only_nil : read_only [].
Proof. split; [apply neutral_nil | split; reflexivity]. Qed.

Lemma read_only_app t1 t2 : read_only t1 -> read_only t2 -> read_only (t1 ++ t2).
Proof.
  intros (Hn1 & Hc1 & He1) (Hn2 & Hc2 & He2). split; [|split].
  - apply neutral_app; assumption.
  - rewrite no_calls_app, Hc1, Hc2. reflexivity.
  - unfold no_stderr in *. rewrite forallb_app, He1, He2. reflexivity.
Qed.

Lemma read_only_bracket h t : read_only t -> read_only (Acquire h :: t ++ [Release h]).
Proof.
  intros (Hn & Hc & He). split; [|split].
  - apply neutral_bracket, Hn.
  - change (no_calls (t ++ [Release h]) = true).
    rewrite no_calls_app, Hc. reflexivity.
  - change (no_stderr (t ++ [Release h]) = true).
    unfold no_stderr in *. rewrite forallb_app, He. reflexivity.
Qed.

Lemma read_only_stdout l :
  forallb is_stdout l = true -> read_only l.
Proof.
  intros H. split; [|split].
  - apply neutral_quiet. unfold quiet. induction l as [|[] l IH]; cbn in *;
      try discriminate; auto.
  - unfold no_calls. induction l as [|[] l IH]; cbn in *; try discriminate; auto.
  - unfold no_stderr. induction l as [|[] l IH]; cbn in *; try discriminate; auto.
Qed.

(** A loop whose rounds all return, leave the context alone and only read. *)
Lemma for_loop_reads body o n : forall i,
  (forall j, i <= j < i + Z.of_nat n ->
     twp (body j) o (fun t _ o' => o' = o /\ read_only t)) ->
  twp (for_loop i n body) o (fun t _ o' => o' = o /\ read_only t).
Proof.
  unfold twp. induction n as [|n IH]; intros i Hbody; cbn [for_loop].
  - apply wpx_ret. split; [reflexivity | apply read_only_nil].
  - apply wpx_bind. eapply wpx_mono; [apply Hbody; lia|].
    cbv beta. intros t1 _ o1 [-> H1].
    eapply wpx_mono; [apply IH; intros j Hj; apply Hbody; lia|].
    cbv beta. intros t2 _ o2 [-> H2]. split; [reflexivity|].
    apply read_only_app; assumption.
Qed.

Lemma info_resolution_reads p j o :
  0 <= j < Z.of_nat (List.length (profile_resolutions (profile_of p))) ->
  twp (info_resolution (Some p) j) o (fun t _ o' => o' = o /\ read_only t).
Proof.
  intros Hj. unfold twp, info_resolution.
  destruct (at_index_in_range (profile_resolutions (profile_of p)) j Hj)
    as (st & E & _).
  wsteps.
  all: split; [reflexivity|]; cbn [app]; rewrite ?app_nil_r;
    apply (read_only_bracket _ [_]), read_only_stdout; reflexivity.
Qed.

Lemma info_button_reads p b o :
  0 <= b < Z.of_nat (device_num_buttons (device_of (profile_device p))) ->
  twp (info_button (Some p) b) o (fun t _ o' => o' = o /\ read_only t).
Proof.
  intros Hb. unfold twp, info_button.
  pose proof (to_uint_le b (proj1 Hb)).
  wsteps; zbool; try lia.
  split; [reflexivity|]; cbn [app]; rewrite ?app_nil_r;
    apply (read_only_bracket _ [_]), read_only_stdout; reflexivity.
Qed.

Lemma info_profile_reads d i o :
  0 <= i < Z.of_nat (List.length (device_profiles (device_of d))) ->
  twp (info_profile (Some d) (Z.of_nat (device_num_buttons (device_of d))) i) o
    (fun t _ o' => o' = o /\ read_only t).
Proof.
  intros Hi. unfold twp, info_profile.
  destruct (at_index_in_range (device_profiles (device_of d)) i Hi) as (st & E & _).
  wsteps.
  set (p := {| profile_device := d; profile_index := Z.to_nat (to_uint i);
               profile_of := st |}).
  eapply wpx_mono.
  { apply (for_loop_reads (info_resolution (Some p)) o). intros j Hj.
    apply info_resolution_reads. rewrite Nat2Z.id in Hj. lia. }
  cbv beta. intros t1 _ o1 [-> H1]. wstep.
  eapply wpx_mono.
  { apply (for_loop_reads (info_button (Some p)) o). intros j Hj.
    apply info_button_reads. rewrite Nat2Z.id in Hj. exact Hj. }
  cbv beta. intros t2 _ o2 [-> H2]. wsteps.
  split; [reflexivity|]. cbn [app]. rewrite ?app_nil_r.
  match goal with
  | |- read_only (Acquire ?h :: ?a :: ?b :: t1 ++ t2 ++ [Release ?h]) =>
      replace (a :: b :: t1 ++ t2 ++ [Release h])
        with (([a; b] ++ t1 ++ t2) ++ [Release h])
        by (cbn [app]; rewrite <- ?app_assoc; reflexivity)
  end.
  apply read_only_bracket. repeat apply read_only_app; try assumption.
  apply read_only_stdout. reflexivity.
Qed.

Lemma read_only_cons_stdout fmt a t :
  read_only t -> read_only (Stdout fmt a :: t).
Proof.
  intros H. apply (read_only_app [_] t); [|exact H].
  apply read_only_stdout. reflexivity.
Qed.

Lemma info_reads argc argv o d :
  device o = Some d ->
  twp (ratbag_cmd_info argc argv) o
    (fun t rc o' => rc = SUCCESS /\ o' = o /\ read_only t).
Proof.
  intros Hd. unfold twp, ratbag_cmd_info. wstep. wstep. cbv zeta. rewrite Hd.
  repeat (try (wstep; cbv beta);
          lazymatch goal with
          | |- wpx _ (for_loop _ _ _) _ _ => fail
          | |- wpx _ (bind (for_loop _ _ _) _) _ _ => fail
          | |- wpx _ (bind (when ?c _) _) _ _ => unfold when; destruct c
          | _ => autounfold with tool
          end).
  all: apply wpx_emit; apply wpx_bind; eapply wpx_mono;
    [apply for_loop_reads; intros j Hj; apply info_profile_reads;
     rewrite Nat2Z.id in Hj; lia|];
    cbv beta; intros t1 _ o1 [-> H1]; apply wpx_ret;
    split; [reflexivity|]; split; [reflexivity|];
    cbn [app]; rewrite ?app_nil_r;
    repeat apply read_only_cons_stdout; exact H1.
Qed.

(** X17: [info] on a context that holds a device: it returns, with
    [SUCCESS], whatever the device reports; it only reads - every
    reference it takes to a profile, a resolution or a button is dropped
    again, no call changes the device, nothing is written to standard
    error - and the context is as before.  Its arguments are not looked
    at. *)
Theorem info_only_reads argc argv o d :
  device o = Some d ->
  exists t,
    ratbag_cmd_info argc argv o = (t, Ok (SUCCESS, o))
    /\ neutral t /\ no_calls t = true /\ no_stderr t = true.
Proof.
  intros Hd.
  destruct (twp_run _ _ _ (info_reads argc argv o d Hd))
    as (t & rc & o' & E & -> & -> & H).
  exists t. split; [exact E | exact H].
Qed.

(** ** [switch-etekcity] *)

Lemma switch_etekcity_run W argc argv o d p :
  device o = Some d -> profile o = Some p ->
  device_capabilities (device_of d) RATBAG_DEVICE_CAP_SWITCHABLE_PROFILE = true ->
  (8 <= device_num_buttons (device_of (profile_device p)))%nat ->
  let b6 := profile_button (profile_of p) 6 in
  let b7 := profile_button (profile_of p) 7 in
  let h6 := HButton (device_path (profile_device p)) (profile_index p) 6 in
  let h7 := HButton (device_path (profile_device p)) (profile_index p) 7 in
  let volume := (button_key b6 =? KEY_VOLUMEUP) && (button_key b7 =? KEY_VOLUMEDOWN) in
  let unset :=
    match button_action_type b6, button_action_type b7 with
    | RATBAG_BUTTON_ACTION_TYPE_NONE, RATBAG_BUTTON_ACTION_TYPE_NONE => true
    | _, _ => false
    end in
  ratbag_cmd_switch_etekcity W argc argv o =
    ([Acquire h6; Acquire h7]
       ++ (if volume then [Call (button_disable h6); Call (button_disable h7)]
           else if unset then [Call (set_key h6 KEY_VOLUMEUP 0);
                               Call (set_key h7 KEY_VOLUMEDOWN 0)]
           else [])
       ++ [Release h6; Release h7;
           Stdout "Switched the current profile of '%s' to %sreport the volume keys\n"
             [ArgStr (device_name (device_of d));
              ArgStr (if volume then "not " else "")]],
     Ok (SUCCESS, o)).
Proof.
  intros Hd Hp Hcap Hn b6 b7 h6 h7 volume unset. by_twp.
  unfold ratbag_cmd_switch_etekcity.
  wsteps; change (to_uint 6) with 6 in *; change (to_uint 7) with 7 in *;
    zbool; try lia; try congruence.
  all: change (Z.to_nat 6) with 6%nat in *;
    change (Z.to_nat 7) with 7%nat in *;
    unfold button_handle in *;
    cbn [button_of button_profile button_index] in *;
    subst volume unset b6 b7 h6 h7;
    repeat match goal with
    | H : button_key _ = _ |- _ => rewrite H
    | H : button_action_type _ = _ |- _ => rewrite H
    end;
    repeat match goal with
    | |- context [button_key ?b =? ?y] =>
        destruct (Z.eqb_spec (button_key b) y); try congruence
    | |- context [match button_action_type ?b with _ => _ end] =>
        destruct (button_action_type b); try discriminate
    end;
    reflexivity.
Qed.

(** X18: [switch-etekcity] on a device with switchable profiles whose
    profile has the buttons 6 and 7 is a toggle with three cases, looked at
    in this order: both buttons report the volume keys - both are
    disabled and the message says "not report"; else both buttons have no
    action - they are set to the volume keys; else nothing is changed and
    the message still says "report".  What the calls return is not looked
    at: the result is [SUCCESS] every time.  Both button references are
    dropped. *)
Theorem switch_etekcity_cases W argc argv o d p :
  device o = Some d -> profile o = Some p ->
  device_capabilities (device_of d) RATBAG_DEVICE_CAP_SWITCHABLE_PROFILE = true ->
  (8 <= device_num_buttons (device_of (profile_device p)))%nat ->
  let b6 := profile_button (profile_of p) 6 in
  let b7 := profile_button (profile_of p) 7 in
  let h6 := HButton (device_path (profile_device p)) (profile_index p) 6 in
  let h7 := HButton (device_path (profile_device p)) (profile_index p) 7 in
  let volume := (button_key b6 =? KEY_VOLUMEUP) && (button_key b7 =? KEY_VOLUMEDOWN) in
  let unset :=
    match button_action_type b6, button_action_type b7 with
    | RATBAG_BUTTON_ACTION_TYPE_NONE, RATBAG_BUTTON_ACTION_TYPE_NONE => true
    | _, _ => false
    end in
  ratbag_cmd_switch_etekcity W argc argv o =
    ([Acquire h6; Acquire h7]
       ++ (if volume then [Call (button_disable h6); Call (button_disable h7)]
           else if unset then [Call (set_key h6 KEY_VOLUMEUP 0);
                               Call (set_key h7 KEY_VOLUMEDOWN 0)]
           else [])
       ++ [Release h6; Release h7;
           Stdout "Switched the current profile of '%s' to %sreport the volume keys\n"
             [ArgStr (device_name (device_of d));
              ArgStr (if volume then "not " else "")]],
     Ok (SUCCESS, o)).
Proof. apply switch_etekcity_run. Qed.

(** X19: [switch-etekcity] does not test what
    [ratbag_profile_get_button_by_index] returns: on a device with
    switchable profiles and fewer than seven buttons it hands NULL to
    [ratbag_button_get_key] and does not return; without switchable
    profiles it returns [ERR_UNSUPPORTED] with a message before any button
    is fetched. *)
Theorem switch_etekcity_unchecked_buttons W argc argv o d p :
  device o = Some d -> profile o = Some p ->
  (device_capabilities (device_of d) RATBAG_DEVICE_CAP_SWITCHABLE_PROFILE = false ->
   ratbag_cmd_switch_etekcity W argc argv o =
     ([Stderr "Device '%s' has no switchable profiles\n"
         [ArgStr (device_name (device_of d))]],
      Ok (ERR_UNSUPPORTED, o)))
  /\ (device_capabilities (device_of d) RATBAG_DEVICE_CAP_SWITCHABLE_PROFILE = true ->
      (device_num_buttons (device_of (profile_device p)) <= 6)%nat ->
      snd (ratbag_cmd_switch_etekcity W argc argv o) = Undefined).
Proof.
  intros Hd Hp. split.
  - intros Hcap. by_twp. unfold ratbag_cmd_switch_etekcity.
    wsteps; zbool; try congruence. reflexivity.
  - intros Hcap Hn. apply wp_false_undefined.
    unfold wp, ratbag_cmd_switch_etekcity.
    wsteps; change (to_uint 6) with 6 in *; change (to_uint 7) with 7 in *;
      zbool; try lia; try congruence.
Qed.

(** ** [main] *)

Lemma parse_options_verbose W opts : forall o,
  forallb is_verbose opts = true ->
  parse_options W opts o =
    ([], Ok (inr tt,
             with_flags
               (fold_left (fun f opt => Z.lor f (if is_raw opt then FLAG_VERBOSE_RAW
                                                 else FLAG_VERBOSE))
                  opts (opt_flags o)) o)).
Proof.
  induction opts as [|opt opts IH]; intros o Hv.
  - destruct o; reflexivity.
  - destruct opt as [optarg| |]; try discriminate Hv.
    cbn [parse_options fold_left is_raw]. unfold bind at 1. unfold bind at 1.
    unfold options.
    assert (E : forall f, parse_options W opts (with_flags f o) =
                  ([], Ok (inr tt,
                     with_flags
                       (fold_left (fun f opt =>
                                     Z.lor f (if is_raw opt then FLAG_VERBOSE_RAW
                                              else FLAG_VERBOSE)) opts f) o))).
    { intros f. rewrite IH by exact Hv. reflexivity. }
    destruct optarg as [a|]; [destruct (streq a "raw")|];
      unfold update; rewrite E; reflexivity.
Qed.




Lemma main_no_command_run W opts :
  create_context W = true -> forallb is_verbose opts = true ->
  twp (main_body W opts []) options_zero
    (fun t rc _ =>
       t = [Acquire HContext; Release HContext] ++ usage W /\ rc = ERR_USAGE).
Proof.
  intros Hc Hv. unfold twp, main_body. rewrite Hc. cbn [negb].
  wstep. wstep. wstep. wstep. wstep. wstep. wstep.
  eapply wpx_run; [apply parse_options_verbose; exact Hv|].
  wsteps;
    try match goal with
        | H : _ = Some _ |- _ =>
            cbn [resolution profile device with_flags with_button options_zero] in H;
            discriminate H
        end.
  split; [|reflexivity].
  cbn [app]. rewrite ?app_nil_r. reflexivity.
Qed.

(** X21: what [main] does when there is nothing to dispatch.  When the
    library context cannot be created it writes "Failed to initialize
    ratbag" to standard error and returns [ERR_DEVICE]; options and tokens
    are not looked at, nothing is taken or released, and the usage text is
    not printed.  Without a command - only [--verbose] options on the
    command line - it returns [ERR_USAGE] and prints the usage text, after
    the library context has been released; the log priority is not set. *)
Theorem main_without_command W opts tokens :
  (create_context W = false ->
   main W opts tokens =
     ([Stderr "Failed to initialize ratbag\n" []], Ok (ERR_DEVICE, options_zero)))
  /\ (create_context W = true -> forallb is_verbose opts = true ->
      fst (main W opts []) = [Acquire HContext; Release HContext] ++ usage W
      /\ exit_code (main W opts []) = Some ERR_USAGE).
Proof.
  split.
  - intros Hc. unfold main, main_body. rewrite Hc. reflexivity.
  - intros Hc Hv.
    destruct (twp_run _ _ _ (main_no_command_run W opts Hc Hv))
      as (t & rc & o' & E & -> & ->).
    unfold main, exit_code. rewrite E. split; reflexivity.
Qed.

Lemma has_flag_lor_l a b m : has_flag (Z.lor a b) m = has_flag a m || has_flag b m.
Proof.
  unfold has_flag. rewrite Z.land_lor_distr_l.
  destruct (Z.eqb_spec (Z.land a m) 0) as [Ea|Ea];
    destruct (Z.eqb_spec (Z.land b m) 0) as [Eb|Eb];
    destruct (Z.eqb_spec (Z.lor (Z.land a m) (Z.land b m)) 0) as [E|E];
    try reflexivity; exfalso.
  - apply E. rewrite Ea, Eb. reflexivity.
  - apply Z.lor_eq_0_iff in E. tauto.
  - apply Z.lor_eq_0_iff in E. tauto.
  - apply Z.lor_eq_0_iff in E. tauto.
Qed.

Lemma verbosity_flags opts : forall f,
  forallb is_verbose opts = true ->
  let flags := fold_left (fun f opt => Z.lor f (if is_raw opt then FLAG_VERBOSE_RAW
                                                else FLAG_VERBOSE)) opts f in
  has_flag flags FLAG_VERBOSE_RAW = has_flag f FLAG_VERBOSE_RAW || existsb is_raw opts
  /\ has_flag flags FLAG_VERBOSE
     = has_flag f FLAG_VERBOSE || existsb (fun opt => negb (is_raw opt)) opts.
Proof.
  induction opts as [|opt opts IH]; intros f Hv; cbn [fold_left existsb].
  - rewrite !orb_false_r. auto.
  - cbn [forallb] in Hv. apply andb_prop in Hv as [_ Hv].
    destruct (IH (Z.lor f (if is_raw opt then FLAG_VERBOSE_RAW else FLAG_VERBOSE)) Hv)
      as [H1 H2].
    cbv zeta in H1, H2. rewrite H1, H2, !has_flag_lor_l.
    destruct (is_raw opt); cbn [negb];
      change (has_flag FLAG_VERBOSE_RAW FLAG_VERBOSE_RAW) with true;
      change (has_flag FLAG_VERBOSE_RAW FLAG_VERBOSE) with false;
      change (has_flag FLAG_VERBOSE FLAG_VERBOSE_RAW) with false;
      change (has_flag FLAG_VERBOSE FLAG_VERBOSE) with true;
      rewrite ?orb_false_r, ?orb_true_r, <- ?orb_assoc; cbn [orb]; auto.
Qed.

Lemma bind_fst {A B} (m : M A) (k : A -> M B) o :
  fst (bind m k o) =
    fst (m o) ++ match snd (m o) with
                 | Ok (a, o') => fst (k a o')
                 | Undefined => []
                 end.
Proof.
  unfold bind. destruct (m o) as [t [[a o']|]]; cbn [fst snd].
  - destruct (k a o') as [t' r]. reflexivity.
  - rewrite app_nil_r. reflexivity.
Qed.

(** X22: the log priority is set once, after the options and before the
    command is dispatched, and [--verbose=raw] wins wherever it stands
    among the [--verbose] options: raw if one of them is [--verbose=raw],
    debug if there are only others, and not at all without any.  The
    trace of [main] begins with the reference to the library context, this
    call, and the trace of [run_subcommand] on the whole token list - with
    an empty context that carries the verbosity flags and the button index
    -1 -, whatever the command then does. *)
Theorem main_sets_log_priority W opts c ts :
  create_context W = true -> forallb is_verbose opts = true ->
  let o1 :=
    {| opt_flags :=
         fold_left (fun f opt => Z.lor f (if is_raw opt then FLAG_VERBOSE_RAW
                                          else FLAG_VERBOSE)) opts 0;
       device := None; profile := None; resolution := None; button := -1 |} in
  exists t',
    fst (main W opts (c :: ts)) =
      Acquire HContext
      :: (if existsb is_raw opts then [Call (log_set_priority true)]
          else if existsb is_verbose opts then [Call (log_set_priority false)]
          else [])
      ++ fst (run_subcommand W (Some c) ratbag_commands
                (Z.of_nat (List.length (c :: ts))) (c :: ts) o1)
      ++ t'.
Proof.
  intros Hc Hv o1. unfold main, main_body. rewrite Hc. cbn [negb].
  rewrite bind_fst. cbn [emit fst snd app].
  rewrite bind_fst. cbn [update fst snd app].
  rewrite bind_fst. cbn [update fst snd app].
  rewrite bind_fst, parse_options_verbose by exact Hv. cbn [fst snd app].
  rewrite bind_fst. cbn [options fst snd app].
  rewrite bind_fst.
  destruct (verbosity_flags opts 0 Hv) as [Hraw Hdbg]. cbv zeta in Hraw, Hdbg.
  change (has_flag 0 FLAG_VERBOSE_RAW) with false in Hraw.
  change (has_flag 0 FLAG_VERBOSE) with false in Hdbg. cbn [orb] in Hraw, Hdbg.
  cbn [opt_flags with_flags with_button options_zero].
  rewrite Hraw, Hdbg.
  change (arg_at (c :: ts) 0) with (Some c).
  assert (Hv' : existsb is_raw opts = false ->
                existsb (fun opt => negb (is_raw opt)) opts = existsb is_verbose opts).
  { clear -Hv. intros Eraw. induction opts as [|opt opts IH]; [reflexivity|].
    cbn [existsb forallb] in *. apply andb_prop in Hv as [Hv1 Hv2].
    apply orb_false_elim in Eraw as [E1 E2].
    rewrite E1, Hv1. reflexivity. }
  destruct (existsb is_raw opts) eqn:Eraw;
    [|rewrite (Hv' eq_refl); unfold when; destruct (existsb is_verbose opts)];
    cbn [emit ret fst snd]; rewrite bind_fst; eexists; reflexivity.
Qed.

Lemma wp_any {A} (m : M A) o : wp m o (fun _ _ _ => True).
Proof. unfold wp, wpx. destruct (m o) as [t [[a o']|]]; exact I. Qed.





(** ** Exit codes *)

Lemma fill_options_code W flags argc argv o :
  wp (fill_options W flags argc argv) o
    (fun _ r _ => fst r = SUCCESS \/ fst r = ERR_DEVICE).
Proof.
  wcall (fill_options_spec True W flags argc argv o (or_introl I)).
  intros (nd & np & nr & _ & _ & _ & H & _). exact H.
Qed.

Lemma active_index_from_code device n o : forall i,
  wp (active_index_from device i n) o (fun _ r _ => 0 <= snd r <= 3).
Proof.
  unfold wp. induction n as [|n IH]; intros i; cbn [active_index_from].
  - apply wpx_ret. cbn. unfold ERR_DEVICE. lia.
  - wsteps.
    + cbn. unfold SUCCESS. lia.
    + wcall (IH (i + 1)). auto.
Qed.

Section Codes.

Context (W : collaborator).

Ltac code_solve :=
  try (zbool; unfold SUCCESS, ERR_USAGE, ERR_UNSUPPORTED, ERR_DEVICE in *; lia).

Lemma leaf_code f run argc argv o :
  is_leaf f = true ->
  wp (call_handler W f run argc argv) o (fun _ rc _ => 0 <= rc <= 3).
Proof.
  destruct f; try discriminate; intros _; cbn [call_handler].
  - destruct (device o) as [d|] eqn:Hd.
    + apply twp_wp. eapply wpx_mono; [apply (info_reads argc argv o d Hd)|].
      cbv beta. intros t rc o' (-> & _). code_solve.
    + unfold wp, ratbag_cmd_info. wstep. wstep. cbv zeta. rewrite Hd. wsteps.
  - unfold wp, ratbag_cmd_switch_etekcity. wsteps; code_solve.
  - eapply wpx_mono; [apply change_button_frame|]. cbv beta. intros t rc o' [_ H].
    exact H.
  - unfold wp, ratbag_cmd_list_supported_devices. wsteps; code_solve.
  - unfold wp, ratbag_cmd_resolution_active_set. wsteps; code_solve.
  - unfold wp, ratbag_cmd_resolution_active_get. wsteps; code_solve.
  - unfold wp, ratbag_cmd_resolution_dpi_get. wsteps; code_solve.
  - unfold wp, ratbag_cmd_resolution_dpi_set. wsteps; code_solve.
  - unfold wp, ratbag_cmd_profile_active_set. wsteps; code_solve.
  - unfold wp, ratbag_cmd_profile_active_get. wsteps; code_solve.
    wcall (active_index_from_code (Some r) (Z.to_nat (Z.of_nat (List.length (device_profiles (device_of r))))) o 0).
    intros Hrc. destruct a as [[pr idx] rc]. cbn [snd] in Hrc. wsteps; exact Hrc.
Qed.

Lemma call_handler_code f run argc argv o :
  (forall command argc argv o1,
     wp (run command argc argv) o1 (fun _ rc _ => 0 <= rc <= 3)) ->
  wp (call_handler W f run argc argv) o (fun _ rc _ => 0 <= rc <= 3).
Proof.
  intros Hrun.
  destruct (is_leaf f) eqn:Hleaf; [apply leaf_code, Hleaf|].
  destruct f; try discriminate Hleaf; cbn [call_handler].
  - unfold wp, ratbag_cmd_resolution_active. wsteps; code_solve. apply Hrun.
  - unfold wp, ratbag_cmd_resolution_dpi. wsteps; code_solve. apply Hrun.
  - unfold wp, ratbag_cmd_resolution. wsteps; code_solve; try apply Hrun.
    destruct (profile o) as [p|]; [|apply get_active_resolution_null].
    wcall (get_active_resolution_spec p). intros (-> & _).
    wsteps; code_solve. apply Hrun.
  - unfold wp, ratbag_cmd_button. wsteps; code_solve; apply Hrun.
  - unfold wp, ratbag_cmd_profile_active. wsteps; code_solve. apply Hrun.
  - unfold wp, ratbag_cmd_profile. wsteps; code_solve; try apply Hrun.
    destruct (device o) as [d|]; [|apply get_active_profile_null].
    wcall (get_active_profile_spec d). intros (-> & _).
    wsteps; code_solve. apply Hrun.
Qed.

Lemma run_subcommand_on_code call subs command argc argv o :
  Forall (fun sub => forall argc argv o1,
            wp (call sub argc argv) o1 (fun _ rc _ => 0 <= rc <= 3)) subs ->
  wp (run_subcommand_on W call command subs argc argv) o
    (fun _ rc _ => 0 <= rc <= 3).
Proof.
  intros Hsubs. destruct command as [c|].
  - unfold wp, wpx. rewrite run_subcommand_on_find.
    destruct (List.find _ subs) as [sub|] eqn:Hfind.
    + apply List.find_some in Hfind as [Hin _].
      rewrite Forall_forall in Hsubs.
      change (wpx True (enter_subcommand W call sub argc argv) o
                (fun _ rc _ => 0 <= rc <= 3)).
      unfold enter_subcommand. wstep.
      wcall (fill_options_code W (flags sub) argc argv o). intros Hrc.
      destruct a as [rc argc']. cbn [fst] in Hrc.
      wsteps; [destruct Hrc as [-> | ->]; code_solve | apply Hsubs, Hin].
    + change (wpx True (invalid_subcommand (Some c)) o (fun _ rc _ => 0 <= rc <= 3)).
      unfold invalid_subcommand. wsteps. code_solve.
  - unfold wp, run_subcommand_on, invalid_subcommand.
    destruct subs; wsteps. code_solve.
Qed.

Lemma call_code c : forall argc argv o,
  wp (call W c argc argv) o (fun _ rc _ => 0 <= rc <= 3).
Proof.
  induction c as [n f a h fl subs IH] using ratbag_cmd_tree_ind.
  intros argc argv o. rewrite call_unfold. cbn [cmd subcommands].
  destruct f as [f|]; [|exact I].
  apply call_handler_code. intros command argc' argv' o1.
  apply run_subcommand_on_code. exact IH.
Qed.

Lemma main_code opts tokens :
  wp (main_body W opts tokens) options_zero (fun _ rc _ => 0 <= rc <= 3).
Proof.
  unfold wp, main_body. wsteps; code_solve.
  wcall (wp_any (parse_options W opts)). intros _.
  wsteps; code_solve.
  all: eapply wpx_mono;
    [apply run_subcommand_on_code; rewrite Forall_forall; intros sub _;
     apply call_code|];
    cbv beta; intros t1 rc1 o1 Hrc; wsteps; exact Hrc.
Qed.

End Codes.

(** X24: whenever it returns, [main] returns one of the four codes of
    [enum errors] - 0, 1, 2 or 3 -, on every command tree path and
    whatever the library calls return: a failing library call is turned
    into [ERR_UNSUPPORTED] or [ERR_DEVICE], never passed on as it is.  The
    same holds for [run_subcommand] on any command tree. *)
Theorem exit_codes W :
  (forall opts tokens t rc o,
     main W opts tokens = (t, Ok (rc, o)) ->
     rc = SUCCESS \/ rc = ERR_UNSUPPORTED \/ rc = ERR_USAGE \/ rc = ERR_DEVICE)
  /\ (forall command cmd0 argc argv o t rc o',
        run_subcommand W command cmd0 argc argv o = (t, Ok (rc, o')) ->
        rc = SUCCESS \/ rc = ERR_UNSUPPORTED \/ rc = ERR_USAGE \/ rc = ERR_DEVICE).
Proof.
  assert (Hc : forall rc, 0 <= rc <= 3 ->
            rc = SUCCESS \/ rc = ERR_UNSUPPORTED \/ rc = ERR_USAGE \/ rc = ERR_DEVICE).
  { intros rc H. unfold SUCCESS, ERR_UNSUPPORTED, ERR_USAGE, ERR_DEVICE. lia. }
  split.
  - intros opts tokens t rc o E. apply Hc.
    exact (wp_run _ _ _ _ _ _ (main_code W opts tokens) E).
  - intros command cmd0 argc argv o t rc o' E. apply Hc.
    refine (wp_run (run_subcommand W command cmd0 argc argv) o
              (fun _ rc _ => 0 <= rc <= 3) t rc o' _ E).
    apply run_subcommand_on_code. rewrite Forall_forall. intros sub _.
    apply call_code.
Qed.

(** ** Whole runs *)

Lemma fill_options_profile_run W flags argc argv path st i pst o :
  has_flag flags (Z.lor FLAG_NEED_PROFILE FLAG_NEED_RESOLUTION) = true ->
  has_flag flags FLAG_NEED_RESOLUTION = false ->
  device o = None -> profile o = None ->
  argc <> 0 -> arg_at argv (argc - 1) = Some path -> open_device W path = Some st ->
  Z.of_nat (List.length (device_profiles st)) < 2 ^ 31 ->
  first_active_profile (device_profiles st) = Some (i, pst) ->
  let d := {| device_path := path; device_of := st |} in
  let p := {| profile_device := d; profile_index := i; profile_of := pst |} in
  fill_options W flags argc argv o =
    ([Acquire (HDevice path)]
       ++ scanned (HProfile path) 0 i ++ [Acquire (HProfile path i)],
     Ok ((SUCCESS, argc - 1), with_profile (Some p) (with_device (Some d) o))).
Proof.
  intros Hpr Hres Hd Hp Hargc Hpath Hopen Hlp Hfp d p.
  pose proof (has_flag_profile_any flags Hpr) as Hany.
  by_twp. unfold fill_options. wstep. wstep. cbv beta match zeta.
  rewrite Hany, Hd, Hp. cbn [is_null andb].
  wstep. eapply wpx_run; [apply (device_from_arg_opens W argc argv path st); assumption|].
  cbv beta match zeta. cbn [is_null]. wstep. wstep.
  unfold fill_profile. rewrite Hpr. cbn [is_null andb].
  wstep. eapply wpx_run.
  { rewrite (get_active_profile_find d) by exact Hlp.
    cbn [device_of d]. rewrite Hfp. reflexivity. }
  cbn [is_null]. wstep. wstep.
  unfold fill_resolution. rewrite Hres. cbn [andb].
  wsteps. cbn [app]. rewrite ?app_nil_r. reflexivity.
Qed.

(** Going from a node to the entry named [c]. *)
Ltac dispatch sub :=
  cbv beta match zeta;
  lazymatch goal with
  | |- wpx ?U (run_subcommand ?W (Some ?c) ?cmd0 ?argc ?argv) ?o ?Q =>
      apply (wpx_ext U _ (enter_subcommand W (call W) sub argc argv));
      [rewrite run_subcommand_find; reflexivity|]
  | |- wpx ?U (run_subcommand_on ?W ?call (Some ?c) ?subs ?argc ?argv) ?o ?Q =>
      apply (wpx_ext U _ (enter_subcommand W call sub argc argv));
      [rewrite run_subcommand_on_find; reflexivity|]
  end;
  unfold enter_subcommand.

Ltac trace_eq :=
  unfold resolution_handle, profile_handle, device_handle;
  cbn [resolution_of resolution_profile resolution_index profile_device
       profile_index profile_of device_path device_of];
  rewrite ?app_nil_r;
  repeat first [rewrite <- app_assoc | progress cbn [app]];
  reflexivity.

Ltac steps :=
  repeat (cbn [resolution profile device with_resolution with_profile with_device
               with_button with_flags options_zero];
          autounfold with tool; wstep).

Lemma dpi_get_run W path st i pst j rst :
  create_context W = true -> open_device W path = Some st ->
  Z.of_nat (List.length (device_profiles st)) < 2 ^ 31 ->
  first_active_profile (device_profiles st) = Some (i, pst) ->
  Z.of_nat (List.length (profile_resolutions pst)) < 2 ^ 31 ->
  first_active_resolution (profile_resolutions pst) = Some (j, rst) ->
  twp (main_body W [] ["dpi"; "get"; path]) options_zero
    (fun t rc _ =>
       t = [Acquire HContext; Acquire (HDevice path)]
             ++ scanned (HProfile path) 0 i ++ [Acquire (HProfile path i)]
             ++ scanned (HResolution path i) 0 j
             ++ [Acquire (HResolution path i j);
                 Stdout "%d\n" [ArgInt (resolution_dpi rst)];
                 Release (HResolution path i j); Release (HProfile path i);
                 Release (HDevice path); Release HContext]
       /\ rc = SUCCESS).
Proof.
  intros Hc Hopen Hlp Hfp Hlr Hfr. unfold twp, main_body. rewrite Hc.
  cbn [negb parse_options].
  wsteps.
  change (arg_at ["dpi"; "get"; path] 0) with (Some "dpi").
  change (Z.of_nat (List.length ["dpi"; "get"; path])) with 3.
  dispatch cmd_resolution_dpi.
  wstep. eapply wpx_run.
  { apply (fill_options_all_run W (flags cmd_resolution_dpi) 3 ["dpi"; "get"; path]
             path st i pst j rst); try reflexivity; try assumption; discriminate. }
  cbv beta match zeta.
  wstep. rewrite call_unfold.
  cbn [cmd subcommands call_handler cmd_resolution_dpi].
  unfold ratbag_cmd_resolution_dpi.
  change (3 - 1 - 1) with 1. change (list.tail ["dpi"; "get"; path]) with ["get"; path].
  change (arg_at ["get"; path] 0) with (Some "get").
  wstep.
  dispatch cmd_resolution_dpi_get.
  wstep. eapply wpx_run.
  { apply fill_options_cached; intros _; discriminate. }
  cbv beta match zeta. wstep. rewrite call_unfold.
  cbn [cmd subcommands call_handler cmd_resolution_dpi_get].
  unfold ratbag_cmd_resolution_dpi_get.
  steps. split; [trace_eq | reflexivity].
Qed.

Lemma resolution_dpi_get_run W path st i pst j rst :
  create_context W = true -> open_device W path = Some st ->
  Z.of_nat (List.length (device_profiles st)) < 2 ^ 31 ->
  first_active_profile (device_profiles st) = Some (i, pst) ->
  Z.of_nat (List.length (profile_resolutions pst)) < 2 ^ 31 ->
  first_active_resolution (profile_resolutions pst) = Some (j, rst) ->
  twp (main_body W [] ["resolution"; "dpi"; "get"; path]) options_zero
    (fun t rc _ =>
       t = [Acquire HContext; Acquire (HDevice path)]
             ++ scanned (HProfile path) 0 i ++ [Acquire (HProfile path i)]
             ++ scanned (HResolution path i) 0 j
             ++ [Acquire (HResolution path i j);
                 Stdout "%d\n" [ArgInt (resolution_dpi rst)];
                 Release (HResolution path i j); Release (HProfile path i);
                 Release (HDevice path); Release HContext]
       /\ rc = SUCCESS).
Proof.
  intros Hc Hopen Hlp Hfp Hlr Hfr. unfold twp, main_body. rewrite Hc.
  cbn [negb parse_options].
  wsteps.
  change (arg_at ["resolution"; "dpi"; "get"; path] 0) with (Some "resolution").
  change (Z.of_nat (List.length ["resolution"; "dpi"; "get"; path])) with 4.
  dispatch cmd_resolution.
  wstep. eapply wpx_run.
  { apply (fill_options_profile_run W (flags cmd_resolution) 4
             ["resolution"; "dpi"; "get"; path] path st i pst);
      try reflexivity; try assumption; discriminate. }
  cbv beta match zeta.
  wstep. rewrite call_unfold.
  cbn [cmd subcommands call_handler cmd_resolution].
  unfold ratbag_cmd_resolution.
  change (4 - 1 - 1) with 2.
  change (list.tail ["resolution"; "dpi"; "get"; path]) with ["dpi"; "get"; path].
  change (arg_at ["dpi"; "get"; path] 0) with (Some "dpi").
  wstep. wstep. wstep. wstep. wstep. cbv beta match zeta.
  cbn [profile with_profile with_device].
  wstep. cbv beta match zeta. wstep.
  eapply wpx_run.
  { rewrite get_active_resolution_find by exact Hlr.
    cbv zeta. cbn [profile_of]. rewrite Hfr. reflexivity. }
  cbn [is_null]. wstep. wstep.
  dispatch cmd_resolution_dpi.
  wstep. eapply wpx_run.
  { apply fill_options_cached; intros _; discriminate. }
  cbv beta match zeta. wstep. rewrite call_unfold.
  cbn [cmd subcommands call_handler cmd_resolution_dpi].
  unfold ratbag_cmd_resolution_dpi.
  change (2 - 1) with 1. change (list.tail ["dpi"; "get"; path]) with ["get"; path].
  change (arg_at ["get"; path] 0) with (Some "get").
  wstep.
  dispatch cmd_resolution_dpi_get.
  wstep. eapply wpx_run.
  { apply fill_options_cached; intros _; discriminate. }
  cbv beta match zeta. wstep. rewrite call_unfold.
  cbn [cmd subcommands call_handler cmd_resolution_dpi_get].
  unfold ratbag_cmd_resolution_dpi_get.
  steps. split; [trace_eq | reflexivity].
Qed.

(** X25: two command lines, one result.  On a device that opens, with an
    active profile that has an active resolution, [dpi get PATH] and
    [resolution dpi get PATH] do the same: open the device named by the
    last token, look for the first active profile, then for its first
    active resolution, print that resolution's dpi, and release the
    resolution, the profile, the device and the library context, in this
    order; the exit code is 0.  On the longer path every node after the
    first finds what it needs in the context and resolves nothing again. *)
Theorem dpi_get_end_to_end W path st i pst j rst :
  create_context W = true -> open_device W path = Some st ->
  Z.of_nat (List.length (device_profiles st)) < 2 ^ 31 ->
  first_active_profile (device_profiles st) = Some (i, pst) ->
  Z.of_nat (List.length (profile_resolutions pst)) < 2 ^ 31 ->
  first_active_resolution (profile_resolutions pst) = Some (j, rst) ->
  let t := [Acquire HContext; Acquire (HDevice path)]
             ++ scanned (HProfile path) 0 i ++ [Acquire (HProfile path i)]
             ++ scanned (HResolution path i) 0 j
             ++ [Acquire (HResolution path i j);
                 Stdout "%d\n" [ArgInt (resolution_dpi rst)];
                 Release (HResolution path i j); Release (HProfile path i);
                 Release (HDevice path); Release HContext] in
  fst (main W [] ["dpi"; "get"; path]) = t
  /\ exit_code (main W [] ["dpi"; "get"; path]) = Some SUCCESS
  /\ fst (main W [] ["resolution"; "dpi"; "get"; path]) = t
  /\ exit_code (main W [] ["resolution"; "dpi"; "get"; path]) = Some SUCCESS.
Proof.
  intros Hc Hopen Hlp Hfp Hlr Hfr t.
  destruct (twp_run _ _ _ (dpi_get_run W path st i pst j rst Hc Hopen Hlp Hfp Hlr Hfr))
    as (t1 & rc1 & o1 & E1 & -> & ->).
  destruct (twp_run _ _ _
              (resolution_dpi_get_run W path st i pst j rst Hc Hopen Hlp Hfp Hlr Hfr))
    as (t2 & rc2 & o2 & E2 & -> & ->).
  unfold main, exit_code. rewrite E1, E2. splits; reflexivity.
Qed.


Lemma profile_then_path_run W tok path st pst :
  create_context W = true -> open_device W path = Some st ->
  strtod_full tok = true ->
  at_index (device_profiles st) (strtod_int W tok) = Some pst ->
  path <> "active" -> path <> "resolution" -> path <> "button" ->
  let k := Z.to_nat (to_uint (strtod_int W tok)) in
  twp (main_body W [] ["profile"; tok; path]) options_zero
    (fun t rc _ =>
       t = [Acquire HContext; Acquire (HDevice path); Acquire (HProfile path k);
            Stderr "Invalid subcommand '%s'\n" [ArgStr path];
            Release (HProfile path k); Release (HDevice path); Release HContext]
             ++ usage W
       /\ rc = ERR_USAGE).
Proof.
  intros Hc Hopen Hfull Hat Ha Hr Hb k. unfold twp, main_body. rewrite Hc.
  cbn [negb parse_options].
  wsteps.
  change (arg_at ["profile"; tok; path] 0) with (Some "profile").
  change (Z.of_nat (List.length ["profile"; tok; path])) with 3.
  dispatch cmd_profile.
  wstep. eapply wpx_run.
  { unfold fill_options.
    change (has_flag (flags cmd_profile) need_any) with true.
    unfold fill_profile, fill_resolution.
    change (has_flag (flags cmd_profile) (Z.lor FLAG_NEED_PROFILE FLAG_NEED_RESOLUTION))
      with false.
    change (has_flag (flags cmd_profile) FLAG_NEED_RESOLUTION) with false.
    cbn [andb is_null]. unfold bind at 1. unfold options at 1.
    cbn [device profile resolution with_button with_flags options_zero is_null andb].
    unfold bind at 1.
    rewrite (device_from_arg_opens W 3 ["profile"; tok; path] path st);
      [|discriminate|reflexivity|exact Hopen].
    reflexivity. }
  cbv beta match zeta. wstep. rewrite call_unfold.
  cbn [cmd subcommands call_handler cmd_profile].
  unfold ratbag_cmd_profile.
  change (3 - 1 - 1) with 1.
  change (list.tail ["profile"; tok; path]) with [tok; path].
  change (arg_at [tok; path] 0) with (Some tok).
  steps; try congruence;
    try (cbn [device_of] in *; congruence).
  change (arg_at (list.tail [tok; path]) 0) with (Some path).
  apply (wpx_ext _ _ (invalid_subcommand (Some path))).
  { rewrite run_subcommand_on_find.
    cbn [List.find name cmd_profile_active cmd_resolution cmd_button]. unfold streq.
    rewrite (proj2 (String.eqb_neq _ _) Ha), (proj2 (String.eqb_neq _ _) Hr),
      (proj2 (String.eqb_neq _ _) Hb).
    reflexivity. }
  unfold invalid_subcommand. steps.
  split; [|reflexivity]. subst k. trace_eq.
Qed.

(** X26: a device path that [fill_options] has taken is still read as a
    token afterwards.  In [profile N PATH] - an index, but no subcommand -
    the [profile] node drops the index and reads the next entry of the
    token vector as the subcommand name without looking at the token
    count, which is 0 by then: the device path is looked up among the
    subcommands, the run fails with "Invalid subcommand" naming the device
    path, and [main] returns [ERR_USAGE] and prints the usage text, after
    releasing the profile and the device it had opened. *)
Theorem profile_index_then_path W tok path st pst :
  create_context W = true -> open_device W path = Some st ->
  strtod_full tok = true ->
  at_index (device_profiles st) (strtod_int W tok) = Some pst ->
  path <> "active" -> path <> "resolution" -> path <> "button" ->
  let k := Z.to_nat (to_uint (strtod_int W tok)) in
  fst (main W [] ["profile"; tok; path]) =
    [Acquire HContext; Acquire (HDevice path); Acquire (HProfile path k);
     Stderr "Invalid subcommand '%s'\n" [ArgStr path];
     Release (HProfile path k); Release (HDevice path); Release HContext]
      ++ usage W
  /\ exit_code (main W [] ["profile"; tok; path]) = Some ERR_USAGE.
Proof.
  intros Hc Hopen Hfull Hat Ha Hr Hb k.
  destruct (twp_run _ _ _
              (profile_then_path_run W tok path st pst Hc Hopen Hfull Hat Ha Hr Hb))
    as (t & rc & o & E & -> & ->).
  unfold main, exit_code. rewrite E. split; reflexivity.
Qed.

(** ** The usage text *)

Lemma substring_length s : forall n,
  String.length (String.substring 0 n s) = Nat.min n (String.length s).
Proof.
  induction s as [|c s IH]; intros [|n]; cbn; auto.
Qed.

Lemma printf_precision_length precision s :
  strlen (printf_precision precision s) =
    if precision <? 0 then strlen s else Z.min precision (strlen s).
Proof.
  unfold printf_precision, strlen.
  destruct (Z.ltb_spec precision 0); [reflexivity|].
  rewrite substring_length. lia.
Qed.

(** X27: how many dots a row of the usage text shows.  For a node with a
    help text the column is 40 less the length of its name and, if it takes
    arguments, of a blank and its argument hint, but at least 4; from this
    the length of the prefix - the names and argument hints of the nodes
    above - is taken off, and the result is the precision given to
    [printf] for the string of 41 dots: the row shows that many dots, at
    most 41, and all 41 when the result is negative.  A long prefix thus
    first eats the dots up and then, once it exceeds the column, brings
    all of them back. *)
Theorem usage_row_dots sub prefix h :
  help sub = Some h ->
  strlen (name sub) < 2 ^ 30 ->
  match args sub with Some a => strlen a < 2 ^ 30 | None => True end ->
  strlen prefix < 2 ^ 30 ->
  let width := 40 - strlen (name sub)
                 - match args sub with Some a => 1 + strlen a | None => 0 end in
  let precision := Z.max 4 width - strlen prefix in
  exists e,
    usage_line sub prefix = [e]
    /\ usage_row e =
         Some (prefix, name sub, if precision <? 0 then 41 else Z.min precision 41).
Proof.
  intros Hh Hn Ha Hp width precision.
  unfold usage_line. rewrite Hh. eexists. split; [reflexivity|].
  cbn [usage_row]. rewrite printf_precision_length.
  change (strlen usage_dots) with 41.
  assert (Hc : usage_count sub prefix = precision).
  { unfold usage_count, precision, width.
    assert (0 <= strlen (name sub)) by (unfold strlen; lia).
    assert (0 <= strlen prefix) by (unfold strlen; lia).
    rewrite (to_int_small (40 - _)) by lia.
    destruct (args sub) as [a|].
    - assert (0 <= strlen a) by (unfold strlen; lia).
      rewrite (to_int_small (_ - (1 + _))) by lia.
      destruct (Z.ltb_spec (40 - strlen (name sub) - (1 + strlen a)) 4);
        rewrite to_int_small by lia; lia.
    - destruct (Z.ltb_spec (40 - strlen (name sub)) 4);
        rewrite to_int_small by lia; lia. }
  rewrite Hc. reflexivity.
Qed.

(** ** Which tokens are indices *)

Lemma digit_not_space c : is_digit c = true -> is_space c = false.
Proof.
  destruct c as [[] [] [] [] [] [] [] []]; vm_compute; congruence.
Qed.

Lemma digit_not_sign c :
  is_digit c = true -> (Ascii.eqb c "+" || Ascii.eqb c "-")%bool = false.
Proof.
  destruct c as [[] [] [] [] [] [] [] []]; vm_compute; congruence.
Qed.

Lemma sign_not_space c :
  (Ascii.eqb c "+" || Ascii.eqb c "-")%bool = true -> is_space c = false.
Proof.
  destruct c as [[] [] [] [] [] [] [] []]; vm_compute; congruence.
Qed.

Lemma skip_while_all p cs : forallb p cs = true -> skip_while p cs = [].
Proof.
  induction cs as [|c cs IH]; [reflexivity|]. cbn. intros H.
  apply andb_prop in H as [-> H]. auto.
Qed.

Lemma take_while_all p cs : forallb p cs = true -> take_while p cs = cs.
Proof.
  induction cs as [|c cs IH]; [reflexivity|]. cbn. intros H.
  apply andb_prop in H as [-> H]. rewrite IH by exact H. reflexivity.
Qed.

Lemma digits_are_a_float cs :
  cs <> [] -> forallb is_digit cs = true -> is_decimal_float cs = true.
Proof.
  intros Hne Hd. unfold is_decimal_float, mantissa_then.
  rewrite skip_while_all, take_while_all by exact Hd.
  destruct cs; [contradiction | reflexivity].
Qed.

Lemma integer_literal_converts s :
  is_integer_literal s = true -> strtod_full s = true.
Proof.
  unfold is_integer_literal, strtod_full.
  destruct (list_ascii_of_string s) as [|c cs]; [discriminate|].
  cbn [skip_sign skip_while].
  destruct (Ascii.eqb c "+" || Ascii.eqb c "-")%bool eqn:Hsign.
  - rewrite (sign_not_space c Hsign). cbn [skip_sign]. rewrite Hsign.
    intros H. apply andb_prop in H as [Hlen Hd].
    rewrite digits_are_a_float; [reflexivity | | exact Hd].
    destruct cs; [discriminate | discriminate].
  - intros H. apply andb_prop in H as [_ Hd].
    pose proof Hd as Hd'. cbn [forallb] in Hd'. apply andb_prop in Hd' as [Hc _].
    rewrite (digit_not_space c Hc). cbn [skip_sign]. rewrite Hsign.
    rewrite digits_are_a_float; [reflexivity | discriminate | exact Hd].
Qed.

(** X28: how the [resolution] node routes its first token.  A decimal
    integer literal - an optional sign and digits - always passes the
    [strtod] test, so it is taken as an explicit index: the resolution of
    that index is fetched from the profile of the context and the next
    token becomes the subcommand name.  A token on which the conversion
    fails, or does not reach the end, is kept as the subcommand name and
    the active resolution is looked for instead.  Nothing else happens to
    a token. *)
Theorem resolution_token_routing W run argc tok rest o :
  1 <= argc ->
  (is_integer_literal tok = true ->
   ratbag_cmd_resolution W run argc (tok :: rest) o =
     (resolution <- ratbag_profile_get_resolution (profile o) (strtod_int W tok);;
      if is_null resolution then
        error "Unable to retrieve resolution %d\n" [ArgInt (strtod_int W tok)];;
        ret ERR_UNSUPPORTED
      else
        update (with_resolution resolution);;
        run (arg_at rest 0) (argc - 1) rest)%C o)
  /\ (strtod_full tok = false ->
      ratbag_cmd_resolution W run argc (tok :: rest) o =
        (resolution <- ratbag_cmd_get_active_resolution (profile o);;
         if is_null resolution then ret ERR_DEVICE
         else
           update (with_resolution resolution);;
           run (Some tok) argc (tok :: rest))%C o).
Proof.
  intros Hargc. split; intros Htok; unfold ratbag_cmd_resolution;
    (destruct (Z.ltb_spec argc 1) as [|_]; [lia|]);
    rewrite bind_options;
    change (arg_at (tok :: rest) 0) with (Some tok);
    rewrite bind_deref_some.
  - rewrite (integer_literal_converts tok Htok). reflexivity.
  - rewrite Htok. reflexivity.
Qed.

(** * The further statements on the sample devices *)

Lemma get_active_profile_first_match_witness :
  Z.of_nat (List.length (device_profiles late_device)) < 2 ^ 31
  /\ ratbag_cmd_get_active_profile
       (Some {| device_path := sample_path; device_of := late_device |}) options_zero
     = ([Acquire (HProfile sample_path 0); Release (HProfile sample_path 0);
         Acquire (HProfile sample_path 1)],
        Ok (Some {| profile_device :=
                      {| device_path := sample_path; device_of := late_device |};
                    profile_index := 1; profile_of := sample_profile true |},
            options_zero)).
Proof.
  split; [reflexivity|].
  exact (get_active_profile_first_match
           {| device_path := sample_path; device_of := late_device |}
           options_zero eq_refl).
Defined.

Lemma get_active_resolution_first_match_witness :
  Z.of_nat (List.length (profile_resolutions (profile_of sample_profile_ptr))) < 2 ^ 31
  /\ ratbag_cmd_get_active_resolution (Some sample_profile_ptr) options_zero
     = ([Acquire (HResolution sample_path 0 0); Release (HResolution sample_path 0 0);
         Acquire (HResolution sample_path 0 1)],
        Ok (Some sample_resolution_ptr, options_zero)).
Proof.
  split; [reflexivity|].
  exact (get_active_resolution_first_match sample_profile_ptr options_zero eq_refl).
Defined.

Lemma fill_options_reuses_context_witness :
  device full_options <> None /\ profile full_options <> None
  /\ resolution full_options <> None
  /\ fill_options sample_world need_any 2 ["get"; sample_path] full_options
     = ([], Ok ((SUCCESS, 2), full_options)).
Proof.
  assert (Hd : device full_options <> None) by discriminate.
  assert (Hp : profile full_options <> None) by discriminate.
  assert (Hr : resolution full_options <> None) by discriminate.
  split; [exact Hd|]. split; [exact Hp|]. split; [exact Hr|].
  exact (fill_options_reuses_context sample_world need_any 2 ["get"; sample_path]
           full_options (fun _ => Hd) (fun _ => Hp) (fun _ => Hr)).
Defined.

Lemma fill_options_resolves_in_order_witness :
  has_flag need_any FLAG_NEED_RESOLUTION = true
  /\ open_device sample_world sample_path = Some sample_device
  /\ first_active_profile (device_profiles sample_device) = Some (0%nat, sample_profile true)
  /\ first_active_resolution (profile_resolutions (sample_profile true))
     = Some (1%nat, sample_resolution true 800)
  /\ fill_options sample_world need_any 3 ["dpi"; "get"; sample_path] options_zero
     = ([Acquire (HDevice sample_path); Acquire (HProfile sample_path 0);
         Acquire (HResolution sample_path 0 0); Release (HResolution sample_path 0 0);
         Acquire (HResolution sample_path 0 1)],
        Ok ((SUCCESS, 2),
            {| opt_flags := 0; device := Some sample_device_ptr;
               profile := Some sample_profile_ptr;
               resolution := Some sample_resolution_ptr; button := 0 |})).
Proof.
  split; [reflexivity|]. split; [reflexivity|]. split; [reflexivity|].
  split; [reflexivity|].
  refine (fill_options_resolves_in_order sample_world need_any 3
            ["dpi"; "get"; sample_path] sample_path sample_device 0
            (sample_profile true) 1 (sample_resolution true 800) options_zero
            eq_refl eq_refl eq_refl eq_refl _ eq_refl eq_refl eq_refl eq_refl
            eq_refl eq_refl).
  discriminate.
Defined.

Lemma fill_options_keeps_what_it_resolved_witness :
  first_active_profile (device_profiles idle_device) = None
  /\ fill_options (world_of idle_device) need_any 2 ["info"; sample_path] options_zero
     = ([Acquire (HDevice sample_path);
         Acquire (HProfile sample_path 0); Release (HProfile sample_path 0);
         Acquire (HProfile sample_path 1); Release (HProfile sample_path 1);
         Stderr "Failed to retrieve the active profile\n" []],
        Ok ((ERR_DEVICE, 1),
            with_device (Some {| device_path := sample_path; device_of := idle_device |})
              options_zero))
  /\ first_active_resolution (profile_resolutions flat_profile) = None
  /\ fill_options (world_of flat_device) need_any 2 ["info"; sample_path] options_zero
     = ([Acquire (HDevice sample_path); Acquire (HProfile sample_path 0);
         Acquire (HResolution sample_path 0 0); Release (HResolution sample_path 0 0);
         Acquire (HResolution sample_path 0 1); Release (HResolution sample_path 0 1);
         Stderr "Failed to retrieve the active resolution\n" []],
        Ok ((ERR_DEVICE, 1),
            with_profile
              (Some {| profile_device :=
                         {| device_path := sample_path; device_of := flat_device |};
                       profile_index := 0; profile_of := flat_profile |})
              (with_device
                 (Some {| device_path := sample_path; device_of := flat_device |})
                 options_zero))).
Proof.
  assert (Hargc : 2 <> 0) by discriminate.
  split; [reflexivity|]. split.
  - exact (proj1 (fill_options_keeps_what_it_resolved (world_of idle_device) need_any 2
                    ["info"; sample_path] sample_path idle_device options_zero
                    eq_refl eq_refl eq_refl Hargc eq_refl eq_refl eq_refl)
             eq_refl eq_refl).
  - split; [reflexivity|].
    exact (proj2 (fill_options_keeps_what_it_resolved (world_of flat_device) need_any 2
                    ["info"; sample_path] sample_path flat_device options_zero
                    eq_refl eq_refl eq_refl Hargc eq_refl eq_refl eq_refl)
             0%nat flat_profile eq_refl eq_refl eq_refl eq_refl).
Defined.

Lemma explicit_index_out_of_range_witness :
  strtod_full "5" = true
  /\ ratbag_cmd_profile sample_world accept_all 3 ["5"; "active"; "get"] sample_options
     = ([Stderr "Unable to find profile %d\n" [ArgInt 5]],
        Ok (ERR_UNSUPPORTED, sample_options))
  /\ ratbag_cmd_resolution sample_world accept_all 3 ["-1"; "dpi"; "get"] sample_options
     = ([Stderr "Unable to retrieve resolution %d\n" [ArgInt (-1)]],
        Ok (ERR_UNSUPPORTED, sample_options)).
Proof.
  split; [reflexivity|]. split.
  - refine (proj1 (explicit_index_out_of_range sample_world accept_all 3 "5"
                     ["active"; "get"] sample_options _ eq_refl _)
              sample_device_ptr eq_refl _ _).
    + lia.
    + vm_compute. split; [discriminate | reflexivity].
    + reflexivity.
    + right. vm_compute. discriminate.
  - refine (proj2 (explicit_index_out_of_range sample_world accept_all 3 "-1"
                     ["dpi"; "get"] sample_options _ eq_refl _)
              sample_profile_ptr eq_refl _ _).
    + lia.
    + vm_compute. split; [discriminate | reflexivity].
    + reflexivity.
    + left. reflexivity.
Defined.

Lemma button_node_is_a_usage_error_witness :
  call sample_world cmd_button 1 ["3"; sample_path] sample_options
    = ([], Ok (ERR_USAGE, sample_options))
  /\ call sample_world cmd_button 2 ["x"; "3"; sample_path] sample_options
     = ([Stderr "Invalid subcommand '%s'\n" [ArgStr "3"]],
        Ok (ERR_USAGE, with_button 3 sample_options)).
Proof.
  split.
  - apply (proj1 (button_node_is_a_usage_error sample_world 1 ["3"; sample_path]
                    sample_options)).
    lia.
  - apply (proj2 (button_node_is_a_usage_error sample_world 2 ["x"; "3"; sample_path]
                    sample_options) "3").
    + lia.
    + reflexivity.
Defined.

Lemma profile_active_get_first_active_witness :
  device (options_with late_device)
    = Some {| device_path := sample_path; device_of := late_device |}
  /\ ratbag_cmd_profile_active_get 0 [] (options_with late_device)
     = ([Acquire (HProfile sample_path 0); Release (HProfile sample_path 0);
         Acquire (HProfile sample_path 1); Stdout "%d\n" [ArgInt 1];
         Release (HProfile sample_path 1)],
        Ok (SUCCESS, options_with late_device)).
Proof.
  split; [reflexivity|].
  refine (profile_active_get_first_active 0 [] (options_with late_device)
            {| device_path := sample_path; device_of := late_device |}
            eq_refl eq_refl _ eq_refl).
  cbn. lia.
Defined.

Lemma profile_active_set_in_range_witness :
  0 <= atoi "1"
  /\ device_profiles sample_device !! Z.to_nat (atoi "1") = Some (sample_profile false)
  /\ ratbag_cmd_profile_active_set sample_world 1 ["1"; sample_path]
       (options_with sample_device)
     = ([Acquire (HProfile sample_path 1);
         Call (profile_set_active (HProfile sample_path 1));
         Stdout "Switched '%s' to profile '%d'\n" [ArgStr "Sample Mouse"; ArgInt 1];
         Release (HProfile sample_path 1)],
        Ok (SUCCESS, options_with sample_device)).
Proof.
  split; [vm_compute; discriminate|]. split; [reflexivity|].
  refine (profile_active_set_in_range sample_world "1" [sample_path]
            (options_with sample_device) sample_device_ptr (sample_profile false)
            eq_refl eq_refl eq_refl _ eq_refl).
  vm_compute. discriminate.
Defined.

Lemma profile_active_set_refusals_witness :
  ratbag_cmd_profile_active_set sample_world 2 ["1"; "2"] sample_options
    = ([], Ok (ERR_USAGE, sample_options))
  /\ ratbag_cmd_profile_active_set sample_world 1 ["1"] options_zero
     = ([], Ok (ERR_DEVICE, options_zero))
  /\ ratbag_cmd_profile_active_set sample_world 1 ["1"] (options_with plain_device)
     = ([Stderr "Device '%s' has no switchable profiles\n" [ArgStr "Plain Mouse"]],
        Ok (ERR_UNSUPPORTED, options_with plain_device))
  /\ ratbag_cmd_profile_active_set sample_world 1 ["7"] sample_options
     = ([Stderr "'%d' is not a valid profile\n" [ArgInt 7]],
        Ok (ERR_UNSUPPORTED, sample_options)).
Proof.
  split; [|split; [|split]].
  - apply (proj1 (profile_active_set_refusals sample_world 2 ["1"; "2"] sample_options)).
    discriminate.
  - apply (proj1 (proj2 (profile_active_set_refusals sample_world 1 ["1"] options_zero)
                    "1" [] eq_refl eq_refl)).
    reflexivity.
  - apply (proj1 (proj2 (proj2 (profile_active_set_refusals sample_world 1 ["1"]
                                  (options_with plain_device))
                           "1" [] eq_refl eq_refl))
             {| device_path := sample_path; device_of := plain_device |});
      reflexivity.
  - apply (proj2 (proj2 (proj2 (profile_active_set_refusals sample_world 1 ["7"]
                                  sample_options)
                           "7" [] eq_refl eq_refl))
             sample_device_ptr); reflexivity.
Defined.

Lemma resolution_dpi_set_cases_witness :
  device full_options = Some sample_device_ptr
  /\ resolution full_options = Some sample_resolution_ptr
  /\ ratbag_cmd_resolution_dpi_set sample_world 1 ["1200"; sample_path] full_options
     = ([Call (resolution_set_dpi (HResolution sample_path 0 1) 1200)],
        Ok (SUCCESS, full_options)).
Proof.
  split; [reflexivity|]. split; [reflexivity|].
  exact (resolution_dpi_set_cases sample_world "1200" [sample_path] full_options
           sample_device_ptr sample_resolution_ptr eq_refl eq_refl).
Defined.

Lemma macro_transfer_witness :
  first_char "fire" = "f"%char
  /\ macro_calls (HButton sample_path 0 3)
       (snd (str_to_macro (Some "fire") macro_zero))
     = [Call (set_macro (HButton sample_path 0 3) (Some "foo"));
        Call (set_macro_event (HButton sample_path 0 3) 0
                RATBAG_MACRO_EVENT_KEY_PRESSED KEY_F);
        Call (set_macro_event (HButton sample_path 0 3) 1
                RATBAG_MACRO_EVENT_KEY_RELEASED KEY_F);
        Call (set_macro_event (HButton sample_path 0 3) 2
                RATBAG_MACRO_EVENT_KEY_PRESSED KEY_O);
        Call (set_macro_event (HButton sample_path 0 3) 3
                RATBAG_MACRO_EVENT_KEY_RELEASED KEY_O);
        Call (set_macro_event (HButton sample_path 0 3) 4
                RATBAG_MACRO_EVENT_KEY_PRESSED KEY_O);
        Call (set_macro_event (HButton sample_path 0 3) 5
                RATBAG_MACRO_EVENT_KEY_RELEASED KEY_O);
        Call (write_macro (HButton sample_path 0 3))].
Proof.
  split; [reflexivity|].
  exact (proj2 (macro_transfer sample_world
                  {| button_profile := sample_profile_ptr; button_index := 3;
                     button_of := sample_button |}
                  macro_zero "fire" sample_options) eq_refl).
Defined.

Lemma change_button_key_applies_witness :
  to_uint (atoi "3") < Z.of_nat (device_num_buttons sample_device)
  /\ to_uint (libevdev_event_code_from_name sample_world "KEY_A") <> 0
  /\ ratbag_cmd_change_button sample_world 3 ["3"; "key"; "KEY_A"; sample_path]
       sample_options
     = ([Acquire (HButton sample_path 0 3);
         Call (set_key (HButton sample_path 0 3) KEY_A 0);
         Call (profile_set_active (HProfile sample_path 0));
         Release (HButton sample_path 0 3)],
        Ok (SUCCESS, sample_options)).
Proof.
  assert (Hb : to_uint (atoi "3") < Z.of_nat (device_num_buttons sample_device))
    by (vm_compute; reflexivity).
  assert (Hk : to_uint (libevdev_event_code_from_name sample_world "KEY_A") <> 0)
    by (vm_compute; discriminate).
  split; [exact Hb|]. split; [exact Hk|].
  exact (change_button_key_applies sample_world "3" "KEY_A" [sample_path] sample_options
           sample_device_ptr sample_profile_ptr eq_refl eq_refl eq_refl Hb Hk).
Defined.

Lemma change_button_rejections_touch_nothing_witness :
  ratbag_cmd_change_button sample_world 3 ["3"; "key"; "KEY_RESERVED"] sample_options
    = ([Stderr "Failed to resolve key %s\n" [ArgStr "KEY_RESERVED"]],
       Ok (ERR_USAGE, sample_options))
  /\ neutral [Stderr "Failed to resolve key %s\n" [ArgStr "KEY_RESERVED"]]
  /\ no_calls [Stderr "Failed to resolve key %s\n" [ArgStr "KEY_RESERVED"]] = true
  /\ no_acquire [Stderr "Failed to resolve key %s\n" [ArgStr "KEY_RESERVED"]] = true.
Proof.
  assert (Hrun :
    ratbag_cmd_change_button sample_world 3 ["3"; "key"; "KEY_RESERVED"] sample_options
    = ([Stderr "Failed to resolve key %s\n" [ArgStr "KEY_RESERVED"]],
       Ok (ERR_USAGE, sample_options))) by reflexivity.
  split; [exact Hrun|].
  pose proof (change_button_rejections_touch_nothing sample_world 3
                ["3"; "key"; "KEY_RESERVED"] sample_options _ _ _ Hrun) as H.
  split; [exact (proj1 (proj2 H)) | exact (proj2 (proj2 (proj2 H)) eq_refl)].
Defined.

Lemma list_supported_devices_lines_witness :
  ratbag_cmd_list_supported_devices sample_world 1 [sample_path] options_zero
    = ([], Ok (ERR_USAGE, options_zero))
  /\ ratbag_cmd_list_supported_devices sample_world 0 [] options_zero
     = ([Acquire (HDevice sample_path);
         Stdout "%s:\t%s\n" [ArgStr sample_path; ArgStr "Sample Mouse"];
         Release (HDevice sample_path)],
        Ok (SUCCESS, options_zero))
  /\ ratbag_cmd_list_supported_devices broken_world 0 [] options_zero
     = ([], Ok (SUCCESS, options_zero)).
Proof.
  split; [|split].
  - apply (proj1 (list_supported_devices_lines sample_world 1 [sample_path]
                    options_zero)).
    discriminate.
  - exact (proj2 (list_supported_devices_lines sample_world 0 [] options_zero) eq_refl).
  - exact (proj2 (list_supported_devices_lines broken_world 0 [] options_zero) eq_refl).
Defined.

Lemma info_only_reads_witness :
  device (options_with plain_device)
    = Some {| device_path := sample_path; device_of := plain_device |}
  /\ exists t,
       ratbag_cmd_info 0 [] (options_with plain_device)
         = (t, Ok (SUCCESS, options_with plain_device))
       /\ neutral t /\ no_calls t = true /\ no_stderr t = true.
Proof.
  split; [reflexivity|].
  exact (info_only_reads 0 [] (options_with plain_device)
           {| device_path := sample_path; device_of := plain_device |} eq_refl).
Defined.

Lemma switch_etekcity_cases_witness :
  (8 <= device_num_buttons (device_of (profile_device sample_profile_ptr)))%nat
  /\ ratbag_cmd_switch_etekcity sample_world 0 [] sample_options
     = ([Acquire (HButton sample_path 0 6); Acquire (HButton sample_path 0 7);
         Release (HButton sample_path 0 6); Release (HButton sample_path 0 7);
         Stdout "Switched the current profile of '%s' to %sreport the volume keys\n"
           [ArgStr "Sample Mouse"; ArgStr ""]],
        Ok (SUCCESS, sample_options)).
Proof.
  assert (Hn : (8 <= device_num_buttons (device_of (profile_device sample_profile_ptr)))%nat)
    by (cbn; lia).
  split; [exact Hn|].
  exact (switch_etekcity_cases sample_world 0 [] sample_options sample_device_ptr
           sample_profile_ptr eq_refl eq_refl eq_refl Hn).
Defined.

Lemma switch_etekcity_unchecked_buttons_witness :
  ratbag_cmd_switch_etekcity sample_world 0 []
    (with_profile
       (Some {| profile_device := {| device_path := sample_path; device_of := plain_device |};
                profile_index := 0; profile_of := sample_profile true |})
       (options_with plain_device))
    = ([Stderr "Device '%s' has no switchable profiles\n" [ArgStr "Plain Mouse"]],
       Ok (ERR_UNSUPPORTED,
           with_profile
             (Some {| profile_device :=
                        {| device_path := sample_path; device_of := plain_device |};
                      profile_index := 0; profile_of := sample_profile true |})
             (options_with plain_device)))
  /\ (device_num_buttons idle_device <= 6)%nat
  /\ snd (ratbag_cmd_switch_etekcity sample_world 0 []
            (with_profile
               (Some {| profile_device :=
                          {| device_path := sample_path; device_of := idle_device |};
                        profile_index := 0; profile_of := sample_profile false |})
               (options_with idle_device)))
     = Undefined.
Proof.
  assert (Hn : (device_num_buttons idle_device <= 6)%nat) by (cbn; lia).
  split; [|split; [exact Hn|]].
  - exact (proj1 (switch_etekcity_unchecked_buttons sample_world 0 []
                    (with_profile
                       (Some {| profile_device :=
                                  {| device_path := sample_path;
                                     device_of := plain_device |};
                                profile_index := 0; profile_of := sample_profile true |})
                       (options_with plain_device))
                    {| device_path := sample_path; device_of := plain_device |}
                    {| profile_device :=
                         {| device_path := sample_path; device_of := plain_device |};
                       profile_index := 0; profile_of := sample_profile true |}
                    eq_refl eq_refl) eq_refl).
  - exact (proj2 (switch_etekcity_unchecked_buttons sample_world 0 []
                    (with_profile
                       (Some {| profile_device :=
                                  {| device_path := sample_path;
                                     device_of := idle_device |};
                                profile_index := 0; profile_of := sample_profile false |})
                       (options_with idle_device))
                    {| device_path := sample_path; device_of := idle_device |}
                    {| profile_device :=
                         {| device_path := sample_path; device_of := idle_device |};
                       profile_index := 0; profile_of := sample_profile false |}
                    eq_refl eq_refl) eq_refl Hn).
Defined.


Lemma main_without_command_witness :
  create_context broken_world = false
  /\ main broken_world [] ["info"; sample_path]
     = ([Stderr "Failed to initialize ratbag\n" []], Ok (ERR_DEVICE, options_zero))
  /\ create_context sample_world = true
  /\ fst (main sample_world [OPT_VERBOSE None] [])
     = [Acquire HContext; Release HContext] ++ usage sample_world
  /\ exit_code (main sample_world [OPT_VERBOSE None] []) = Some ERR_USAGE.
Proof.
  split; [reflexivity|]. split.
  - exact (proj1 (main_without_command broken_world [] ["info"; sample_path]) eq_refl).
  - split; [reflexivity|].
    exact (proj2 (main_without_command sample_world [OPT_VERBOSE None] [])
             eq_refl eq_refl).
Defined.

Lemma main_sets_log_priority_witness :
  create_context sample_world = true
  /\ exists t',
       fst (main sample_world [OPT_VERBOSE None; OPT_VERBOSE (Some "raw")] ["list"])
       = Acquire HContext
         :: [Call (log_set_priority true)]
         ++ fst (run_subcommand sample_world (Some "list") ratbag_commands 1 ["list"]
                   {| opt_flags := Z.lor FLAG_VERBOSE FLAG_VERBOSE_RAW; device := None;
                      profile := None; resolution := None; button := -1 |})
         ++ t'.
Proof.
  split; [reflexivity|].
  exact (main_sets_log_priority sample_world
           [OPT_VERBOSE None; OPT_VERBOSE (Some "raw")] "list" [] eq_refl eq_refl).
Defined.


Lemma exit_codes_witness :
  main sample_world [] ["list"]
    = ([Acquire HContext; Acquire (HDevice sample_path);
        Stdout "%s:\t%s\n" [ArgStr sample_path; ArgStr "Sample Mouse"];
        Release (HDevice sample_path); Release HContext],
       Ok (SUCCESS,
           {| opt_flags := 0; device := None; profile := None; resolution := None;
              button := -1 |}))
  /\ (SUCCESS = SUCCESS \/ SUCCESS = ERR_UNSUPPORTED \/ SUCCESS = ERR_USAGE
      \/ SUCCESS = ERR_DEVICE)
  /\ run_subcommand sample_world (Some "bogus") ratbag_commands 1 ["bogus"] options_zero
     = ([Stderr "Invalid subcommand '%s'\n" [ArgStr "bogus"]],
        Ok (ERR_USAGE, options_zero))
  /\ (ERR_USAGE = SUCCESS \/ ERR_USAGE = ERR_UNSUPPORTED \/ ERR_USAGE = ERR_USAGE
      \/ ERR_USAGE = ERR_DEVICE).
Proof.
  assert (Hmain : main sample_world [] ["list"]
    = ([Acquire HContext; Acquire (HDevice sample_path);
        Stdout "%s:\t%s\n" [ArgStr sample_path; ArgStr "Sample Mouse"];
        Release (HDevice sample_path); Release HContext],
       Ok (SUCCESS,
           {| opt_flags := 0; device := None; profile := None; resolution := None;
              button := -1 |}))) by reflexivity.
  assert (Hsub :
    run_subcommand sample_world (Some "bogus") ratbag_commands 1 ["bogus"] options_zero
    = ([Stderr "Invalid subcommand '%s'\n" [ArgStr "bogus"]],
       Ok (ERR_USAGE, options_zero))) by reflexivity.
  split; [exact Hmain|]. split.
  - exact (proj1 (exit_codes sample_world) _ _ _ _ _ Hmain).
  - split; [exact Hsub|].
    exact (proj2 (exit_codes sample_world) _ _ _ _ _ _ _ _ Hsub).
Defined.

Lemma dpi_get_end_to_end_witness :
  open_device sample_world sample_path = Some sample_device
  /\ fst (main sample_world [] ["dpi"; "get"; sample_path])
     = [Acquire HContext; Acquire (HDevice sample_path);
        Acquire (HProfile sample_path 0);
        Acquire (HResolution sample_path 0 0); Release (HResolution sample_path 0 0);
        Acquire (HResolution sample_path 0 1);
        Stdout "%d\n" [ArgInt 800];
        Release (HResolution sample_path 0 1); Release (HProfile sample_path 0);
        Release (HDevice sample_path); Release HContext]
  /\ exit_code (main sample_world [] ["dpi"; "get"; sample_path]) = Some SUCCESS
  /\ fst (main sample_world [] ["resolution"; "dpi"; "get"; sample_path])
     = fst (main sample_world [] ["dpi"; "get"; sample_path])
  /\ exit_code (main sample_world [] ["resolution"; "dpi"; "get"; sample_path])
     = Some SUCCESS.
Proof.
  split; [reflexivity|].
  pose proof (dpi_get_end_to_end sample_world sample_path sample_device 0
                (sample_profile true) 1 (sample_resolution true 800)
                eq_refl eq_refl eq_refl eq_refl eq_refl eq_refl) as H.
  cbv zeta in H. destruct H as (H1 & H2 & H3 & H4).
  split; [exact H1|]. split; [exact H2|]. split; [|exact H4].
  exact (eq_trans H3 (eq_sym H1)).
Defined.

Lemma profile_index_then_path_witness :
  strtod_full "1" = true
  /\ at_index (device_profiles sample_device) (strtod_int sample_world "1")
     = Some (sample_profile false)
  /\ fst (main sample_world [] ["profile"; "1"; sample_path])
     = [Acquire HContext; Acquire (HDevice sample_path);
        Acquire (HProfile sample_path 1);
        Stderr "Invalid subcommand '%s'\n" [ArgStr sample_path];
        Release (HProfile sample_path 1); Release (HDevice sample_path);
        Release HContext] ++ usage sample_world
  /\ exit_code (main sample_world [] ["profile"; "1"; sample_path]) = Some ERR_USAGE.
Proof.
  split; [reflexivity|]. split; [reflexivity|].
  refine (profile_index_then_path sample_world "1" sample_path sample_device
            (sample_profile false) eq_refl eq_refl eq_refl eq_refl _ _ _);
    discriminate.
Defined.

Lemma usage_row_dots_witness :
  help cmd_info = Some "Show information about the device's capabilities"
  /\ exists e,
       usage_line cmd_info "ratbag-command " = [e]
       /\ usage_row e = Some ("ratbag-command ", "info", 21).
Proof.
  split; [reflexivity|].
  refine (usage_row_dots cmd_info "ratbag-command "
            "Show information about the device's capabilities" eq_refl _ _ _).
  - vm_compute. reflexivity.
  - vm_compute. exact I.
  - vm_compute. reflexivity.
Defined.

Lemma resolution_token_routing_witness :
  is_integer_literal "1" = true /\ strtod_full "dpi" = false
  /\ ratbag_cmd_resolution sample_world accept_all 2 ["1"; "dpi"] sample_options
     = ([Acquire (HResolution sample_path 0 1)],
        Ok (SUCCESS, with_resolution (Some sample_resolution_ptr) sample_options))
  /\ ratbag_cmd_resolution sample_world accept_all 2 ["dpi"; "get"] sample_options
     = ([Acquire (HResolution sample_path 0 0); Release (HResolution sample_path 0 0);
         Acquire (HResolution sample_path 0 1)],
        Ok (SUCCESS, with_resolution (Some sample_resolution_ptr) sample_options)).
Proof.
  assert (Hargc : 1 <= 2) by lia.
  split; [reflexivity|]. split; [reflexivity|]. split.
  - exact (eq_trans
             (proj1 (resolution_token_routing sample_world accept_all 2 "1" ["dpi"]
                       sample_options Hargc) eq_refl)
             eq_refl).
  - exact (eq_trans
             (proj2 (resolution_token_routing sample_world accept_all 2 "dpi" ["get"]
                       sample_options Hargc) eq_refl)
             eq_refl).
Defined.
